(** * Verification of the universal module generator (scripts/module-generator.py)

    A shallow embedding of the generator and of the properties its
    specification states.

    - Python [str] values are Rocq strings over 8-bit characters. The
      string primitives are those of Python on ASCII text (every code below
      128, [is_ascii]): there [lower], [capitalize] and [strip] act on the
      letters A-Z, a-z and the ASCII whitespace exactly as Python's do. On
      other codes the primitives leave the character as it stands, which
      Python's Unicode case mappings do not; a property that would need
      them is stated for ASCII names.
    - The [(name, type, required)] tuples are triples; [self] is a record.
    - The generator classes are modules that keep the method names of the
      source; a template is the list of its lines, literal text and
      interpolated values in the order of the f-string.
    - What can raise in Python ([l[0]], tuple unpacking, [d[k]], the
      [choices] check of [argparse]) returns a [result].
    - [write_file] runs against a file system [Disk] that accepts a write
      or refuses it with [OSError] or [UnicodeEncodeError], as [mkdir] and
      [write_text] do; an accepted write is appended to a log of written
      files, and the writes made before a refusal stay. A [pathlib.Path] is
      the sequence of the operands of [/].
    - The pagination arithmetic that the Go templates emit is modelled as
      functions on Go integers in [GeneratedGo]. *)

From Stdlib Require Import Ascii String ZArith Lia Bool.
From stdpp Require Import base option list strings gmap.

(** ** Python string primitives *)

Definition dq : string := String (ascii_of_nat 34) EmptyString.
Definition nl : string := String (ascii_of_nat 10) EmptyString.
Definition tab : string := String (ascii_of_nat 9) EmptyString.

Definition is_upper (c : ascii) : bool :=
  let n := nat_of_ascii c in (65 <=? n)%nat && (n <=? 90)%nat.
Definition is_lower (c : ascii) : bool :=
  let n := nat_of_ascii c in (97 <=? n)%nat && (n <=? 122)%nat.

Definition lower_char (c : ascii) : ascii :=
  if is_upper c then ascii_of_nat (nat_of_ascii c + 32) else c.
Definition upper_char (c : ascii) : ascii :=
  if is_lower c then ascii_of_nat (nat_of_ascii c - 32) else c.

(** [str.isspace] on one ASCII character: TAB, LF, VT, FF, CR, the four
    separators FS, GS, RS, US, and the space. Python's [strip] also removes
    the Unicode spaces (U+0085, U+00A0, U+2028, ...): no code from 128 on is
    a space here. *)
Definition is_space (c : ascii) : bool :=
  let n := nat_of_ascii c in
  ((9 <=? n)%nat && (n <=? 13)%nat) || ((28 <=? n)%nat && (n <=? 32)%nat).

Fixpoint str_map (f : ascii -> ascii) (s : string) : string :=
  match s with
  | EmptyString => EmptyString
  | String c r => String (f c) (str_map f r)
  end.

(** [s.lower()] of an ASCII string: A-Z to a-z, every other character
    kept. Python also maps the cased letters beyond ASCII, some of them to
    more than one character (U+0130). *)
Definition str_lower (s : string) : string := str_map lower_char s.

(** [s.capitalize()] of an ASCII string: first character upper-cased, the
    rest lower-cased. Beyond ASCII Python title-cases the first character,
    which may give more than one character (U+00DF, U+FB01). *)
Definition str_capitalize (s : string) : string :=
  match s with
  | EmptyString => EmptyString
  | String c r => String (upper_char c) (str_lower r)
  end.

(** [s.replace(old, new)] for one-character [old] and [new], the only use
    the generator makes of it. *)
Definition str_replace (old new : ascii) (s : string) : string :=
  str_map (fun c => if Ascii.eqb c old then new else c) s.

(** [s.split(sep)] for a one-character separator: never the empty list. *)
Fixpoint str_split (sep : ascii) (s : string) : list string :=
  match s with
  | EmptyString => [EmptyString]
  | String c r =>
      if Ascii.eqb c sep then EmptyString :: str_split sep r
      else match str_split sep r with
           | w :: ws => String c w :: ws
           | [] => [String c EmptyString]
           end
  end.

(** [s.split(sep, 1)]: at most one cut, at the first separator. *)
Fixpoint str_split1 (sep : ascii) (s : string) : list string :=
  match s with
  | EmptyString => [EmptyString]
  | String c r =>
      if Ascii.eqb c sep then [EmptyString; r]
      else match str_split1 sep r with
           | w :: ws => String c w :: ws
           | [] => [String c EmptyString]
           end
  end.

(** [sep in s] for a one-character [sep]. *)
Fixpoint str_contains_char (sep : ascii) (s : string) : bool :=
  match s with
  | EmptyString => false
  | String c r => Ascii.eqb c sep || str_contains_char sep r
  end.

Fixpoint lstrip_by (p : ascii -> bool) (s : string) : string :=
  match s with
  | EmptyString => EmptyString
  | String c r => if p c then lstrip_by p r else s
  end.

Fixpoint rstrip_by (p : ascii -> bool) (s : string) : string :=
  match s with
  | EmptyString => EmptyString
  | String c r =>
      match rstrip_by p r with
      | EmptyString => if p c then EmptyString else String c EmptyString
      | r' => String c r'
      end
  end.

(** [s.strip()], [s.rstrip(ch)], [s.lstrip(ch)] *)
Definition str_strip (s : string) : string := rstrip_by is_space (lstrip_by is_space s).
Definition str_rstrip (ch : ascii) (s : string) : string := rstrip_by (Ascii.eqb ch) s.
Definition str_lstrip (ch : ascii) (s : string) : string := lstrip_by (Ascii.eqb ch) s.

Fixpoint str_startswith (s pre : string) : bool :=
  match pre, s with
  | EmptyString, _ => true
  | String a p, String c r => Ascii.eqb c a && str_startswith r p
  | String _ _, EmptyString => false
  end.

(** [s.endswith(suf)]: [s] is [suf], or the tail of [s] ends with [suf]. *)
Fixpoint str_endswith (s suf : string) : bool :=
  String.eqb s suf ||
  match s with
  | EmptyString => false
  | String _ r => str_endswith r suf
  end.

(** [s.endswith((a, b, ...))] with a tuple of suffixes. *)
Definition str_endswith_any (s : string) (sufs : list string) : bool :=
  existsb (str_endswith s) sufs.

(** [s[:-1]] *)
Fixpoint str_drop_last (s : string) : string :=
  match s with
  | EmptyString => EmptyString
  | String c EmptyString => EmptyString
  | String c r => String c (str_drop_last r)
  end.

(** [sep.join(l)] *)
Fixpoint str_join (sep : string) (l : list string) : string :=
  match l with
  | [] => EmptyString
  | [x] => x
  | x :: xs => x +:+ sep +:+ str_join sep xs
  end.

(** Substring test and first index of a substring ([sub in s], [s.find(sub)]),
    used to inspect generated text. *)
Fixpoint str_find_from (i : nat) (sub s : string) : option nat :=
  if str_startswith s sub then Some i
  else match s with
       | EmptyString => None
       | String _ r => str_find_from (S i) sub r
       end.
Definition str_find (sub s : string) : option nat := str_find_from 0 sub s.
Definition str_contains (sub s : string) : bool :=
  match str_find sub s with Some _ => true | None => false end.

(** A template body: every line followed by a newline. *)
Fixpoint unlines (ls : list string) : string :=
  match ls with
  | [] => EmptyString
  | l :: ls' => l +:+ nl +:+ unlines ls'
  end.

(** [n] leading tabs before a line of generated Go code. *)
Fixpoint ind (n : nat) (s : string) : string :=
  match n with
  | O => s
  | S n' => tab +:+ ind n' s
  end.

(** ** Exceptions and the written files *)

(** What [mkdir] and [write_text] raise. *)
Inductive io_exn : Type :=
  | OSError                 (* the file or one of its directories cannot be made *)
  | UnicodeEncodeError.     (* the text cannot be encoded *)

Inductive exn : Type :=
  | ArgparseInvalidChoice   (* parser.error: the stack is not among the choices *)
  | KeyError                (* d[k] on a missing key *)
  | ValueError              (* tuple unpacking of a wrong-sized sequence *)
  | IndexError              (* l[i] out of range *)
  | IO (e : io_exn).        (* raised by the file system in write_file *)

Inductive result (A : Type) : Type :=
  | Ok (a : A)
  | Raise (e : exn).
Arguments Ok {A} a.
Arguments Raise {A} e.

#[export] Instance result_ret : MRet result := fun _ a => Ok a.
#[export] Instance result_bind : MBind result := fun _ _ f m =>
  match m with
  | Ok a => f a
  | Raise e => Raise e
  end.
#[export] Instance result_fmap : FMap result := fun _ _ f m =>
  match m with
  | Ok a => Ok (f a)
  | Raise e => Raise e
  end.

(** [a, b = l] *)
Definition unpack2 (l : list string) : result (string * string) :=
  match l with
  | [a; b] => Ok (a, b)
  | _ => Raise ValueError
  end.

(** [l[i]] *)
Definition index {A} (l : list A) (i : nat) : result A :=
  match l !! i with
  | Some a => Ok a
  | None => Raise IndexError
  end.

(** [[f(x) for x in l]] where [f] may raise: left to right, first failure wins. *)
Fixpoint mapR {A B} (f : A -> result B) (l : list A) : result (list B) :=
  match l with
  | [] => Ok []
  | x :: xs => y ← f x; ys ← mapR f xs; mret (y :: ys)
  end.

(** ** BaseGenerator *)

Definition Field : Type := string * string * bool.
Definition fname (f : Field) : string := f.1.1.
Definition ftype (f : Field) : string := f.1.2.
Definition frequired (f : Field) : bool := f.2.

(** A [pathlib.Path] built by [/]: the operands in order, the output
    directory first, kept as they are given. [pathlib] goes on to normalise
    them (it drops an empty or ['.'] operand, cuts an operand at its ['/']
    and starts again at an absolute one), so the path on disk is a function
    of this sequence: equal sequences are equal paths, and only that is
    used of paths below. *)
Definition Path : Type := list string.
Definition pdiv (p : Path) (seg : string) : Path := p ++ [seg].
Infix "//" := pdiv (at level 40, left associativity).

Record Options := { validators : bool }.

(** The files written so far, oldest first: [write_file] creates the parent
    directories and overwrites, so a run is its sequence of completed
    writes. *)
Definition FS : Type := list (Path * string).

(** The file system under the run: whether
    [path.parent.mkdir(parents=True, exist_ok=True); path.write_text(content)]
    goes through ([None]) or raises, given what the run wrote before. The
    files that were there before the run, the permissions, the length limits
    and the encoding are what one [Disk] stands for. *)
Definition Disk : Type := FS -> Path -> string -> option io_exn.

(** Code that writes files and may raise: the writes made before an
    exception stay. *)
Definition M (A : Type) : Type := FS -> FS * result A.

#[export] Instance M_ret : MRet M := fun _ a fs => (fs, Ok a).
#[export] Instance M_bind : MBind M := fun _ _ f m fs =>
  match m fs with
  | (fs', Ok a) => f a fs'
  | (fs', Raise e) => (fs', Raise e)
  end.

Definition lift {A} (r : result A) : M A := fun fs => (fs, r).

(** [BaseGenerator.write_file]: [mkdir] and [write_text], then
    [return str(path)]; the returned [str(path)] is kept as the path. A
    refusal of the file system is raised, and the file is not counted as
    written (on disk it may be missing, empty or cut short). *)
Definition write_file (disk : Disk) (path : Path) (content : string) : M Path :=
  fun fs =>
    match disk fs path content with
    | None => (fs ++ [(path, content)], Ok path)
    | Some e => (fs, Raise (IO e))
    end.

(** [files.append(self.write_file(path, template()))]: the path is built,
    the template rendered, the file written, its path appended. *)
Definition emit (disk : Disk) (files : list Path) (path : Path)
    (content : result string) : M (list Path) :=
  c ← lift content;
  p ← write_file disk path c;
  mret (files ++ [p]).

Module BaseGenerator.

Definition to_pascal_case (name : string) : string :=
  str_join "" (map str_capitalize (str_split "_"%char (str_replace "-"%char "_"%char name))).

Definition to_camel_case (name : string) : result string :=
  let words := str_split "_"%char (str_replace "-"%char "_"%char name) in
  w0 ← index words 0;
  mret (str_lower w0 +:+ str_join "" (map str_capitalize (drop 1 words))).

Definition to_snake_case (name : string) : string :=
  str_replace "-"%char "_"%char (str_lower name).

Definition to_kebab_case (name : string) : string :=
  str_replace "_"%char "-"%char (str_lower name).

Definition pluralize (name : string) : string :=
  if str_endswith name "y" then str_drop_last name +:+ "ies"
  else if str_endswith_any name ["s"; "x"; "ch"; "sh"] then name +:+ "es"
  else name +:+ "s".

End BaseGenerator.

Record Generator := {
  module_name : string;
  entity_name : string;
  project : string;
  output_dir : Path;
  options : Options;
  fields : list Field
}.

(** The loop shared, character for character, by the four [parse_fields]
    methods; they differ in the default type only. *)
Definition parse_field_step (default_type : string) (acc : result (list Field))
    (field : string) : result (list Field) :=
  fields ← acc;
  let field := str_strip field in
  if String.eqb field "" then mret fields
  else
    let required := negb (str_endswith field "?") in
    let field := str_rstrip "?"%char field in
    '(name, ty) ← (if str_contains_char ":"%char field
                   then unpack2 (str_split1 ":"%char field)
                   else mret (field, default_type));
    mret (fields ++ [(str_strip name, str_strip ty, required)]).

Definition parse_fields_with (default_type : string) (fields_str : string)
    : result (list Field) :=
  foldl (parse_field_step default_type) (Ok []) (str_split ","%char fields_str).


(** [BaseGenerator.__init__], with the subclass's [parse_fields]. *)
Definition init (parse_fields : string -> result (list Field))
    (name fields_str project output_dir : string) (options : Options)
    : result Generator :=
  let module_name := str_lower name in
  let entity_name := BaseGenerator.to_pascal_case name in
  fields ← parse_fields fields_str;
  mret {| module_name := module_name;
          entity_name := entity_name;
          project := project;
          output_dir := [output_dir];
          options := options;
          fields := fields |}.

(** ** GoGenerator *)

Module GoGenerator.
Import BaseGenerator.

Definition parse_fields (fields_str : string) : result (list Field) :=
  parse_fields_with "string" fields_str.

Definition type_map : gmap string string :=
  list_to_map [
    ("string", "varchar(255)"); ("*string", "varchar(255)");
    ("int", "int"); ("int32", "int"); ("int64", "bigint");
    ("*int", "int"); ("*int64", "bigint");
    ("float32", "float"); ("float64", "double");
    ("bool", "boolean"); ("*bool", "boolean");
    ("time.Time", "datetime")
  ].

Definition _gorm_type (go_type : string) : string :=
  default "varchar(255)" (type_map !! go_type).

(** [t if r or t.startswith("*") else "*"+t] *)
Definition nullable_type (t : string) (r : bool) : string :=
  if r || str_startswith t "*" then t else "*" +:+ t.

Definition model_field (f : Field) : string :=
  let '(n, t, r) := f in
  tab +:+ to_pascal_case n +:+ " " +:+ nullable_type t r +:+ " `gorm:" +:+ dq
    +:+ "type:" +:+ _gorm_type t +:+ dq +:+ " json:" +:+ dq +:+ n +:+ dq +:+ "`".

Definition _model_template (g : Generator) : string :=
  let fields_str := str_join nl (map model_field (fields g)) in
  unlines [
    "package database";
    "";
    "import (";
    ind 1 (dq +:+ "time" +:+ dq);
    "";
    ind 1 (dq +:+ "github.com/google/uuid" +:+ dq);
    ind 1 (dq +:+ "gorm.io/gorm" +:+ dq);
    ")";
    "";
    "type " +:+ (entity_name g) +:+ " struct {";
    ind 1 ("ID        string         `gorm:" +:+ dq +:+ "type:char(36);primaryKey" +:+ dq +:+ " json:" +:+ dq +:+ "id" +:+ dq +:+ "`");
    fields_str;
    ind 1 ("CreatedAt time.Time      `json:" +:+ dq +:+ "created_at" +:+ dq +:+ "`");
    ind 1 ("UpdatedAt time.Time      `json:" +:+ dq +:+ "updated_at" +:+ dq +:+ "`");
    ind 1 ("DeletedAt gorm.DeletedAt `gorm:" +:+ dq +:+ "index" +:+ dq +:+ " json:" +:+ dq +:+ "-" +:+ dq +:+ "`");
    "}";
    "";
    "func (e *" +:+ (entity_name g) +:+ ") BeforeCreate(tx *gorm.DB) error {";
    ind 1 ("if e.ID == " +:+ dq +:+ dq +:+ " {");
    ind 2 "e.ID = uuid.New().String()";
    ind 1 "}";
    ind 1 "return nil";
    "}"
  ].

Definition dto_create_field (f : Field) : string :=
  let '(n, t, r) := f in
  tab +:+ to_pascal_case n +:+ " " +:+ t +:+ " `json:" +:+ dq +:+ n +:+ dq
    +:+ " binding:" +:+ dq +:+ (if r then "required" else "omitempty") +:+ dq +:+ "`".

Definition dto_update_field (f : Field) : string :=
  let '(n, t, _) := f in
  tab +:+ to_pascal_case n +:+ " *" +:+ str_lstrip "*"%char t +:+ " `json:" +:+ dq +:+ n +:+ dq +:+ "`".

Definition dto_response_field (f : Field) : string :=
  let '(n, t, r) := f in
  tab +:+ to_pascal_case n +:+ " " +:+ nullable_type t r +:+ " `json:" +:+ dq +:+ n +:+ dq +:+ "`".

Definition dto_mapping (f : Field) : string :=
  let '(n, _, _) := f in
  tab +:+ tab +:+ to_pascal_case n +:+ ": entity." +:+ to_pascal_case n +:+ ",".

Definition _dto_template (g : Generator) : string :=
  let create_fields := str_join nl (map dto_create_field (fields g)) in
  let update_fields := str_join nl (map dto_update_field (fields g)) in
  let response_fields := str_join nl (map dto_response_field (fields g)) in
  let mappings := str_join nl (map dto_mapping (fields g)) in
  unlines [
    "package dtos";
    "";
    "import " +:+ dq +:+ (project g) +:+ "/pkg/database" +:+ dq;
    "";
    "type Create" +:+ (entity_name g) +:+ "Request struct {";
    create_fields;
    "}";
    "";
    "type Update" +:+ (entity_name g) +:+ "Request struct {";
    update_fields;
    "}";
    "";
    "type List" +:+ (entity_name g) +:+ "Request struct {";
    ind 1 ("Page    int    `form:" +:+ dq +:+ "page" +:+ dq +:+ " binding:" +:+ dq +:+ "omitempty,min=1" +:+ dq +:+ "`");
    ind 1 ("PerPage int    `form:" +:+ dq +:+ "per_page" +:+ dq +:+ " binding:" +:+ dq +:+ "omitempty,min=1,max=100" +:+ dq +:+ "`");
    ind 1 ("Search  string `form:" +:+ dq +:+ "search" +:+ dq +:+ "`");
    "}";
    "";
    "type " +:+ (entity_name g) +:+ "Response struct {";
    ind 1 ("ID        string `json:" +:+ dq +:+ "id" +:+ dq +:+ "`");
    response_fields;
    ind 1 ("CreatedAt string `json:" +:+ dq +:+ "created_at" +:+ dq +:+ "`");
    "}";
    "";
    "type " +:+ (entity_name g) +:+ "ListResponse struct {";
    ind 1 ("Items      []*" +:+ (entity_name g) +:+ "Response `json:" +:+ dq +:+ "items" +:+ dq +:+ "`");
    ind 1 ("Page       int                           `json:" +:+ dq +:+ "page" +:+ dq +:+ "`");
    ind 1 ("PerPage    int                           `json:" +:+ dq +:+ "per_page" +:+ dq +:+ "`");
    ind 1 ("Total      int64                         `json:" +:+ dq +:+ "total" +:+ dq +:+ "`");
    ind 1 ("TotalPages int                           `json:" +:+ dq +:+ "total_pages" +:+ dq +:+ "`");
    "}";
    "";
    "func To" +:+ (entity_name g) +:+ "Response(entity *database." +:+ (entity_name g) +:+ ") *" +:+ (entity_name g) +:+ "Response {";
    ind 1 ("return &" +:+ (entity_name g) +:+ "Response{");
    ind 2 "ID:        entity.ID,";
    mappings;
    ind 2 ("CreatedAt: entity.CreatedAt.Format(" +:+ dq +:+ "2006-01-02T15:04:05Z" +:+ dq +:+ "),");
    ind 1 "}";
    "}";
    "";
    "func To" +:+ (entity_name g) +:+ "ListResponse(entities []*database." +:+ (entity_name g) +:+ ", page, perPage int, total int64) *" +:+ (entity_name g) +:+ "ListResponse {";
    ind 1 ("items := make([]*" +:+ (entity_name g) +:+ "Response, len(entities))");
    ind 1 "for i, e := range entities {";
    ind 2 ("items[i] = To" +:+ (entity_name g) +:+ "Response(e)");
    ind 1 "}";
    ind 1 "totalPages := int(total) / perPage";
    ind 1 "if int(total)%perPage > 0 {";
    ind 2 "totalPages++";
    ind 1 "}";
    ind 1 ("return &" +:+ (entity_name g) +:+ "ListResponse{Items: items, Page: page, PerPage: perPage, Total: total, TotalPages: totalPages}");
    "}"
  ].

(** [next((n for n, t, _ in self.fields
          if t == 'string' and not n.endswith('_id')), 'name')] *)
Definition search_field (fs : list Field) : string :=
  match filter (fun f : Field => String.eqb (ftype f) "string"
                                 && negb (str_endswith (fname f) "_id")) fs with
  | f :: _ => fname f
  | [] => "name"
  end.

Definition usecase_create_item (f : Field) : string :=
  let '(n, _, _) := f in
  tab +:+ tab +:+ to_pascal_case n +:+ ": req." +:+ to_pascal_case n +:+ ",".

Definition usecase_update_item (f : Field) : string :=
  let '(n, _, _) := f in
  tab +:+ "if req." +:+ to_pascal_case n +:+ " != nil {" +:+ nl
    +:+ tab +:+ tab +:+ "updates[" +:+ dq +:+ n +:+ dq +:+ "] = *req." +:+ to_pascal_case n +:+ nl
    +:+ tab +:+ "}".

Definition _usecase_template (g : Generator) : string :=
  let search_field := search_field (fields g) in
  let create_map := str_join nl (map usecase_create_item (fields g)) in
  let update_map := str_join nl (map usecase_update_item (fields g)) in
  unlines [
    "package usecases";
    "";
    "import (";
    ind 1 (dq +:+ "context" +:+ dq);
    "";
    ind 1 (dq +:+ "gorm.io/gorm" +:+ dq);
    "";
    ind 1 (dq +:+ (project g) +:+ "/internal/modules/" +:+ (module_name g) +:+ "/dtos" +:+ dq);
    ind 1 (dq +:+ (project g) +:+ "/pkg/database" +:+ dq);
    ")";
    "";
    "type " +:+ (entity_name g) +:+ "Usecase struct {";
    ind 1 "db *gorm.DB";
    "}";
    "";
    "func New" +:+ (entity_name g) +:+ "Usecase(db *gorm.DB) *" +:+ (entity_name g) +:+ "Usecase {";
    ind 1 ("return &" +:+ (entity_name g) +:+ "Usecase{db: db}");
    "}";
    "";
    "func (u *" +:+ (entity_name g) +:+ "Usecase) Create(ctx context.Context, req *dtos.Create" +:+ (entity_name g) +:+ "Request) (*database." +:+ (entity_name g) +:+ ", error) {";
    ind 1 ("entity := &database." +:+ (entity_name g) +:+ "{");
    create_map;
    ind 1 "}";
    ind 1 "if err := u.db.WithContext(ctx).Create(entity).Error; err != nil {";
    ind 2 "return nil, err";
    ind 1 "}";
    ind 1 "return entity, nil";
    "}";
    "";
    "func (u *" +:+ (entity_name g) +:+ "Usecase) GetByID(ctx context.Context, id string) (*database." +:+ (entity_name g) +:+ ", error) {";
    ind 1 ("var entity database." +:+ (entity_name g));
    ind 1 ("if err := u.db.WithContext(ctx).First(&entity, " +:+ dq +:+ "id = ?" +:+ dq +:+ ", id).Error; err != nil {");
    ind 2 "return nil, err";
    ind 1 "}";
    ind 1 "return &entity, nil";
    "}";
    "";
    "func (u *" +:+ (entity_name g) +:+ "Usecase) Update(ctx context.Context, id string, req *dtos.Update" +:+ (entity_name g) +:+ "Request) (*database." +:+ (entity_name g) +:+ ", error) {";
    ind 1 ("var entity database." +:+ (entity_name g));
    ind 1 ("if err := u.db.WithContext(ctx).First(&entity, " +:+ dq +:+ "id = ?" +:+ dq +:+ ", id).Error; err != nil {");
    ind 2 "return nil, err";
    ind 1 "}";
    ind 1 "updates := map[string]interface{}{}";
    update_map;
    ind 1 "if len(updates) > 0 {";
    ind 2 "if err := u.db.WithContext(ctx).Model(&entity).Updates(updates).Error; err != nil {";
    ind 3 "return nil, err";
    ind 2 "}";
    ind 1 "}";
    ind 1 "return &entity, nil";
    "}";
    "";
    "func (u *" +:+ (entity_name g) +:+ "Usecase) Delete(ctx context.Context, id string) error {";
    ind 1 ("return u.db.WithContext(ctx).Delete(&database." +:+ (entity_name g) +:+ "{}, " +:+ dq +:+ "id = ?" +:+ dq +:+ ", id).Error");
    "}";
    "";
    "func (u *" +:+ (entity_name g) +:+ "Usecase) List(ctx context.Context, req *dtos.List" +:+ (entity_name g) +:+ "Request) ([]*database." +:+ (entity_name g) +:+ ", int64, error) {";
    ind 1 ("var entities []*database." +:+ (entity_name g));
    ind 1 "var total int64";
    ind 1 ("query := u.db.WithContext(ctx).Model(&database." +:+ (entity_name g) +:+ "{})");
    ind 1 ("if req.Search != " +:+ dq +:+ dq +:+ " {");
    ind 2 ("query = query.Where(" +:+ dq +:+ search_field +:+ " LIKE ?" +:+ dq +:+ ", " +:+ dq +:+ "%" +:+ dq +:+ "+req.Search+" +:+ dq +:+ "%" +:+ dq +:+ ")");
    ind 1 "}";
    ind 1 "if err := query.Count(&total).Error; err != nil {";
    ind 2 "return nil, 0, err";
    ind 1 "}";
    ind 1 "page, perPage := req.Page, req.PerPage";
    ind 1 "if page < 1 { page = 1 }";
    ind 1 "if perPage < 1 { perPage = 20 }";
    ind 1 "offset := (page - 1) * perPage";
    ind 1 ("if err := query.Offset(offset).Limit(perPage).Order(" +:+ dq +:+ "created_at DESC" +:+ dq +:+ ").Find(&entities).Error; err != nil {");
    ind 2 "return nil, 0, err";
    ind 1 "}";
    ind 1 "return entities, total, nil";
    "}"
  ].

Definition _controller_template (g : Generator) : string :=
  unlines [
    "package controllers";
    "";
    "import (";
    ind 1 (dq +:+ "net/http" +:+ dq);
    "";
    ind 1 (dq +:+ "github.com/gin-gonic/gin" +:+ dq);
    "";
    ind 1 (dq +:+ (project g) +:+ "/internal/modules/" +:+ (module_name g) +:+ "/dtos" +:+ dq);
    ind 1 (dq +:+ (project g) +:+ "/internal/modules/" +:+ (module_name g) +:+ "/usecases" +:+ dq);
    ind 1 (dq +:+ (project g) +:+ "/pkg/response" +:+ dq);
    ")";
    "";
    "type " +:+ (entity_name g) +:+ "Controller struct {";
    ind 1 ("usecase *usecases." +:+ (entity_name g) +:+ "Usecase");
    "}";
    "";
    "func New" +:+ (entity_name g) +:+ "Controller(usecase *usecases." +:+ (entity_name g) +:+ "Usecase) *" +:+ (entity_name g) +:+ "Controller {";
    ind 1 ("return &" +:+ (entity_name g) +:+ "Controller{usecase: usecase}");
    "}";
    "";
    "func (c *" +:+ (entity_name g) +:+ "Controller) Create(ctx *gin.Context) {";
    ind 1 ("var req dtos.Create" +:+ (entity_name g) +:+ "Request");
    ind 1 "if err := ctx.ShouldBindJSON(&req); err != nil {";
    ind 2 ("response.Error(ctx, http.StatusBadRequest, " +:+ dq +:+ "Invalid request: " +:+ dq +:+ "+err.Error())");
    ind 2 "return";
    ind 1 "}";
    ind 1 "entity, err := c.usecase.Create(ctx, &req)";
    ind 1 "if err != nil {";
    ind 2 "response.Error(ctx, http.StatusInternalServerError, err.Error())";
    ind 2 "return";
    ind 1 "}";
    ind 1 ("response.Created(ctx, dtos.To" +:+ (entity_name g) +:+ "Response(entity))");
    "}";
    "";
    "func (c *" +:+ (entity_name g) +:+ "Controller) GetByID(ctx *gin.Context) {";
    ind 1 ("id := ctx.Param(" +:+ dq +:+ "id" +:+ dq +:+ ")");
    ind 1 "entity, err := c.usecase.GetByID(ctx, id)";
    ind 1 "if err != nil {";
    ind 2 ("response.Error(ctx, http.StatusNotFound, " +:+ dq +:+ (entity_name g) +:+ " not found" +:+ dq +:+ ")");
    ind 2 "return";
    ind 1 "}";
    ind 1 ("response.Success(ctx, dtos.To" +:+ (entity_name g) +:+ "Response(entity))");
    "}";
    "";
    "func (c *" +:+ (entity_name g) +:+ "Controller) Update(ctx *gin.Context) {";
    ind 1 ("id := ctx.Param(" +:+ dq +:+ "id" +:+ dq +:+ ")");
    ind 1 ("var req dtos.Update" +:+ (entity_name g) +:+ "Request");
    ind 1 "if err := ctx.ShouldBindJSON(&req); err != nil {";
    ind 2 ("response.Error(ctx, http.StatusBadRequest, " +:+ dq +:+ "Invalid request: " +:+ dq +:+ "+err.Error())");
    ind 2 "return";
    ind 1 "}";
    ind 1 "entity, err := c.usecase.Update(ctx, id, &req)";
    ind 1 "if err != nil {";
    ind 2 "response.Error(ctx, http.StatusInternalServerError, err.Error())";
    ind 2 "return";
    ind 1 "}";
    ind 1 ("response.Success(ctx, dtos.To" +:+ (entity_name g) +:+ "Response(entity))");
    "}";
    "";
    "func (c *" +:+ (entity_name g) +:+ "Controller) Delete(ctx *gin.Context) {";
    ind 1 ("id := ctx.Param(" +:+ dq +:+ "id" +:+ dq +:+ ")");
    ind 1 "if err := c.usecase.Delete(ctx, id); err != nil {";
    ind 2 "response.Error(ctx, http.StatusInternalServerError, err.Error())";
    ind 2 "return";
    ind 1 "}";
    ind 1 ("response.Success(ctx, gin.H{" +:+ dq +:+ "deleted" +:+ dq +:+ ": true})");
    "}";
    "";
    "func (c *" +:+ (entity_name g) +:+ "Controller) List(ctx *gin.Context) {";
    ind 1 ("var req dtos.List" +:+ (entity_name g) +:+ "Request");
    ind 1 "if err := ctx.ShouldBindQuery(&req); err != nil {";
    ind 2 ("response.Error(ctx, http.StatusBadRequest, " +:+ dq +:+ "Invalid request: " +:+ dq +:+ "+err.Error())");
    ind 2 "return";
    ind 1 "}";
    ind 1 "entities, total, err := c.usecase.List(ctx, &req)";
    ind 1 "if err != nil {";
    ind 2 "response.Error(ctx, http.StatusInternalServerError, err.Error())";
    ind 2 "return";
    ind 1 "}";
    ind 1 "page, perPage := req.Page, req.PerPage";
    ind 1 "if page < 1 { page = 1 }";
    ind 1 "if perPage < 1 { perPage = 20 }";
    ind 1 ("response.Success(ctx, dtos.To" +:+ (entity_name g) +:+ "ListResponse(entities, page, perPage, total))");
    "}"
  ].

Definition _init_template (g : Generator) : string :=
  let route := to_kebab_case (pluralize (module_name g)) in
  unlines [
    "package " +:+ (module_name g);
    "";
    "import (";
    ind 1 (dq +:+ "github.com/gin-gonic/gin" +:+ dq);
    ind 1 (dq +:+ "gorm.io/gorm" +:+ dq);
    "";
    ind 1 (dq +:+ (project g) +:+ "/internal/middleware" +:+ dq);
    ind 1 (dq +:+ (project g) +:+ "/internal/modules/" +:+ (module_name g) +:+ "/controllers" +:+ dq);
    ind 1 (dq +:+ (project g) +:+ "/internal/modules/" +:+ (module_name g) +:+ "/usecases" +:+ dq);
    ")";
    "";
    "func Init(r *gin.Engine, db *gorm.DB, authMiddleware *middleware.AuthMiddleware) {";
    ind 1 ("usecase := usecases.New" +:+ (entity_name g) +:+ "Usecase(db)");
    ind 1 ("controller := controllers.New" +:+ (entity_name g) +:+ "Controller(usecase)");
    "";
    ind 1 ("group := r.Group(" +:+ dq +:+ "/" +:+ route +:+ dq +:+ ")");
    ind 1 "group.Use(authMiddleware.Authenticate())";
    ind 1 "{";
    ind 2 ("group.POST(" +:+ dq +:+ dq +:+ ", controller.Create)");
    ind 2 ("group.GET(" +:+ dq +:+ dq +:+ ", controller.List)");
    ind 2 ("group.GET(" +:+ dq +:+ "/:id" +:+ dq +:+ ", controller.GetByID)");
    ind 2 ("group.PUT(" +:+ dq +:+ "/:id" +:+ dq +:+ ", controller.Update)");
    ind 2 ("group.DELETE(" +:+ dq +:+ "/:id" +:+ dq +:+ ", controller.Delete)");
    ind 1 "}";
    "}"
  ].

Definition _validator_template (g : Generator) : string :=
  unlines [
    "package validators";
    "";
    "import (";
    ind 1 (dq +:+ "context" +:+ dq);
    ind 1 (dq +:+ "errors" +:+ dq);
    "";
    ind 1 (dq +:+ "gorm.io/gorm" +:+ dq);
    "";
    ind 1 (dq +:+ (project g) +:+ "/pkg/database" +:+ dq);
    ")";
    "";
    "type Validator interface {";
    ind 1 "Validate(ctx context.Context, data interface{}) error";
    "}";
    "";
    "type ValidatorChain struct {";
    ind 1 "validators []Validator";
    "}";
    "";
    "func NewValidatorChain() *ValidatorChain {";
    ind 1 "return &ValidatorChain{validators: make([]Validator, 0)}";
    "}";
    "";
    "func (c *ValidatorChain) Add(v Validator) *ValidatorChain {";
    ind 1 "c.validators = append(c.validators, v)";
    ind 1 "return c";
    "}";
    "";
    "func (c *ValidatorChain) Validate(ctx context.Context, data interface{}) error {";
    ind 1 "for _, v := range c.validators {";
    ind 2 "if err := v.Validate(ctx, data); err != nil {";
    ind 3 "return err";
    ind 2 "}";
    ind 1 "}";
    ind 1 "return nil";
    "}";
    "";
    "type ExistsValidator struct {";
    ind 1 "db *gorm.DB";
    "}";
    "";
    "func NewExistsValidator(db *gorm.DB) *ExistsValidator {";
    ind 1 "return &ExistsValidator{db: db}";
    "}";
    "";
    "func (v *ExistsValidator) Validate(ctx context.Context, data interface{}) error {";
    ind 1 "id := data.(string)";
    ind 1 ("var entity database." +:+ (entity_name g));
    ind 1 ("if err := v.db.WithContext(ctx).First(&entity, " +:+ dq +:+ "id = ?" +:+ dq +:+ ", id).Error; err != nil {");
    ind 2 ("return errors.New(" +:+ dq +:+ (module_name g) +:+ " not found" +:+ dq +:+ ")");
    ind 1 "}";
    ind 1 "return nil";
    "}"
  ].

Definition generate (disk : Disk) (g : Generator) : M (list Path) :=
  let module_dir := output_dir g // "internal" // "modules" // module_name g in
  files ← emit disk [] (output_dir g // "pkg" // "database" // (module_name g +:+ ".go"))
                  (Ok (_model_template g));
  files ← emit disk files (module_dir // "dtos" // (module_name g +:+ "_dto.go"))
                  (Ok (_dto_template g));
  files ← emit disk files (module_dir // "usecases" // (module_name g +:+ "_usecase.go"))
                  (Ok (_usecase_template g));
  files ← emit disk files (module_dir // "controllers" // (module_name g +:+ "_controller.go"))
                  (Ok (_controller_template g));
  files ← emit disk files (module_dir // "init.go")
                  (Ok (_init_template g));
  files ← (if validators (options g)
           then emit disk files (module_dir // "validators" // (module_name g +:+ "_validator.go"))
                     (Ok (_validator_template g))
           else mret files);
  mret files.

End GoGenerator.

(** ** LaravelGenerator *)

Module LaravelGenerator.
Import BaseGenerator.

Definition parse_fields (fields_str : string) : result (list Field) :=
  parse_fields_with "string" fields_str.

Definition type_map : gmap string string :=
  list_to_map [
    ("string", "string"); ("text", "text"); ("integer", "integer");
    ("bigInteger", "bigInteger"); ("float", "float"); ("double", "double");
    ("decimal", "decimal"); ("boolean", "boolean"); ("date", "date");
    ("datetime", "dateTime"); ("timestamp", "timestamp"); ("json", "json")
  ].

Definition _migration_type (php_type : string) : string :=
  default "string" (type_map !! php_type).

Definition model_fillable_item (f : Field) : string :=
  let '(n, _, _) := f in "'" +:+ n +:+ "'".

(** [t in ('boolean', 'integer', 'float', 'array', 'json')] *)
Definition is_cast (f : Field) : bool :=
  existsb (String.eqb (ftype f)) ["boolean"; "integer"; "float"; "array"; "json"].

Definition model_cast_item (f : Field) : string :=
  let '(n, t, _) := f in "'" +:+ n +:+ "' => '" +:+ t +:+ "'".

Definition _model_template (g : Generator) : string :=
  let fillable := str_join ", " (map model_fillable_item (fields g)) in
  let casts := str_join ", " (map model_cast_item (filter is_cast (fields g))) in
  unlines [
    "<?php";
    "";
    "namespace App\Models;";
    "";
    "use Illuminate\Database\Eloquent\Factories\HasFactory;";
    "use Illuminate\Database\Eloquent\Model;";
    "use Illuminate\Database\Eloquent\SoftDeletes;";
    "";
    "class " +:+ (entity_name g) +:+ " extends Model";
    "{";
    "    use HasFactory, SoftDeletes;";
    "";
    "    protected $fillable = [" +:+ fillable +:+ "];";
    "";
    "    protected $casts = [" +:+ casts +:+ "];";
    "}"
  ].

Definition migration_column (f : Field) : string :=
  let '(n, t, r) := f in
  "            $table->" +:+ _migration_type t +:+ "('" +:+ n +:+ "')"
    +:+ (if r then "" else "->nullable()") +:+ ";".

Definition _migration_template (g : Generator) : string :=
  let table := pluralize (module_name g) in
  let columns := str_join nl (map migration_column (fields g)) in
  unlines [
    "<?php";
    "";
    "use Illuminate\Database\Migrations\Migration;";
    "use Illuminate\Database\Schema\Blueprint;";
    "use Illuminate\Support\Facades\Schema;";
    "";
    "return new class extends Migration";
    "{";
    "    public function up(): void";
    "    {";
    "        Schema::create('" +:+ table +:+ "', function (Blueprint $table) {";
    "            $table->uuid('id')->primary();";
    columns;
    "            $table->timestamps();";
    "            $table->softDeletes();";
    "        });";
    "    }";
    "";
    "    public function down(): void";
    "    {";
    "        Schema::dropIfExists('" +:+ table +:+ "');";
    "    }";
    "};"
  ].

Definition _controller_template (g : Generator) : result string :=
  camel ← BaseGenerator.to_camel_case (module_name g);
  mret (unlines [
    "<?php";
    "";
    "namespace App\Http\Controllers;";
    "";
    "use App\Http\Requests\" +:+ (entity_name g) +:+ "Request;";
    "use App\Http\Resources\" +:+ (entity_name g) +:+ "Resource;";
    "use App\Models\" +:+ (entity_name g) +:+ ";";
    "use App\UseCases\" +:+ (entity_name g) +:+ "\Create" +:+ (entity_name g) +:+ "UseCase;";
    "use App\UseCases\" +:+ (entity_name g) +:+ "\Update" +:+ (entity_name g) +:+ "UseCase;";
    "use App\UseCases\" +:+ (entity_name g) +:+ "\Delete" +:+ (entity_name g) +:+ "UseCase;";
    "use Illuminate\Http\Request;";
    "use Illuminate\Http\Resources\Json\AnonymousResourceCollection;";
    "";
    "class " +:+ (entity_name g) +:+ "Controller extends Controller";
    "{";
    "    public function index(Request $request): AnonymousResourceCollection";
    "    {";
    "        $query = " +:+ (entity_name g) +:+ "::query();";
    "";
    "        if ($request->has('search')) {";
    "            $query->where('name', 'like', '%' . $request->search . '%');";
    "        }";
    "";
    "        $items = $query->orderBy('created_at', 'desc')";
    "            ->paginate($request->get('per_page', 20));";
    "";
    "        return " +:+ (entity_name g) +:+ "Resource::collection($items);";
    "    }";
    "";
    "    public function show(" +:+ (entity_name g) +:+ " $" +:+ camel +:+ "): " +:+ (entity_name g) +:+ "Resource";
    "    {";
    "        return new " +:+ (entity_name g) +:+ "Resource($" +:+ camel +:+ ");";
    "    }";
    "";
    "    public function store(" +:+ (entity_name g) +:+ "Request $request, Create" +:+ (entity_name g) +:+ "UseCase $useCase): " +:+ (entity_name g) +:+ "Resource";
    "    {";
    "        $item = $useCase->execute($request->validated());";
    "        return new " +:+ (entity_name g) +:+ "Resource($item);";
    "    }";
    "";
    "    public function update(" +:+ (entity_name g) +:+ "Request $request, " +:+ (entity_name g) +:+ " $" +:+ camel +:+ ", Update" +:+ (entity_name g) +:+ "UseCase $useCase): " +:+ (entity_name g) +:+ "Resource";
    "    {";
    "        $item = $useCase->execute($" +:+ camel +:+ ", $request->validated());";
    "        return new " +:+ (entity_name g) +:+ "Resource($item);";
    "    }";
    "";
    "    public function destroy(" +:+ (entity_name g) +:+ " $" +:+ camel +:+ ", Delete" +:+ (entity_name g) +:+ "UseCase $useCase): \Illuminate\Http\JsonResponse";
    "    {";
    "        $useCase->execute($" +:+ camel +:+ ");";
    "        return response()->json(['deleted' => true]);";
    "    }";
    "}"
  ]).

Definition request_rule (f : Field) : string :=
  let '(n, t, r) := f in
  "            '" +:+ n +:+ "' => ['" +:+ (if r then "required" else "nullable")
    +:+ "', '" +:+ t +:+ "'],".

Definition _request_template (g : Generator) : string :=
  let rules := str_join nl (map request_rule (fields g)) in
  unlines [
    "<?php";
    "";
    "namespace App\Http\Requests;";
    "";
    "use Illuminate\Foundation\Http\FormRequest;";
    "";
    "class " +:+ (entity_name g) +:+ "Request extends FormRequest";
    "{";
    "    public function authorize(): bool";
    "    {";
    "        return true;";
    "    }";
    "";
    "    public function rules(): array";
    "    {";
    "        return [";
    rules;
    "        ];";
    "    }";
    "}"
  ].

Definition resource_field (f : Field) : string :=
  let '(n, _, _) := f in
  "            '" +:+ n +:+ "' => $this->" +:+ n +:+ ",".

Definition _resource_template (g : Generator) : string :=
  let fields := str_join nl (map resource_field (fields g)) in
  unlines [
    "<?php";
    "";
    "namespace App\Http\Resources;";
    "";
    "use Illuminate\Http\Request;";
    "use Illuminate\Http\Resources\Json\JsonResource;";
    "";
    "class " +:+ (entity_name g) +:+ "Resource extends JsonResource";
    "{";
    "    public function toArray(Request $request): array";
    "    {";
    "        return [";
    "            'id' => $this->id,";
    fields;
    "            'created_at' => $this->created_at?->toISOString(),";
    "            'updated_at' => $this->updated_at?->toISOString(),";
    "        ];";
    "    }";
    "}"
  ].

Definition _create_usecase_template (g : Generator) : string :=
  unlines [
    "<?php";
    "";
    "namespace App\UseCases\" +:+ (entity_name g) +:+ ";";
    "";
    "use App\Models\" +:+ (entity_name g) +:+ ";";
    "";
    "class Create" +:+ (entity_name g) +:+ "UseCase";
    "{";
    "    public function execute(array $data): " +:+ (entity_name g);
    "    {";
    "        return " +:+ (entity_name g) +:+ "::create($data);";
    "    }";
    "}"
  ].

Definition _update_usecase_template (g : Generator) : string :=
  unlines [
    "<?php";
    "";
    "namespace App\UseCases\" +:+ (entity_name g) +:+ ";";
    "";
    "use App\Models\" +:+ (entity_name g) +:+ ";";
    "";
    "class Update" +:+ (entity_name g) +:+ "UseCase";
    "{";
    "    public function execute(" +:+ (entity_name g) +:+ " $item, array $data): " +:+ (entity_name g);
    "    {";
    "        $item->update($data);";
    "        return $item->fresh();";
    "    }";
    "}"
  ].

Definition _delete_usecase_template (g : Generator) : string :=
  unlines [
    "<?php";
    "";
    "namespace App\UseCases\" +:+ (entity_name g) +:+ ";";
    "";
    "use App\Models\" +:+ (entity_name g) +:+ ";";
    "";
    "class Delete" +:+ (entity_name g) +:+ "UseCase";
    "{";
    "    public function execute(" +:+ (entity_name g) +:+ " $item): bool";
    "    {";
    "        return $item->delete();";
    "    }";
    "}"
  ].

Definition generate (disk : Disk) (g : Generator) : M (list Path) :=
  files ← emit disk [] (output_dir g // "app" // "Models" // (entity_name g +:+ ".php"))
                  (Ok (_model_template g));
  files ← emit disk files (output_dir g // "database" // "migrations"
                        // ("create_" +:+ pluralize (module_name g) +:+ "_table.php"))
                  (Ok (_migration_template g));
  files ← emit disk files (output_dir g // "app" // "Http" // "Controllers"
                        // (entity_name g +:+ "Controller.php"))
                  (_controller_template g);
  files ← emit disk files (output_dir g // "app" // "Http" // "Requests"
                        // (entity_name g +:+ "Request.php"))
                  (Ok (_request_template g));
  files ← emit disk files (output_dir g // "app" // "Http" // "Resources"
                        // (entity_name g +:+ "Resource.php"))
                  (Ok (_resource_template g));
  files ← emit disk files (output_dir g // "app" // "UseCases" // entity_name g
                        // ("Create" +:+ entity_name g +:+ "UseCase.php"))
                  (Ok (_create_usecase_template g));
  files ← emit disk files (output_dir g // "app" // "UseCases" // entity_name g
                        // ("Update" +:+ entity_name g +:+ "UseCase.php"))
                  (Ok (_update_usecase_template g));
  files ← emit disk files (output_dir g // "app" // "UseCases" // entity_name g
                        // ("Delete" +:+ entity_name g +:+ "UseCase.php"))
                  (Ok (_delete_usecase_template g));
  mret files.

End LaravelGenerator.

(** ** ReactGenerator *)

Module ReactGenerator.
Import BaseGenerator.

Definition parse_fields (fields_str : string) : result (list Field) :=
  parse_fields_with "string" fields_str.

Definition types_field (f : Field) : string :=
  let '(n, t, r) := f in
  "  " +:+ n +:+ (if negb r then "?" else "") +:+ ": " +:+ t +:+ ";".

Definition types_update_field (f : Field) : string :=
  let '(n, t, _) := f in
  "  " +:+ n +:+ "?: " +:+ t +:+ ";".

Definition _types_template (g : Generator) : string :=
  let self_fields := fields g in
  let fields := str_join nl (map types_field self_fields) in
  let create_fields := str_join nl (map types_field self_fields) in
  let update_fields := str_join nl (map types_update_field self_fields) in
  unlines [
    "export interface " +:+ (entity_name g) +:+ " {";
    "  id: string;";
    fields;
    "  createdAt: string;";
    "  updatedAt: string;";
    "}";
    "";
    "export interface Create" +:+ (entity_name g) +:+ "Request {";
    create_fields;
    "}";
    "";
    "export interface Update" +:+ (entity_name g) +:+ "Request {";
    update_fields;
    "}";
    "";
    "export interface " +:+ (entity_name g) +:+ "ListParams {";
    "  page?: number;";
    "  perPage?: number;";
    "  search?: string;";
    "}";
    "";
    "export interface " +:+ (entity_name g) +:+ "ListResponse {";
    "  items: " +:+ (entity_name g) +:+ "[];";
    "  page: number;";
    "  perPage: number;";
    "  total: number;";
    "  totalPages: number;";
    "}"
  ].

Definition _api_template (g : Generator) : result string :=
  let route := to_kebab_case (pluralize (module_name g)) in
  camel ← BaseGenerator.to_camel_case (module_name g);
  mret (unlines [
    "import { apiClient } from '@/lib/api';";
    "import type {";
    "  " +:+ (entity_name g) +:+ ",";
    "  Create" +:+ (entity_name g) +:+ "Request,";
    "  Update" +:+ (entity_name g) +:+ "Request,";
    "  " +:+ (entity_name g) +:+ "ListParams,";
    "  " +:+ (entity_name g) +:+ "ListResponse,";
    "} from './types';";
    "";
    "const BASE_URL = '/" +:+ route +:+ "';";
    "";
    "export const " +:+ camel +:+ "Api = {";
    "  list: (params?: " +:+ (entity_name g) +:+ "ListParams) =>";
    "    apiClient.get<" +:+ (entity_name g) +:+ "ListResponse>(BASE_URL, { params }),";
    "";
    "  get: (id: string) =>";
    "    apiClient.get<" +:+ (entity_name g) +:+ ">(`${BASE_URL}/${id}`),";
    "";
    "  create: (data: Create" +:+ (entity_name g) +:+ "Request) =>";
    "    apiClient.post<" +:+ (entity_name g) +:+ ">(BASE_URL, data),";
    "";
    "  update: (id: string, data: Update" +:+ (entity_name g) +:+ "Request) =>";
    "    apiClient.put<" +:+ (entity_name g) +:+ ">(`${BASE_URL}/${id}`, data),";
    "";
    "  delete: (id: string) =>";
    "    apiClient.delete(`${BASE_URL}/${id}`),";
    "};"
  ]).

Definition _hooks_template (g : Generator) : result string :=
  camel ← BaseGenerator.to_camel_case (module_name g);
  mret (unlines [
    "import { useQuery, useMutation, useQueryClient } from '@tanstack/react-query';";
    "import { " +:+ camel +:+ "Api } from './api';";
    "import type {";
    "  Create" +:+ (entity_name g) +:+ "Request,";
    "  Update" +:+ (entity_name g) +:+ "Request,";
    "  " +:+ (entity_name g) +:+ "ListParams,";
    "} from './types';";
    "";
    "const QUERY_KEY = '" +:+ (BaseGenerator.pluralize (module_name g)) +:+ "';";
    "";
    "export function use" +:+ (entity_name g) +:+ "List(params?: " +:+ (entity_name g) +:+ "ListParams) {";
    "  return useQuery({";
    "    queryKey: [QUERY_KEY, params],";
    "    queryFn: () => " +:+ camel +:+ "Api.list(params),";
    "  });";
    "}";
    "";
    "export function use" +:+ (entity_name g) +:+ "(id: string) {";
    "  return useQuery({";
    "    queryKey: [QUERY_KEY, id],";
    "    queryFn: () => " +:+ camel +:+ "Api.get(id),";
    "    enabled: !!id,";
    "  });";
    "}";
    "";
    "export function useCreate" +:+ (entity_name g) +:+ "() {";
    "  const queryClient = useQueryClient();";
    "  return useMutation({";
    "    mutationFn: (data: Create" +:+ (entity_name g) +:+ "Request) => " +:+ camel +:+ "Api.create(data),";
    "    onSuccess: () => queryClient.invalidateQueries({ queryKey: [QUERY_KEY] }),";
    "  });";
    "}";
    "";
    "export function useUpdate" +:+ (entity_name g) +:+ "() {";
    "  const queryClient = useQueryClient();";
    "  return useMutation({";
    "    mutationFn: ({ id, data }: { id: string; data: Update" +:+ (entity_name g) +:+ "Request }) =>";
    "      " +:+ camel +:+ "Api.update(id, data),";
    "    onSuccess: () => queryClient.invalidateQueries({ queryKey: [QUERY_KEY] }),";
    "  });";
    "}";
    "";
    "export function useDelete" +:+ (entity_name g) +:+ "() {";
    "  const queryClient = useQueryClient();";
    "  return useMutation({";
    "    mutationFn: (id: string) => " +:+ camel +:+ "Api.delete(id),";
    "    onSuccess: () => queryClient.invalidateQueries({ queryKey: [QUERY_KEY] }),";
    "  });";
    "}"
  ]).

Definition _list_component_template (g : Generator) : string :=
  unlines [
    "import { use" +:+ (entity_name g) +:+ "List, useDelete" +:+ (entity_name g) +:+ " } from '../hooks';";
    "import type { " +:+ (entity_name g) +:+ " } from '../types';";
    "";
    "export function " +:+ (entity_name g) +:+ "List() {";
    "  const { data, isLoading, error } = use" +:+ (entity_name g) +:+ "List();";
    "  const deleteMutation = useDelete" +:+ (entity_name g) +:+ "();";
    "";
    "  if (isLoading) return <div>Loading...</div>;";
    "  if (error) return <div>Error: {error.message}</div>;";
    "";
    "  const handleDelete = (id: string) => {";
    "    if (confirm('Are you sure?')) {";
    "      deleteMutation.mutate(id);";
    "    }";
    "  };";
    "";
    "  return (";
    "    <div>";
    "      <h1>" +:+ (entity_name g) +:+ " List</h1>";
    "      <ul>";
    "        {data?.items.map((item: " +:+ (entity_name g) +:+ ") => (";
    "          <li key={item.id}>";
    "            {JSON.stringify(item)}";
    "            <button onClick={() => handleDelete(item.id)}>Delete</button>";
    "          </li>";
    "        ))}";
    "      </ul>";
    "    </div>";
    "  );";
    "}"
  ].

Definition form_field (f : Field) : string :=
  let '(n, t, r) := f in
  "      <input" +:+ nl
    +:+ "        name=" +:+ dq +:+ n +:+ dq +:+ nl
    +:+ "        placeholder=" +:+ dq +:+ to_pascal_case n +:+ dq +:+ nl
    +:+ "        " +:+ (if r then "required" else "") +:+ nl
    +:+ "      />".

Definition _form_component_template (g : Generator) : string :=
  let fields := str_join nl (map form_field (fields g)) in
  unlines [
    "import { useCreate" +:+ (entity_name g) +:+ " } from '../hooks';";
    "import type { Create" +:+ (entity_name g) +:+ "Request } from '../types';";
    "";
    "export function " +:+ (entity_name g) +:+ "Form() {";
    "  const createMutation = useCreate" +:+ (entity_name g) +:+ "();";
    "";
    "  const handleSubmit = (e: React.FormEvent<HTMLFormElement>) => {";
    "    e.preventDefault();";
    "    const formData = new FormData(e.currentTarget);";
    "    const data = Object.fromEntries(formData) as unknown as Create" +:+ (entity_name g) +:+ "Request;";
    "    createMutation.mutate(data);";
    "  };";
    "";
    "  return (";
    "    <form onSubmit={handleSubmit}>";
    fields;
    "      <button type=" +:+ dq +:+ "submit" +:+ dq +:+ " disabled={createMutation.isPending}>";
    "        {createMutation.isPending ? 'Creating...' : 'Create'}";
    "      </button>";
    "    </form>";
    "  );";
    "}"
  ].

Definition _index_template (g : Generator) : string :=
  unlines [
    "export * from './types';";
    "export * from './api';";
    "export * from './hooks';";
    "export * from './components/" +:+ (entity_name g) +:+ "List';";
    "export * from './components/" +:+ (entity_name g) +:+ "Form';"
  ].

Definition generate (disk : Disk) (g : Generator) : M (list Path) :=
  let feature_dir := output_dir g // "src" // "features" // module_name g in
  files ← emit disk [] (feature_dir // "types.ts") (Ok (_types_template g));
  files ← emit disk files (feature_dir // "api.ts") (_api_template g);
  files ← emit disk files (feature_dir // "hooks.ts") (_hooks_template g);
  files ← emit disk files (feature_dir // "components" // (entity_name g +:+ "List.tsx"))
                  (Ok (_list_component_template g));
  files ← emit disk files (feature_dir // "components" // (entity_name g +:+ "Form.tsx"))
                  (Ok (_form_component_template g));
  files ← emit disk files (feature_dir // "index.ts") (Ok (_index_template g));
  mret files.

End ReactGenerator.

(** ** FlutterGenerator *)

Module FlutterGenerator.
Import BaseGenerator.

Definition parse_fields (fields_str : string) : result (list Field) :=
  parse_fields_with "String" fields_str.

Definition model_field (f : Field) : result string :=
  let '(n, t, r) := f in
  c ← to_camel_case n;
  mret ("  final " +:+ t +:+ (if negb r then "?" else "") +:+ " " +:+ c +:+ ";").

Definition model_constructor_param (f : Field) : result string :=
  let '(n, _, r) := f in
  c ← to_camel_case n;
  mret ((if r then "required " else "") +:+ "this." +:+ c).

Definition model_from_json (f : Field) : result string :=
  let '(n, t, r) := f in
  c ← to_camel_case n;
  mret ("      " +:+ c +:+ ": json['" +:+ n +:+ "'] as " +:+ t
          +:+ (if negb r then "?" else "") +:+ ",").

Definition model_to_json (f : Field) : result string :=
  let '(n, _, _) := f in
  c ← to_camel_case n;
  mret ("      '" +:+ n +:+ "': " +:+ c +:+ ",").

Definition _model_template (g : Generator) : result string :=
  let self_fields := fields g in
  fields ← str_join nl <$> mapR model_field self_fields;
  constructor_params ← str_join ", " <$> mapR model_constructor_param self_fields;
  from_json ← str_join nl <$> mapR model_from_json self_fields;
  to_json ← str_join nl <$> mapR model_to_json self_fields;
  mret (unlines [
    "import 'package:freezed_annotation/freezed_annotation.dart';";
    "";
    "part '" +:+ (module_name g) +:+ "_model.freezed.dart';";
    "part '" +:+ (module_name g) +:+ "_model.g.dart';";
    "";
    "@freezed";
    "class " +:+ (entity_name g) +:+ " with _$" +:+ (entity_name g) +:+ " {";
    "  const factory " +:+ (entity_name g) +:+ "({";
    "    required String id,";
    "    " +:+ constructor_params +:+ ",";
    "    required DateTime createdAt,";
    "    required DateTime updatedAt,";
    "  }) = _" +:+ (entity_name g) +:+ ";";
    "";
    "  factory " +:+ (entity_name g) +:+ ".fromJson(Map<String, dynamic> json) => _$" +:+ (entity_name g) +:+ "FromJson(json);";
    "}";
    "";
    "@freezed";
    "class Create" +:+ (entity_name g) +:+ "Request with _$Create" +:+ (entity_name g) +:+ "Request {";
    "  const factory Create" +:+ (entity_name g) +:+ "Request({";
    "    " +:+ constructor_params +:+ ",";
    "  }) = _Create" +:+ (entity_name g) +:+ "Request;";
    "";
    "  factory Create" +:+ (entity_name g) +:+ "Request.fromJson(Map<String, dynamic> json) =>";
    "      _$Create" +:+ (entity_name g) +:+ "RequestFromJson(json);";
    "}"
  ]).

Definition _repository_template (g : Generator) : string :=
  let route := to_kebab_case (pluralize (module_name g)) in
  unlines [
    "import 'package:dio/dio.dart';";
    "import '../models/" +:+ (module_name g) +:+ "_model.dart';";
    "";
    "class " +:+ (entity_name g) +:+ "Repository {";
    "  final Dio _dio;";
    "";
    "  " +:+ (entity_name g) +:+ "Repository(this._dio);";
    "";
    "  Future<List<" +:+ (entity_name g) +:+ ">> getAll() async {";
    "    final response = await _dio.get('/" +:+ route +:+ "');";
    "    final items = response.data['items'] as List;";
    "    return items.map((e) => " +:+ (entity_name g) +:+ ".fromJson(e)).toList();";
    "  }";
    "";
    "  Future<" +:+ (entity_name g) +:+ "> getById(String id) async {";
    "    final response = await _dio.get('/" +:+ route +:+ "/$id');";
    "    return " +:+ (entity_name g) +:+ ".fromJson(response.data);";
    "  }";
    "";
    "  Future<" +:+ (entity_name g) +:+ "> create(Create" +:+ (entity_name g) +:+ "Request request) async {";
    "    final response = await _dio.post('/" +:+ route +:+ "', data: request.toJson());";
    "    return " +:+ (entity_name g) +:+ ".fromJson(response.data);";
    "  }";
    "";
    "  Future<" +:+ (entity_name g) +:+ "> update(String id, Map<String, dynamic> data) async {";
    "    final response = await _dio.put('/" +:+ route +:+ "/$id', data: data);";
    "    return " +:+ (entity_name g) +:+ ".fromJson(response.data);";
    "  }";
    "";
    "  Future<void> delete(String id) async {";
    "    await _dio.delete('/" +:+ route +:+ "/$id');";
    "  }";
    "}"
  ].

Definition _provider_template (g : Generator) : result string :=
  camel ← BaseGenerator.to_camel_case (module_name g);
  mret (unlines [
    "import 'package:flutter_riverpod/flutter_riverpod.dart';";
    "import '../data/models/" +:+ (module_name g) +:+ "_model.dart';";
    "import '../data/repositories/" +:+ (module_name g) +:+ "_repository.dart';";
    "";
    "final " +:+ camel +:+ "RepositoryProvider = Provider<" +:+ (entity_name g) +:+ "Repository>((ref) {";
    "  throw UnimplementedError('Provide Dio instance');";
    "});";
    "";
    "final " +:+ camel +:+ "ListProvider = FutureProvider<List<" +:+ (entity_name g) +:+ ">>((ref) async {";
    "  final repository = ref.watch(" +:+ camel +:+ "RepositoryProvider);";
    "  return repository.getAll();";
    "});";
    "";
    "final " +:+ camel +:+ "Provider = FutureProvider.family<" +:+ (entity_name g) +:+ ", String>((ref, id) async {";
    "  final repository = ref.watch(" +:+ camel +:+ "RepositoryProvider);";
    "  return repository.getById(id);";
    "});"
  ]).

Definition _screen_template (g : Generator) : result string :=
  camel ← BaseGenerator.to_camel_case (module_name g);
  mret (unlines [
    "import 'package:flutter/material.dart';";
    "import 'package:flutter_riverpod/flutter_riverpod.dart';";
    "import '../providers/" +:+ (module_name g) +:+ "_provider.dart';";
    "";
    "class " +:+ (entity_name g) +:+ "ListScreen extends ConsumerWidget {";
    "  const " +:+ (entity_name g) +:+ "ListScreen({super.key});";
    "";
    "  @override";
    "  Widget build(BuildContext context, WidgetRef ref) {";
    "    final itemsAsync = ref.watch(" +:+ camel +:+ "ListProvider);";
    "";
    "    return Scaffold(";
    "      appBar: AppBar(title: const Text('" +:+ (entity_name g) +:+ " List')),";
    "      body: itemsAsync.when(";
    "        data: (items) => ListView.builder(";
    "          itemCount: items.length,";
    "          itemBuilder: (context, index) {";
    "            final item = items[index];";
    "            return ListTile(";
    "              title: Text(item.id),";
    "              subtitle: Text(item.createdAt.toString()),";
    "            );";
    "          },";
    "        ),";
    "        loading: () => const Center(child: CircularProgressIndicator()),";
    "        error: (error, stack) => Center(child: Text('Error: $error')),";
    "      ),";
    "      floatingActionButton: FloatingActionButton(";
    "        onPressed: () {";
    "          // Navigate to create screen";
    "        },";
    "        child: const Icon(Icons.add),";
    "      ),";
    "    );";
    "  }";
    "}"
  ]).

Definition generate (disk : Disk) (g : Generator) : M (list Path) :=
  let feature_dir := output_dir g // "lib" // "features" // module_name g in
  files ← emit disk [] (feature_dir // "data" // "models" // (module_name g +:+ "_model.dart"))
                  (_model_template g);
  files ← emit disk files (feature_dir // "data" // "repositories"
                        // (module_name g +:+ "_repository.dart"))
                  (Ok (_repository_template g));
  files ← emit disk files (feature_dir // "presentation" // "providers"
                        // (module_name g +:+ "_provider.dart"))
                  (_provider_template g);
  files ← emit disk files (feature_dir // "presentation" // "screens"
                        // (module_name g +:+ "_list_screen.dart"))
                  (_screen_template g);
  mret files.

End FlutterGenerator.

(** ** The registry and [main] *)

(** The generator classes, as the values of [GENERATORS]. *)
Inductive GeneratorClass : Type := Go | Laravel | React | Flutter.

Definition GENERATORS : gmap string GeneratorClass :=
  list_to_map [("go", Go); ("laravel", Laravel); ("react", React); ("flutter", Flutter)].

Definition class_parse_fields (cls : GeneratorClass) : string -> result (list Field) :=
  match cls with
  | Go => GoGenerator.parse_fields
  | Laravel => LaravelGenerator.parse_fields
  | React => ReactGenerator.parse_fields
  | Flutter => FlutterGenerator.parse_fields
  end.

Definition class_generate (disk : Disk) (cls : GeneratorClass)
    : Generator -> M (list Path) :=
  match cls with
  | Go => GoGenerator.generate disk
  | Laravel => LaravelGenerator.generate disk
  | React => ReactGenerator.generate disk
  | Flutter => FlutterGenerator.generate disk
  end.

(** [generator_class(name=..., fields=..., project=..., output_dir=..., validators=...)] *)
Definition construct (cls : GeneratorClass)
    (name fields_str project output_dir : string) (options : Options)
    : result Generator :=
  init (class_parse_fields cls) name fields_str project output_dir options.

(** The parsed command line. *)
Record Args := {
  arg_stack : string;
  arg_name : string;
  arg_fields : string;
  arg_project : string;
  arg_output : string;
  arg_validators : bool
}.

(** [main], after [argparse] has read the arguments: [--stack] is checked
    against [choices=GENERATORS.keys()], the class is looked up and
    constructed, and [generate] runs against the file system [disk]. The
    run is followed up to the return of [generate]: the report that is
    then printed from the returned paths is not modelled. *)
Definition main (disk : Disk) (args : Args) : M (list Path) :=
  _ ← lift (if bool_decide (arg_stack args ∈ dom GENERATORS)
            then Ok tt else Raise ArgparseInvalidChoice);
  generator_class ← lift (match GENERATORS !! arg_stack args with
                          | Some cls => Ok cls
                          | None => Raise KeyError
                          end);
  generator ← lift (construct generator_class (arg_name args) (arg_fields args)
                      (arg_project args) (arg_output args)
                      {| validators := arg_validators args |});
  files ← class_generate disk generator_class generator;
  mret files.

(** ** The pagination code of the generated Go module

    [ToXListResponse] of the dto artifact and the paging lines of the
    generated usecase and controller [List] methods, as functions on Go
    integers: [int] is [bits] wide (32 or 64), arithmetic wraps around, [/]
    truncates towards zero and [%] takes the sign of the dividend. *)

Module GeneratedGo.

Definition wrap (bits : Z) (x : Z) : Z :=
  ((x + 2 ^ (bits - 1)) mod 2 ^ bits - 2 ^ (bits - 1))%Z.

Record ListResponse := {
  Page : Z;
  PerPage : Z;
  Total : Z;
  TotalPages : Z
}.

(** The page numbers of [ToXListResponse]:
    [totalPages := int(total) / perPage; if int(total)%perPage > 0 { totalPages++ }]
    and the [Page], [PerPage], [Total], [TotalPages] of the returned
    struct. [None] is the run-time panic of the division by zero. The
    [entities] argument, the loop that converts it and the [Items] of the
    response are left out, and with them the panic of that loop on a nil
    entity. *)
Definition ToListResponse (bits : Z) (page perPage total : Z) : option ListResponse :=
  if (perPage =? 0)%Z then None
  else
    let totalPages := wrap bits (Z.quot (wrap bits total) perPage) in
    let totalPages :=
      if (Z.rem (wrap bits total) perPage >? 0)%Z then wrap bits (totalPages + 1)
      else totalPages in
    Some {| Page := page; PerPage := perPage; Total := total; TotalPages := totalPages |}.

(** [page, perPage := req.Page, req.PerPage;
     if page < 1 { page = 1 }; if perPage < 1 { perPage = 20 }] *)
Definition paging (req_Page req_PerPage : Z) : Z * Z :=
  let page := req_Page in
  let perPage := req_PerPage in
  let page := if (page <? 1)%Z then 1%Z else page in
  let perPage := if (perPage <? 1)%Z then 20%Z else perPage in
  (page, perPage).

(** The usecase's [List]: [offset := (page - 1) * perPage], then
    [Offset(offset).Limit(perPage)]. *)
Definition usecase_List_window (bits : Z) (req_Page req_PerPage : Z) : Z * Z :=
  let '(page, perPage) := paging req_Page req_PerPage in
  (wrap bits ((page - 1) * perPage), perPage).

(** The controller's [List] from [page, perPage := req.Page, req.PerPage]
    on, given the total the usecase counted: the page numbers of the
    response it sends with [response.Success]. The two early returns before
    these lines (the query does not bind, the usecase returns an error) are
    left out: this is the path on which both went through. *)
Definition controller_List (bits : Z) (req_Page req_PerPage total : Z)
    : option ListResponse :=
  let '(page, perPage) := paging req_Page req_PerPage in
  ToListResponse bits page perPage total.

End GeneratedGo.

(** The keys of the two [type_map] tables, in the order of the source. *)
Definition go_type_tokens : list string :=
  ["string"; "*string"; "int"; "int32"; "int64"; "*int"; "*int64";
   "float32"; "float64"; "bool"; "*bool"; "time.Time"].

Definition laravel_type_tokens : list string :=
  ["string"; "text"; "integer"; "bigInteger"; "float"; "double";
   "decimal"; "boolean"; "date"; "datetime"; "timestamp"; "json"].

(** ** The transforms as the specification words them *)

(** Cut at every character that satisfies [p]. *)
Fixpoint split_by (p : ascii -> bool) (s : string) : list string :=
  match s with
  | EmptyString => [EmptyString]
  | String c r =>
      if p c then EmptyString :: split_by p r
      else match split_by p r with
           | w :: ws => String c w :: ws
           | [] => [String c EmptyString]
           end
  end.

Definition is_delim (c : ascii) : bool := Ascii.eqb c "-"%char || Ascii.eqb c "_"%char.

(** The segments of a name: split on ['-'] and ['_'], empty segments skipped. *)
Definition segments (name : string) : list string :=
  filter (fun w : string => w <> "") (split_by is_delim name).

(** A segment with its first character capitalized, the rest as it stands. *)
Definition capitalize_first (w : string) : string :=
  match w with
  | EmptyString => EmptyString
  | String c r => String (upper_char c) r
  end.

(** Pascal case by the specification's words: the segments, each with its
    first character capitalized, concatenated with no separator. *)
Definition to_pascal_case_spec (name : string) : string :=
  str_join "" (map capitalize_first (segments name)).

(** The text before the first [c] (all of [s] when there is none) and the
    text after it. *)
Fixpoint str_before (c : ascii) (s : string) : string :=
  match s with
  | EmptyString => EmptyString
  | String x r => if Ascii.eqb x c then EmptyString else String x (str_before c r)
  end.

Fixpoint str_after (c : ascii) (s : string) : string :=
  match s with
  | EmptyString => EmptyString
  | String x r => if Ascii.eqb x c then r else str_after c r
  end.

(** One trimmed, non-empty token by the specification's words: a trailing
    ['?'] marks the field optional and is stripped; the rest is cut at its
    first [':'] into name and type, or is the name, with the default type.
    [trim] is what is done to the name and the type afterwards: nothing
    ([id]) in the specification's words. *)
Definition parse_token_spec (trim : string -> string) (default_type : string)
    (token : string) : Field :=
  let required := negb (str_endswith token "?") in
  let rest := str_rstrip "?"%char token in
  if str_contains_char ":"%char rest
  then (trim (str_before ":"%char rest), trim (str_after ":"%char rest), required)
  else (trim rest, trim default_type, required).

(** The field string by the specification's words: split on commas, each
    token trimmed, empty tokens skipped, the others parsed in input order. *)
Definition parse_fields_spec (trim : string -> string) (default_type : string)
    (fields_str : string) : list Field :=
  map (parse_token_spec trim default_type)
      (filter (fun w : string => w <> "") (map str_strip (str_split ","%char fields_str))).

(** ** Reading the generated text *)

(** [l] is a line of [text]. *)
Definition has_line (l text : string) : Prop :=
  exists pre post, text = pre +:+ l +:+ nl +:+ post.

(** The line of the Go usecase's [List] that filters on the search field,
    and the line of the Laravel controller's [index] that does. *)
Definition go_search_line (field : string) : string :=
  ind 2 ("query = query.Where(" +:+ dq +:+ field +:+ " LIKE ?" +:+ dq +:+ ", "
           +:+ dq +:+ "%" +:+ dq +:+ "+req.Search+" +:+ dq +:+ "%" +:+ dq +:+ ")").

Definition laravel_search_line (field : string) : string :=
  "            $query->where('" +:+ field +:+ "', 'like', '%' . $request->search . '%');".

(** The search field by the specification's words: the first field, in
    declared order, of the stack's plain string type whose name does not
    end in "_id"; "name" when there is none. *)
Fixpoint search_field_spec (string_type : string) (fs : list Field) : string :=
  match fs with
  | [] => "name"
  | (n, t, _) :: fs' =>
      if String.eqb t string_type && negb (str_endswith n "_id") then n
      else search_field_spec string_type fs'
  end.

(** The route of a run, and the lines that carry the collection path and
    the single-resource path in the Go wiring, the React client and the
    Flutter repository. *)
Definition route (g : Generator) : string :=
  BaseGenerator.to_kebab_case (BaseGenerator.pluralize (module_name g)).

Definition go_route_lines (r : string) : list string :=
  [ ind 1 ("group := r.Group(" +:+ dq +:+ "/" +:+ r +:+ dq +:+ ")");
    ind 2 ("group.POST(" +:+ dq +:+ dq +:+ ", controller.Create)");
    ind 2 ("group.GET(" +:+ dq +:+ dq +:+ ", controller.List)");
    ind 2 ("group.GET(" +:+ dq +:+ "/:id" +:+ dq +:+ ", controller.GetByID)");
    ind 2 ("group.PUT(" +:+ dq +:+ "/:id" +:+ dq +:+ ", controller.Update)");
    ind 2 ("group.DELETE(" +:+ dq +:+ "/:id" +:+ dq +:+ ", controller.Delete)") ].

Definition react_route_lines (entity r : string) : list string :=
  [ "const BASE_URL = '/" +:+ r +:+ "';";
    "    apiClient.get<" +:+ entity +:+ "ListResponse>(BASE_URL, { params }),";
    "    apiClient.get<" +:+ entity +:+ ">(`${BASE_URL}/${id}`),";
    "    apiClient.post<" +:+ entity +:+ ">(BASE_URL, data),";
    "    apiClient.put<" +:+ entity +:+ ">(`${BASE_URL}/${id}`, data),";
    "    apiClient.delete(`${BASE_URL}/${id}`)," ].

Definition flutter_route_lines (r : string) : list string :=
  [ "    final response = await _dio.get('/" +:+ r +:+ "');";
    "    final response = await _dio.get('/" +:+ r +:+ "/$id');";
    "    final response = await _dio.post('/" +:+ r +:+ "', data: request.toJson());";
    "    final response = await _dio.put('/" +:+ r +:+ "/$id', data: data);";
    "    await _dio.delete('/" +:+ r +:+ "/$id');" ].

(** Some character of [s] satisfies [p]. *)
Fixpoint str_existsb (p : ascii -> bool) (s : string) : bool :=
  match s with
  | EmptyString => false
  | String c r => p c || str_existsb p r
  end.

(** ** Runs of [main] *)

(** The same command line with another [--name]. *)
Definition with_name (args : Args) (name : string) : Args :=
  {| arg_stack := arg_stack args;
     arg_name := name;
     arg_fields := arg_fields args;
     arg_project := arg_project args;
     arg_output := arg_output args;
     arg_validators := arg_validators args |}.

(** The same command line with another [--validators], another [--project]. *)
Definition with_validators (args : Args) (b : bool) : Args :=
  {| arg_stack := arg_stack args;
     arg_name := arg_name args;
     arg_fields := arg_fields args;
     arg_project := arg_project args;
     arg_output := arg_output args;
     arg_validators := b |}.

Definition with_project (args : Args) (project : string) : Args :=
  {| arg_stack := arg_stack args;
     arg_name := arg_name args;
     arg_fields := arg_fields args;
     arg_project := project;
     arg_output := arg_output args;
     arg_validators := arg_validators args |}.

(** The keys of [GENERATORS]. *)
Definition registered_stacks : list string := ["go"; "laravel"; "react"; "flutter"].

(** The number of [write_file] calls of each [generate]. *)
Definition artifact_count (cls : GeneratorClass) (with_validators : bool) : nat :=
  match cls with
  | Go => if with_validators then 6 else 5
  | Laravel => 8
  | React => 6
  | Flutter => 4
  end.

(** ** The files of a run *)

(** The [write_file] calls of each [generate] in the order of the source:
    the path of each call and the template it writes. *)
Definition artifacts (cls : GeneratorClass) (g : Generator)
    : list (Path * result string) :=
  match cls with
  | Go =>
      let module_dir := output_dir g // "internal" // "modules" // module_name g in
      [ (output_dir g // "pkg" // "database" // (module_name g +:+ ".go"),
         Ok (GoGenerator._model_template g));
        (module_dir // "dtos" // (module_name g +:+ "_dto.go"),
         Ok (GoGenerator._dto_template g));
        (module_dir // "usecases" // (module_name g +:+ "_usecase.go"),
         Ok (GoGenerator._usecase_template g));
        (module_dir // "controllers" // (module_name g +:+ "_controller.go"),
         Ok (GoGenerator._controller_template g));
        (module_dir // "init.go",
         Ok (GoGenerator._init_template g)) ]
      ++ (if validators (options g)
          then [ (module_dir // "validators" // (module_name g +:+ "_validator.go"),
                  Ok (GoGenerator._validator_template g)) ]
          else [])
  | Laravel =>
      [ (output_dir g // "app" // "Models" // (entity_name g +:+ ".php"),
         Ok (LaravelGenerator._model_template g));
        (output_dir g // "database" // "migrations"
           // ("create_" +:+ BaseGenerator.pluralize (module_name g) +:+ "_table.php"),
         Ok (LaravelGenerator._migration_template g));
        (output_dir g // "app" // "Http" // "Controllers"
           // (entity_name g +:+ "Controller.php"),
         LaravelGenerator._controller_template g);
        (output_dir g // "app" // "Http" // "Requests" // (entity_name g +:+ "Request.php"),
         Ok (LaravelGenerator._request_template g));
        (output_dir g // "app" // "Http" // "Resources"
           // (entity_name g +:+ "Resource.php"),
         Ok (LaravelGenerator._resource_template g));
        (output_dir g // "app" // "UseCases" // entity_name g
           // ("Create" +:+ entity_name g +:+ "UseCase.php"),
         Ok (LaravelGenerator._create_usecase_template g));
        (output_dir g // "app" // "UseCases" // entity_name g
           // ("Update" +:+ entity_name g +:+ "UseCase.php"),
         Ok (LaravelGenerator._update_usecase_template g));
        (output_dir g // "app" // "UseCases" // entity_name g
           // ("Delete" +:+ entity_name g +:+ "UseCase.php"),
         Ok (LaravelGenerator._delete_usecase_template g)) ]
  | React =>
      let feature_dir := output_dir g // "src" // "features" // module_name g in
      [ (feature_dir // "types.ts", Ok (ReactGenerator._types_template g));
        (feature_dir // "api.ts", ReactGenerator._api_template g);
        (feature_dir // "hooks.ts", ReactGenerator._hooks_template g);
        (feature_dir // "components" // (entity_name g +:+ "List.tsx"),
         Ok (ReactGenerator._list_component_template g));
        (feature_dir // "components" // (entity_name g +:+ "Form.tsx"),
         Ok (ReactGenerator._form_component_template g));
        (feature_dir // "index.ts", Ok (ReactGenerator._index_template g)) ]
  | Flutter =>
      let feature_dir := output_dir g // "lib" // "features" // module_name g in
      [ (feature_dir // "data" // "models" // (module_name g +:+ "_model.dart"),
         FlutterGenerator._model_template g);
        (feature_dir // "data" // "repositories" // (module_name g +:+ "_repository.dart"),
         Ok (FlutterGenerator._repository_template g));
        (feature_dir // "presentation" // "providers"
           // (module_name g +:+ "_provider.dart"),
         FlutterGenerator._provider_template g);
        (feature_dir // "presentation" // "screens"
           // (module_name g +:+ "_list_screen.dart"),
         FlutterGenerator._screen_template g) ]
  end.

(** The calls made one after the other, each path appended to [files]. *)
Fixpoint write_all (disk : Disk) (files : list Path)
    (calls : list (Path * result string)) : M (list Path) :=
  match calls with
  | [] => mret files
  | (path, content) :: rest =>
      files ← emit disk files path content;
      write_all disk files rest
  end.

(** The templates of the calls rendered in turn: the files that the run is
    to write, with their contents. *)
Definition rendered (calls : list (Path * result string)) : result FS :=
  mapR (fun call : Path * result string => c ← call.2; mret (call.1, c)) calls.

(** A file system that accepts every write. *)
Definition accepting : Disk := fun _ _ _ => None.

(** A file system whose one limit is the 255 bytes of a file name: a write
    to a path with an operand of more than 255 characters fails with
    [OSError] (ENAMETOOLONG), every other write goes through. (An operand
    without ['/'] is one name of the path.) *)
Definition name_max_disk : Disk := fun _ path _ =>
  if forallb (fun seg : string => String.length seg <=? 255) path
  then None else Some OSError.

(** [s * n] *)
Fixpoint str_repeat (s : string) (n : nat) : string :=
  match n with
  | O => ""
  | S n' => s +:+ str_repeat s n'
  end.

(** The strings on which the string primitives above are Python's: every
    character is an ASCII character. *)
Definition is_ascii (s : string) : bool :=
  negb (str_existsb (fun c => 128 <=? nat_of_ascii c) s).

(** ** Field declarations in the generated text *)

(** The strings [xs] occur in [text] one after the other, in this order and
    without overlap. *)
Inductive occurs_in_order : list string -> string -> Prop :=
  | occurs_nil (text : string) : occurs_in_order [] text
  | occurs_cons (x : string) (xs : list string) (pre text : string) :
      occurs_in_order xs text ->
      occurs_in_order (x :: xs) (pre +:+ x +:+ text).

(** An artifact that lists the fields: its content, and the blocks of
    per-field declarations it is built from, in the order in which the
    template places them. Every block is the comprehension of the source
    over [self.fields]. *)
Record Listing := {
  artifact : result string;
  blocks : result (list (list string))
}.

Definition field_listings (cls : GeneratorClass) (g : Generator) : list Listing :=
  let fs := fields g in
  match cls with
  | Go =>
      [ {| artifact := Ok (GoGenerator._model_template g);
           blocks := Ok [map GoGenerator.model_field fs] |};
        {| artifact := Ok (GoGenerator._dto_template g);
           blocks := Ok [map GoGenerator.dto_create_field fs;
                         map GoGenerator.dto_update_field fs;
                         map GoGenerator.dto_response_field fs;
                         map GoGenerator.dto_mapping fs] |};
        {| artifact := Ok (GoGenerator._usecase_template g);
           blocks := Ok [map GoGenerator.usecase_create_item fs;
                         map GoGenerator.usecase_update_item fs] |} ]
  | Laravel =>
      [ {| artifact := Ok (LaravelGenerator._model_template g);
           blocks := Ok [map LaravelGenerator.model_fillable_item fs;
                         map LaravelGenerator.model_cast_item
                             (filter LaravelGenerator.is_cast fs)] |};
        {| artifact := Ok (LaravelGenerator._migration_template g);
           blocks := Ok [map LaravelGenerator.migration_column fs] |};
        {| artifact := Ok (LaravelGenerator._request_template g);
           blocks := Ok [map LaravelGenerator.request_rule fs] |};
        {| artifact := Ok (LaravelGenerator._resource_template g);
           blocks := Ok [map LaravelGenerator.resource_field fs] |} ]
  | React =>
      [ {| artifact := Ok (ReactGenerator._types_template g);
           blocks := Ok [map ReactGenerator.types_field fs;
                         map ReactGenerator.types_field fs;
                         map ReactGenerator.types_update_field fs] |};
        {| artifact := Ok (ReactGenerator._form_component_template g);
           blocks := Ok [map ReactGenerator.form_field fs] |} ]
  | Flutter =>
      [ {| artifact := FlutterGenerator._model_template g;
           blocks := params ← mapR FlutterGenerator.model_constructor_param fs;
                     mret [params; params] |} ]
  end.

(** The first occurrence of [a] in [text] comes before the first
    occurrence of [b]; a text with neither passes. *)
Definition appears_before (a b text : string) : bool :=
  match str_find a text, str_find b text with
  | Some i, Some j => (i <? j)%nat
  | None, None => true
  | _, _ => false
  end.

(** The written files that mention [a], each with whether [a] comes first. *)
Definition order_report (a b : string) (run : FS * result (list Path))
    : list (Path * bool) :=
  omap (fun '(path, text) =>
          if str_contains a text then Some (path, appears_before a b text) else None)
       run.1.

(** * Properties *)

(** ** Strings *)

Lemma sapp_nil_l (s : string) : "" +:+ s = s.
Proof. reflexivity. Qed.

Lemma sapp_cons (c : ascii) (s t : string) : String c s +:+ t = String c (s +:+ t).
Proof. reflexivity. Qed.

Lemma sapp_nil_r (s : string) : s +:+ "" = s.
Proof. induction s as [|c s IH]; [reflexivity|]. rewrite sapp_cons, IH. reflexivity. Qed.

Lemma sapp_assoc (a b c : string) : (a +:+ b) +:+ c = a +:+ (b +:+ c).
Proof.
  induction a as [|x a IH]; [reflexivity|].
  rewrite !sapp_cons, IH. reflexivity.
Qed.

Lemma str_endswith_unfold (s suf : string) :
  str_endswith s suf =
  String.eqb s suf || match s with "" => false | String _ r => str_endswith r suf end.
Proof. destruct s; reflexivity. Qed.

Lemma str_endswith_app (p suf : string) : str_endswith (p +:+ suf) suf = true.
Proof.
  induction p as [|c p IH].
  - rewrite sapp_nil_l, str_endswith_unfold, String.eqb_refl. reflexivity.
  - rewrite sapp_cons, str_endswith_unfold, IH. apply orb_true_r.
Qed.

Lemma str_endswith_spec (s suf : string) :
  str_endswith s suf = true <-> exists p, s = p +:+ suf.
Proof.
  split.
  - induction s as [|c s IH]; rewrite str_endswith_unfold; intros H.
    + apply orb_true_iff in H as [H|H]; [|discriminate].
      apply String.eqb_eq in H. exists "". rewrite sapp_nil_l. exact H.
    + apply orb_true_iff in H as [H|H].
      * apply String.eqb_eq in H. exists "". rewrite sapp_nil_l. exact H.
      * destruct (IH H) as [p ->]. exists (String c p). reflexivity.
  - intros [p ->]. apply str_endswith_app.
Qed.

Lemma str_endswith_false (s suf : string) :
  str_endswith s suf = false <-> forall p, s <> p +:+ suf.
Proof.
  split.
  - intros H p ->. rewrite str_endswith_app in H. discriminate.
  - intros H. destruct (str_endswith s suf) eqn:E; [|reflexivity].
    apply str_endswith_spec in E as [p ->]. destruct (H p eq_refl).
Qed.

Lemma str_drop_last_app (p : string) (c : ascii) :
  str_drop_last (p +:+ String c "") = p.
Proof.
  induction p as [|x p IH]; [reflexivity|].
  rewrite sapp_cons. simpl. rewrite IH.
  destruct p; reflexivity.
Qed.

(** ** Pluralization *)

(** C8. [pluralize] applies its suffix rules in priority order: a name ending
    in [y] loses the [y] and gets [ies]; otherwise a name ending in [s], [x],
    [ch] or [sh] gets [es]; otherwise [s] is appended. So "category",
    "box", "bus" and "product" become "categories", "boxes", "buses" and
    "products". *)
Theorem pluralize_rules :
  (forall name p : string,
      name = p +:+ "y" -> BaseGenerator.pluralize name = p +:+ "ies") /\
  (forall name : string,
      (forall p, name <> p +:+ "y") ->
      (exists p, name = p +:+ "s" \/ name = p +:+ "x"
                 \/ name = p +:+ "ch" \/ name = p +:+ "sh") ->
      BaseGenerator.pluralize name = name +:+ "es") /\
  (forall name : string,
      (forall p, name <> p +:+ "y") ->
      (forall p, name <> p +:+ "s" /\ name <> p +:+ "x"
                 /\ name <> p +:+ "ch" /\ name <> p +:+ "sh") ->
      BaseGenerator.pluralize name = name +:+ "s") /\
  BaseGenerator.pluralize "category" = "categories" /\
  BaseGenerator.pluralize "box" = "boxes" /\
  BaseGenerator.pluralize "bus" = "buses" /\
  BaseGenerator.pluralize "product" = "products".
Proof.
  repeat split; try reflexivity.
  - intros name p ->. unfold BaseGenerator.pluralize.
    rewrite str_endswith_app, str_drop_last_app. reflexivity.
  - intros name Hy [p Hp]. unfold BaseGenerator.pluralize.
    apply str_endswith_false in Hy. rewrite Hy.
    replace (str_endswith_any name ["s"; "x"; "ch"; "sh"]) with true; [reflexivity|].
    symmetry. unfold str_endswith_any. simpl.
    destruct Hp as [-> | [-> | [-> | ->]]]; rewrite str_endswith_app;
      rewrite ?orb_true_r; reflexivity.
  - intros name Hy Hn. unfold BaseGenerator.pluralize.
    apply str_endswith_false in Hy. rewrite Hy.
    replace (str_endswith_any name ["s"; "x"; "ch"; "sh"]) with false; [reflexivity|].
    symmetry. unfold str_endswith_any. simpl.
    rewrite !orb_false_iff. repeat split; try reflexivity;
      apply str_endswith_false; intros p; apply (Hn p).
Qed.

Lemma pluralize_rules_witness :
  BaseGenerator.pluralize "category" = "categor" +:+ "ies" /\
  BaseGenerator.pluralize "church" = "church" +:+ "es" /\
  BaseGenerator.pluralize "product" = "product" +:+ "s".
Proof.
  destruct pluralize_rules as (Hy & Hes & Hs & _).
  split; [|split].
  - apply (Hy "category" "categor"). reflexivity.
  - apply (Hes "church").
    + intros p. apply (proj1 (str_endswith_false "church" "y")). reflexivity.
    + exists "chur". right. right. left. reflexivity.
  - apply (Hs "product").
    + intros p. apply (proj1 (str_endswith_false "product" "y")). reflexivity.
    + intros p. repeat split;
        apply (proj1 (str_endswith_false "product" _)); reflexivity.
Defined.

(** ** Type mapping tables *)

Lemma go_type_map_dom (t : string) :
  is_Some (GoGenerator.type_map !! t) <-> t ∈ go_type_tokens.
Proof.
  rewrite <- elem_of_dom. unfold GoGenerator.type_map.
  rewrite dom_list_to_map_L, elem_of_list_to_set. reflexivity.
Qed.

Lemma laravel_type_map_dom (t : string) :
  is_Some (LaravelGenerator.type_map !! t) <-> t ∈ laravel_type_tokens.
Proof.
  rewrite <- elem_of_dom. unfold LaravelGenerator.type_map.
  rewrite dom_list_to_map_L, elem_of_list_to_set. reflexivity.
Qed.

(** C9. The two type-mapping lookups, [_gorm_type] of the Go stack and
    [_migration_type] of the Laravel stack (the React and Flutter stacks
    have none), are total: a token of the table yields its mapped
    representation, every other token the fixed default of the stack
    ("varchar(255)", "string"); the tables hold exactly the listed tokens. *)
Theorem type_lookup_total :
  (forall t v, GoGenerator.type_map !! t = Some v -> GoGenerator._gorm_type t = v) /\
  (forall t, t ∉ go_type_tokens -> GoGenerator._gorm_type t = "varchar(255)") /\
  (forall t, t ∈ go_type_tokens -> exists v,
      GoGenerator.type_map !! t = Some v /\ GoGenerator._gorm_type t = v) /\
  (forall t v, LaravelGenerator.type_map !! t = Some v ->
      LaravelGenerator._migration_type t = v) /\
  (forall t, t ∉ laravel_type_tokens -> LaravelGenerator._migration_type t = "string") /\
  (forall t, t ∈ laravel_type_tokens -> exists v,
      LaravelGenerator.type_map !! t = Some v /\ LaravelGenerator._migration_type t = v) /\
  GoGenerator._gorm_type "int64" = "bigint" /\
  GoGenerator._gorm_type "uuid" = "varchar(255)" /\
  LaravelGenerator._migration_type "datetime" = "dateTime" /\
  LaravelGenerator._migration_type "uuid" = "string".
Proof.
  split_and!; try (vm_compute; reflexivity).
  - intros t v H. unfold GoGenerator._gorm_type. rewrite H. reflexivity.
  - intros t H. unfold GoGenerator._gorm_type.
    destruct (GoGenerator.type_map !! t) as [v|] eqn:E; [|reflexivity].
    destruct H. apply go_type_map_dom. rewrite E. eexists; reflexivity.
  - intros t H. apply go_type_map_dom in H as [v Hv].
    exists v. split; [exact Hv|]. unfold GoGenerator._gorm_type. rewrite Hv. reflexivity.
  - intros t v H. unfold LaravelGenerator._migration_type. rewrite H. reflexivity.
  - intros t H. unfold LaravelGenerator._migration_type.
    destruct (LaravelGenerator.type_map !! t) as [v|] eqn:E; [|reflexivity].
    destruct H. apply laravel_type_map_dom. rewrite E. eexists; reflexivity.
  - intros t H. apply laravel_type_map_dom in H as [v Hv].
    exists v. split; [exact Hv|]. unfold LaravelGenerator._migration_type.
    rewrite Hv. reflexivity.
Qed.

Lemma type_lookup_total_witness :
  GoGenerator._gorm_type "float64" = "double" /\
  GoGenerator._gorm_type "decimal" = "varchar(255)" /\
  LaravelGenerator._migration_type "json" = "json" /\
  LaravelGenerator._migration_type "int64" = "string".
Proof.
  destruct type_lookup_total as (G1 & G2 & _ & L1 & L2 & _).
  split_and!.
  - apply G1. vm_compute. reflexivity.
  - apply G2. unfold go_type_tokens. rewrite !elem_of_cons, elem_of_nil.
    intros H. repeat (destruct H as [H|H]; [discriminate H|]). exact H.
  - apply L1. vm_compute. reflexivity.
  - apply L2. unfold laravel_type_tokens. rewrite !elem_of_cons, elem_of_nil.
    intros H. repeat (destruct H as [H|H]; [discriminate H|]). exact H.
Defined.

(** ** Pagination of the generated Go module *)

Lemma wrap_small (bits x : Z) :
  (bits = 32 \/ bits = 64)%Z -> (0 <= x < 2 ^ (bits - 1))%Z ->
  GeneratedGo.wrap bits x = x.
Proof.
  intros Hb Hx. unfold GeneratedGo.wrap.
  destruct Hb as [-> | ->]; simpl in *; rewrite Z.mod_small; lia.
Qed.

Lemma paging_defaults (page perPage : Z) :
  GeneratedGo.paging page perPage =
  ((if (page <? 1)%Z then 1 else page)%Z, (if (perPage <? 1)%Z then 20 else perPage)%Z).
Proof. reflexivity. Qed.

(** C3. The generated [List] operation: [page] and [perPage] fall back to 1
    and 20 when the request's value is below 1, and, for a total count
    [total] (non-negative, within Go's [int]), the metadata's total-pages is
    [total / perPage], plus one when the remainder is not zero. *)
Theorem pagination_metadata (bits page perPage total : Z) :
  (bits = 32 \/ bits = 64)%Z ->
  (0 <= total < 2 ^ (bits - 1))%Z ->
  let page' := (if (page <? 1)%Z then 1 else page)%Z in
  let perPage' := (if (perPage <? 1)%Z then 20 else perPage)%Z in
  GeneratedGo.paging page perPage = (page', perPage') /\
  GeneratedGo.usecase_List_window bits page perPage
    = (GeneratedGo.wrap bits ((page' - 1) * perPage'), perPage') /\
  GeneratedGo.controller_List bits page perPage total =
    Some {| GeneratedGo.Page := page';
            GeneratedGo.PerPage := perPage';
            GeneratedGo.Total := total;
            GeneratedGo.TotalPages :=
              (total / perPage' + (if (total mod perPage' =? 0)%Z then 0 else 1))%Z |}.
Proof.
  intros Hb Ht page' perPage'.
  assert (Hpp : (1 <= perPage')%Z).
  { subst perPage'. destruct (Z.ltb_spec perPage 1); lia. }
  split; [reflexivity|]. split; [reflexivity|].
  unfold GeneratedGo.controller_List. rewrite paging_defaults.
  fold page' perPage'. unfold GeneratedGo.ToListResponse.
  destruct (Z.eqb_spec perPage' 0) as [E|_]; [lia|].
  rewrite (wrap_small bits total Hb Ht).
  rewrite Z.quot_div_nonneg, Z.rem_mod_nonneg by lia.
  assert (Hq : (0 <= total / perPage' <= total)%Z).
  { split; [apply Z.div_pos; lia|]. apply Z.div_le_upper_bound; nia. }
  assert (Hm : (0 <= total mod perPage' < perPage')%Z) by (apply Z.mod_pos_bound; lia).
  rewrite (wrap_small bits (total / perPage') Hb) by lia.
  destruct (Z.eqb_spec (total mod perPage') 0) as [E|E].
  - rewrite E. simpl. rewrite Z.add_0_r. reflexivity.
  - destruct (Z.gtb_spec (total mod perPage') 0) as [G|G]; [|lia].
    rewrite wrap_small; [reflexivity|exact Hb|].
    assert (Hd : (total = perPage' * (total / perPage') + total mod perPage')%Z)
      by (apply Z.div_mod; lia).
    split; [lia|]. nia.
Qed.

Lemma pagination_metadata_witness :
  GeneratedGo.TotalPages <$> GeneratedGo.controller_List 64 1 20 45 = Some 3%Z /\
  GeneratedGo.TotalPages <$> GeneratedGo.controller_List 64 1 20 40 = Some 2%Z /\
  GeneratedGo.paging 0 0 = (1, 20)%Z.
Proof.
  assert (H64 : (64 = 32 \/ 64 = 64)%Z) by (right; reflexivity).
  split; [|split].
  - rewrite (proj2 (proj2 (pagination_metadata 64 1 20 45 H64 ltac:(vm_compute; split; [discriminate|reflexivity])))).
    reflexivity.
  - rewrite (proj2 (proj2 (pagination_metadata 64 1 20 40 H64 ltac:(vm_compute; split; [discriminate|reflexivity])))).
    reflexivity.
  - rewrite (proj1 (pagination_metadata 64 0 0 45 H64 ltac:(vm_compute; split; [discriminate|reflexivity]))).
    reflexivity.
Defined.

(** ** Pascal case *)

Lemma str_join_empty_sep_cons (x : string) (l : list string) :
  str_join "" (x :: l) = x +:+ str_join "" l.
Proof. destruct l; simpl; [rewrite sapp_nil_r|rewrite sapp_nil_l]; reflexivity. Qed.

Lemma str_join_skip_empty (f : string -> string) (l : list string) :
  f "" = "" ->
  str_join "" (map f (filter (fun w : string => w <> "") l)) = str_join "" (map f l).
Proof.
  intros Hf. induction l as [|x l IH]; [reflexivity|].
  rewrite filter_cons. destruct (decide (x <> "")) as [Hx|Hx].
  - rewrite !map_cons, !str_join_empty_sep_cons, IH. reflexivity.
  - apply dec_stable in Hx. subst x.
    rewrite map_cons, str_join_empty_sep_cons, Hf, sapp_nil_l. exact IH.
Qed.

Lemma split_by_not_nil (p : ascii -> bool) (s : string) : split_by p s <> [].
Proof.
  destruct s as [|c s]; simpl; [discriminate|].
  destruct (p c); [discriminate|]. destruct (split_by p s); discriminate.
Qed.

Lemma split_replace_delims (name : string) :
  str_split "_" (str_replace "-" "_" name) = split_by is_delim name.
Proof.
  induction name as [|c s IH]; [reflexivity|].
  unfold str_replace in *. simpl. rewrite IH. unfold is_delim.
  destruct (Ascii.eqb_spec c "-") as [->|Hd]; [reflexivity|].
  simpl. reflexivity.
Qed.

(** C4, as the code has it. [to_pascal_case] concatenates, with no
    separator, the segments obtained by splitting the name on ['-'] and
    ['_'], empty segments skipped, each segment with its first character
    upper-cased and its remaining characters lower-cased; the name is not
    split again where the case changes. *)
Theorem to_pascal_case_segments :
  (forall name : string,
      BaseGenerator.to_pascal_case name
      = str_join "" (map str_capitalize (segments name))) /\
  BaseGenerator.to_pascal_case "user_profile" = "UserProfile" /\
  BaseGenerator.to_pascal_case "user__profile-" = "UserProfile" /\
  segments "userProfile" = ["userProfile"] /\
  BaseGenerator.to_pascal_case "userProfile" = "Userprofile".
Proof.
  split_and!; try reflexivity.
  intros name. unfold BaseGenerator.to_pascal_case, segments.
  rewrite split_replace_delims.
  symmetry. apply str_join_skip_empty. reflexivity.
Qed.

(** C4, as the claim words it, fails on a name with an inner capital: the
    claimed result keeps the segment's other characters, the code
    lower-cases them. *)
Lemma to_pascal_case_lowers_the_rest :
  to_pascal_case_spec "userProfile" = "UserProfile" /\
  BaseGenerator.to_pascal_case "userProfile" = "Userprofile" /\
  BaseGenerator.to_pascal_case "userProfile" <> to_pascal_case_spec "userProfile".
Proof. split_and!; [reflexivity|reflexivity|discriminate]. Qed.

(** ** Field parsing *)

Lemma str_split1_found (c : ascii) (s : string) :
  str_contains_char c s = true ->
  str_split1 c s = [str_before c s; str_after c s].
Proof.
  induction s as [|x r IH]; simpl; [discriminate|].
  destruct (Ascii.eqb x c); simpl; [reflexivity|].
  intros H. rewrite (IH H). reflexivity.
Qed.

Lemma parse_field_step_spec (default_type : string) (acc : list Field) (tok : string) :
  parse_field_step default_type (Ok acc) tok
  = Ok (acc ++ (if decide (str_strip tok <> "") then
                  [parse_token_spec str_strip default_type (str_strip tok)]
                else [])).
Proof.
  unfold parse_field_step. cbn [mbind result_bind mret result_ret].
  destruct (String.eqb_spec (str_strip tok) "") as [E|E].
  - rewrite E. destruct (decide ("" <> "")) as [H|_]; [destruct (H eq_refl)|].
    rewrite app_nil_r. reflexivity.
  - destruct (decide (str_strip tok <> "")) as [_|H]; [|destruct (H E)].
    unfold parse_token_spec.
    destruct (str_contains_char ":" (str_rstrip "?" (str_strip tok))) eqn:C.
    + rewrite (str_split1_found _ _ C). reflexivity.
    + reflexivity.
Qed.

Lemma parse_fields_loop (default_type : string) (toks : list string) (acc : list Field) :
  foldl (parse_field_step default_type) (Ok acc) toks
  = Ok (acc ++ map (parse_token_spec str_strip default_type)
                   (filter (fun w : string => w <> "") (map str_strip toks))).
Proof.
  revert acc. induction toks as [|tok toks IH]; intros acc.
  - simpl. rewrite app_nil_r. reflexivity.
  - cbn [foldl]. rewrite parse_field_step_spec, IH, map_cons, filter_cons.
    destruct (decide (str_strip tok <> "")).
    + rewrite map_cons, <- app_assoc. reflexivity.
    + rewrite app_nil_r. reflexivity.
Qed.

Lemma parse_fields_with_spec (default_type fields_str : string) :
  parse_fields_with default_type fields_str
  = Ok (parse_fields_spec str_strip default_type fields_str).
Proof. unfold parse_fields_with. rewrite parse_fields_loop. reflexivity. Qed.

(** C2, as the code has it. For every stack, [parse_fields] never fails and
    returns, in input order, one descriptor per non-empty trimmed token of
    the comma-split string: a trailing ['?'] makes the field optional and
    all trailing ['?'] are stripped; the rest is cut at its first [':']
    into name and type, or is the name with the stack's default type; and
    the name and the type are trimmed of surrounding whitespace. *)
Theorem parse_fields_tokens :
  (forall (cls : GeneratorClass) (fields_str : string),
      class_parse_fields cls fields_str
      = Ok (parse_fields_spec str_strip
              (match cls with Flutter => "String" | _ => "string" end) fields_str)) /\
  GoGenerator.parse_fields "name:string,price:int64?"
    = Ok [("name", "string", true); ("price", "int64", false)] /\
  GoGenerator.parse_fields "a,,b:int"
    = Ok [("a", "string", true); ("b", "int", true)] /\
  FlutterGenerator.parse_fields "a,,b:int"
    = Ok [("a", "String", true); ("b", "int", true)] /\
  GoGenerator.parse_fields "a : int, b??"
    = Ok [("a", "int", true); ("b", "string", false)].
Proof.
  split_and!; try reflexivity.
  intros cls fields_str. destruct cls; apply parse_fields_with_spec.
Qed.

(** C2, as the claim words it, fails on a token with whitespace around its
    [':']: the text before the [':'] is "a " and the text after it " int",
    and the code returns the trimmed "a" and "int". *)
Lemma parse_fields_trims_name_and_type :
  parse_fields_spec id "string" "a : int" = [("a ", " int", true)] /\
  GoGenerator.parse_fields "a : int" = Ok [("a", "int", true)] /\
  GoGenerator.parse_fields "a : int" <> Ok (parse_fields_spec id "string" "a : int").
Proof. split_and!; [reflexivity|reflexivity|discriminate]. Qed.

(** ** Lines of the generated text *)

Lemma has_line_here (l : string) (ls : list string) : has_line l (unlines (l :: ls)).
Proof. exists "", (unlines ls). reflexivity. Qed.

Lemma has_line_next (l x : string) (ls : list string) :
  has_line l (unlines ls) -> has_line l (unlines (x :: ls)).
Proof.
  intros (pre & post & E). exists (x +:+ nl +:+ pre), post.
  cbn [unlines]. rewrite E, !sapp_assoc. reflexivity.
Qed.

Ltac find_line :=
  first [ apply has_line_here | apply has_line_next; find_line ].


Lemma Ok_inj {A} (a b : A) : Ok a = Ok b -> a = b.
Proof. intros H. injection H as H. exact H. Qed.

Lemma to_camel_case_Ok (name : string) :
  exists v, BaseGenerator.to_camel_case name = Ok v.
Proof.
  unfold BaseGenerator.to_camel_case, index.
  pose proof (split_by_not_nil is_delim name) as H.
  rewrite split_replace_delims.
  destruct (split_by is_delim name) as [|w ws]; [destruct (H eq_refl)|].
  eexists. reflexivity.
Qed.

(** ** Search field *)

Lemma search_field_refines (fs : list Field) :
  GoGenerator.search_field fs = search_field_spec "string" fs.
Proof.
  unfold GoGenerator.search_field.
  induction fs as [|[[n t] r] fs IH]; [reflexivity|].
  rewrite filter_cons. cbn [search_field_spec ftype fname fst snd].
  destruct (String.eqb t "string" && negb (str_endswith n "_id")) eqn:E.
  - rewrite decide_True; [reflexivity | exact I].
  - rewrite decide_False; [exact IH | exact id].
Qed.

(** C1, as the code has it. In the Go stack the generated [List] filters
    on the first field, in declared order, whose type token is "string"
    and whose name does not end in "_id", and on "name" when no field
    qualifies, declared or not. In the Laravel stack the generated [index]
    filters on the fixed column "name", whatever fields were declared. *)
Theorem search_field_selection :
  (forall g : Generator,
      has_line (go_search_line (search_field_spec "string" (fields g)))
               (GoGenerator._usecase_template g)) /\
  (forall (g : Generator) (c : string),
      LaravelGenerator._controller_template g = Ok c ->
      has_line (laravel_search_line "name") c) /\
  (forall g : Generator, exists c, LaravelGenerator._controller_template g = Ok c) /\
  search_field_spec "string" [("user_id", "string", true); ("title", "string", true)]
    = "title" /\
  search_field_spec "string" [("user_id", "string", true); ("qty", "int64", true)]
    = "name".
Proof.
  split_and!; try reflexivity.
  - intros g. rewrite <- search_field_refines.
    unfold GoGenerator._usecase_template, go_search_line. cbv zeta. find_line.
  - intros g c. unfold LaravelGenerator._controller_template, laravel_search_line.
    destruct (to_camel_case_Ok (module_name g)) as [v ->].
    cbn [mbind result_bind mret result_ret]. intros H. apply Ok_inj in H. subst c.
    find_line.
  - intros g. unfold LaravelGenerator._controller_template.
    destruct (to_camel_case_Ok (module_name g)) as [v ->].
    eexists. reflexivity.
Qed.

Lemma search_field_selection_witness :
  let g := {| module_name := "post"; entity_name := "Post"; project := "";
              output_dir := ["."]; options := {| validators := false |};
              fields := [("user_id", "string", true); ("title", "string", true)] |} in
  has_line (go_search_line "title") (GoGenerator._usecase_template g) /\
  has_line (laravel_search_line "name")
    (match LaravelGenerator._controller_template g with Ok c => c | Raise _ => "" end).
Proof.
  intros g. split.
  - exact (proj1 search_field_selection g).
  - apply (proj1 (proj2 search_field_selection) g). vm_compute. reflexivity.
Defined.

(** C1, as the claim words it, fails for the Laravel stack: with the fields
    user_id and title, both of type string, the claimed search field is
    "title", and the generated controller filters on "name" and never
    mentions "title". *)
Lemma laravel_search_field_is_fixed :
  search_field_spec "string" [("user_id", "string", true); ("title", "string", true)]
    = "title" /\
  (g ← construct Laravel "post" "user_id:string,title:string" "" "."
         {| validators := false |};
   c ← LaravelGenerator._controller_template g;
   mret (fields g,
         str_contains (laravel_search_line "name" +:+ nl) c,
         str_contains (laravel_search_line "title" +:+ nl) c,
         str_contains "title" c))
  = Ok ([("user_id", "string", true); ("title", "string", true)], true, false, false).
Proof. split; vm_compute; reflexivity. Qed.

(** ** Route paths *)

Lemma construct_names (cls : GeneratorClass)
    (name fields_str project output_dir : string) (options : Options) (g : Generator) :
  construct cls name fields_str project output_dir options = Ok g ->
  module_name g = str_lower name /\
  entity_name g = BaseGenerator.to_pascal_case name.
Proof.
  unfold construct, init.
  destruct (class_parse_fields cls fields_str) as [fs|e];
    cbn [mbind result_bind mret result_ret]; [|discriminate].
  intros H. apply Ok_inj in H. subst g. split; reflexivity.
Qed.

Ltac find_lines :=
  repeat (apply List.Forall_cons; [find_line|]); apply List.Forall_nil.

(** C6. In each stack that emits a routing or a client request-path
    artifact (the Go wiring, the React client, the Flutter repository), the
    collection path in the artifact is "/" followed by the kebab-case
    plural of the module name, every line of the artifact that names the
    path uses that same value, and the single-resource path is the
    collection path followed by the identifier placeholder ("/:id",
    "/${id}", "/$id"). The entity name "order_item" gives "order-items"
    in every stack. *)
Theorem route_path_derivation :
  (forall g : Generator,
      Forall (fun l => has_line l (GoGenerator._init_template g))
             (go_route_lines (route g))) /\
  (forall g : Generator, exists c,
      ReactGenerator._api_template g = Ok c /\
      Forall (fun l => has_line l c) (react_route_lines (entity_name g) (route g))) /\
  (forall g : Generator,
      Forall (fun l => has_line l (FlutterGenerator._repository_template g))
             (flutter_route_lines (route g))) /\
  (forall (cls : GeneratorClass) (name fields_str project output_dir : string)
          (options : Options) (g : Generator),
      construct cls name fields_str project output_dir options = Ok g ->
      route g = BaseGenerator.to_kebab_case (BaseGenerator.pluralize (str_lower name))) /\
  BaseGenerator.to_kebab_case (BaseGenerator.pluralize (str_lower "order_item"))
    = "order-items".
Proof.
  split_and!; try reflexivity.
  - intros g. unfold GoGenerator._init_template, go_route_lines, route. cbv zeta.
    find_lines.
  - intros g. unfold ReactGenerator._api_template, react_route_lines, route. cbv zeta.
    destruct (to_camel_case_Ok (module_name g)) as [v ->].
    cbn [mbind result_bind mret result_ret].
    eexists. split; [reflexivity|]. find_lines.
  - intros g. unfold FlutterGenerator._repository_template, flutter_route_lines, route.
    cbv zeta. find_lines.
  - intros cls name fields_str project output_dir options g H.
    apply construct_names in H as [Hm _]. unfold route. rewrite Hm. reflexivity.
Qed.

Lemma route_path_derivation_witness :
  (g ← construct Go "order_item" "sku:string,qty:int64?" "app" "." {| validators := false |};
   mret (route g)) = Ok "order-items" /\
  (g ← construct React "order_item" "sku:string,qty:int64?" "app" "." {| validators := false |};
   mret (route g)) = Ok "order-items" /\
  (g ← construct Flutter "order_item" "sku:String,qty:int?" "app" "." {| validators := false |};
   mret (route g)) = Ok "order-items".
Proof.
  destruct route_path_derivation as (_ & _ & _ & H & _).
  split_and!.
  - destruct (construct Go "order_item" "sku:string,qty:int64?" "app" "."
                {| validators := false |}) as [g|e] eqn:E; [|discriminate E].
    cbn [mbind result_bind mret result_ret]. rewrite (H _ _ _ _ _ _ _ E). reflexivity.
  - destruct (construct React "order_item" "sku:string,qty:int64?" "app" "."
                {| validators := false |}) as [g|e] eqn:E; [|discriminate E].
    cbn [mbind result_bind mret result_ret]. rewrite (H _ _ _ _ _ _ _ E). reflexivity.
  - destruct (construct Flutter "order_item" "sku:String,qty:int?" "app" "."
                {| validators := false |}) as [g|e] eqn:E; [|discriminate E].
    cbn [mbind result_bind mret result_ret]. rewrite (H _ _ _ _ _ _ _ E). reflexivity.
Defined.

(** ** Letter case of the entity name *)

Lemma str_map_map (f g : ascii -> ascii) (s : string) :
  str_map f (str_map g s) = str_map (fun c => f (g c)) s.
Proof. induction s as [|c s IH]; simpl; [|rewrite IH]; reflexivity. Qed.

Lemma str_map_ext (f g : ascii -> ascii) (s : string) :
  (forall c, f c = g c) -> str_map f s = str_map g s.
Proof. intros H. induction s as [|c s IH]; simpl; [|rewrite H, IH]; reflexivity. Qed.

Lemma lower_char_idem (c : ascii) : lower_char (lower_char c) = lower_char c.
Proof. destruct c as [[] [] [] [] [] [] [] []]; reflexivity. Qed.

Lemma upper_lower_char (c : ascii) : upper_char (lower_char c) = upper_char c.
Proof. destruct c as [[] [] [] [] [] [] [] []]; reflexivity. Qed.

Lemma is_delim_lower_char (c : ascii) : is_delim (lower_char c) = is_delim c.
Proof. destruct c as [[] [] [] [] [] [] [] []]; reflexivity. Qed.

Lemma str_lower_idem (s : string) : str_lower (str_lower s) = str_lower s.
Proof.
  unfold str_lower. rewrite str_map_map. apply str_map_ext, lower_char_idem.
Qed.

Lemma str_capitalize_lower (w : string) : str_capitalize (str_lower w) = str_capitalize w.
Proof.
  destruct w as [|c w]; [reflexivity|].
  unfold str_lower. cbn [str_map str_capitalize].
  fold (str_lower w). rewrite upper_lower_char.
  fold (str_lower (str_lower w)). rewrite str_lower_idem. reflexivity.
Qed.

Lemma split_by_delim_lower (s : string) :
  split_by is_delim (str_lower s) = map str_lower (split_by is_delim s).
Proof.
  induction s as [|c s IH]; [reflexivity|].
  unfold str_lower in *. cbn [str_map split_by].
  rewrite is_delim_lower_char, IH.
  destruct (is_delim c); [reflexivity|].
  destruct (split_by is_delim s); reflexivity.
Qed.

Lemma to_pascal_case_lower (name : string) :
  BaseGenerator.to_pascal_case (str_lower name) = BaseGenerator.to_pascal_case name.
Proof.
  unfold BaseGenerator.to_pascal_case.
  rewrite !split_replace_delims, split_by_delim_lower, map_map.
  f_equal. apply map_ext. intros w. apply str_capitalize_lower.
Qed.

Lemma construct_lower (cls : GeneratorClass)
    (name1 name2 fields_str project output_dir : string) (options : Options) :
  str_lower name1 = str_lower name2 ->
  construct cls name1 fields_str project output_dir options
  = construct cls name2 fields_str project output_dir options.
Proof.
  intros H. unfold construct, init.
  rewrite <- (to_pascal_case_lower name1), <- (to_pascal_case_lower name2), H.
  reflexivity.
Qed.

(** C10. Two entity names that are equal up to ASCII letter case give the
    same run: for every stack (registered or not), field string, project,
    output directory and option, [main] writes the same contents at the
    same paths and returns the same paths, because the module name is the
    lower-cased name and the pascal-case transform of a name is that of
    its lower-cased form. This holds on every file system, also one that
    refuses a write. *)
Theorem names_equal_up_to_case (disk : Disk) (args : Args) (name1 name2 : string)
    (fs : FS) :
  str_lower name1 = str_lower name2 ->
  main disk (with_name args name1) fs = main disk (with_name args name2) fs.
Proof.
  intros H. unfold main, with_name, mbind, M_bind, lift.
  cbn [arg_stack arg_name arg_fields arg_project arg_output arg_validators].
  destruct (bool_decide (arg_stack args ∈ dom GENERATORS)); [|reflexivity].
  destruct (GENERATORS !! arg_stack args) as [cls|]; [|reflexivity].
  rewrite (construct_lower cls name1 name2 _ _ _ _ H). reflexivity.
Qed.

Lemma names_equal_up_to_case_witness :
  let args := {| arg_stack := "go"; arg_name := ""; arg_fields := "name:string,price:int64";
                 arg_project := "myapp"; arg_output := "."; arg_validators := true |} in
  main accepting (with_name args "Product") []
    = main accepting (with_name args "PRODUCT") [] /\
  main name_max_disk (with_name args "PRODUCT") []
    = main name_max_disk (with_name args "product") [].
Proof.
  intros args. split.
  - apply (names_equal_up_to_case accepting args "Product" "PRODUCT" []). reflexivity.
  - apply (names_equal_up_to_case name_max_disk args "PRODUCT" "product" []). reflexivity.
Defined.

(** ** Totality of the templates *)

Lemma mapR_total {A B} (f : A -> result B) (l : list A) :
  (forall x, exists y, f x = Ok y) -> exists ys, mapR f l = Ok ys.
Proof.
  intros H. induction l as [|x l [ys IH]].
  - exists []. reflexivity.
  - destruct (H x) as [y Hy]. exists (y :: ys).
    cbn [mapR]. rewrite Hy, IH. reflexivity.
Qed.

Lemma flutter_model_field_Ok (f : Field) :
  exists v, FlutterGenerator.model_field f = Ok v.
Proof.
  destruct f as [[n t] r]. unfold FlutterGenerator.model_field.
  destruct (to_camel_case_Ok n) as [v ->]. eexists. reflexivity.
Qed.

Lemma flutter_model_constructor_param_Ok (f : Field) :
  exists v, FlutterGenerator.model_constructor_param f = Ok v.
Proof.
  destruct f as [[n t] r]. unfold FlutterGenerator.model_constructor_param.
  destruct (to_camel_case_Ok n) as [v ->]. eexists. reflexivity.
Qed.

Lemma flutter_model_from_json_Ok (f : Field) :
  exists v, FlutterGenerator.model_from_json f = Ok v.
Proof.
  destruct f as [[n t] r]. unfold FlutterGenerator.model_from_json.
  destruct (to_camel_case_Ok n) as [v ->]. eexists. reflexivity.
Qed.

Lemma flutter_model_to_json_Ok (f : Field) :
  exists v, FlutterGenerator.model_to_json f = Ok v.
Proof.
  destruct f as [[n t] r]. unfold FlutterGenerator.model_to_json.
  destruct (to_camel_case_Ok n) as [v ->]. eexists. reflexivity.
Qed.

Ltac camel_template :=
  match goal with
  | g : Generator |- _ =>
      destruct (to_camel_case_Ok (module_name g)) as [?v ->];
      eexists; reflexivity
  end.

Lemma laravel_controller_Ok (g : Generator) :
  exists c, LaravelGenerator._controller_template g = Ok c.
Proof. unfold LaravelGenerator._controller_template. camel_template. Qed.

Lemma react_api_Ok (g : Generator) : exists c, ReactGenerator._api_template g = Ok c.
Proof. unfold ReactGenerator._api_template. camel_template. Qed.

Lemma react_hooks_Ok (g : Generator) : exists c, ReactGenerator._hooks_template g = Ok c.
Proof. unfold ReactGenerator._hooks_template. camel_template. Qed.

Lemma flutter_provider_Ok (g : Generator) :
  exists c, FlutterGenerator._provider_template g = Ok c.
Proof. unfold FlutterGenerator._provider_template. camel_template. Qed.

Lemma flutter_screen_Ok (g : Generator) :
  exists c, FlutterGenerator._screen_template g = Ok c.
Proof. unfold FlutterGenerator._screen_template. camel_template. Qed.

Lemma flutter_model_Ok (g : Generator) :
  exists c, FlutterGenerator._model_template g = Ok c.
Proof.
  unfold FlutterGenerator._model_template. cbv zeta.
  destruct (mapR_total _ (fields g) flutter_model_field_Ok) as [a ->].
  destruct (mapR_total _ (fields g) flutter_model_constructor_param_Ok) as [b ->].
  destruct (mapR_total _ (fields g) flutter_model_from_json_Ok) as [c ->].
  destruct (mapR_total _ (fields g) flutter_model_to_json_Ok) as [d ->].
  eexists. reflexivity.
Qed.

Lemma bind_emit {A} (files : list Path) (path : Path) (c : string)
    (k : list Path -> M A) (fs : FS) :
  (emit accepting files path (Ok c) ≫= k) fs
  = k (files ++ [path]) (fs ++ [(path, c)]).
Proof. reflexivity. Qed.

Lemma bind_ret {A B} (a : A) (k : A -> M B) (fs : FS) : (mret a ≫= k) fs = k a fs.
Proof. reflexivity. Qed.

(** ** A run as its sequence of writes *)

(** [generate] makes the calls of [artifacts], one after the other. *)
Lemma class_generate_calls (disk : Disk) (cls : GeneratorClass) (g : Generator) (fs : FS) :
  class_generate disk cls g fs = write_all disk [] (artifacts cls g) fs.
Proof.
  destruct cls; cbn [class_generate artifacts].
  - unfold GoGenerator.generate. cbv zeta.
    destruct (validators (options g)); reflexivity.
  - reflexivity.
  - reflexivity.
  - reflexivity.
Qed.

(** Every template of every stack renders. *)
Lemma artifacts_rendered (cls : GeneratorClass) (g : Generator) :
  exists written,
    rendered (artifacts cls g) = Ok written /\
    length written = artifact_count cls (validators (options g)) /\
    written.*1 = (artifacts cls g).*1.
Proof.
  unfold rendered. destruct cls; cbn [artifacts artifact_count]; cbv zeta.
  - destruct (validators (options g)); eexists; split_and!; reflexivity.
  - destruct (laravel_controller_Ok g) as [c ->]. eexists; split_and!; reflexivity.
  - destruct (react_api_Ok g) as [a ->]. destruct (react_hooks_Ok g) as [h ->].
    eexists; split_and!; reflexivity.
  - destruct (flutter_model_Ok g) as [m ->].
    destruct (flutter_provider_Ok g) as [p ->].
    destruct (flutter_screen_Ok g) as [s ->].
    eexists; split_and!; reflexivity.
Qed.

Lemma rendered_cons (path : Path) (r : result string)
    (rest : list (Path * result string)) (written : FS) :
  rendered ((path, r) :: rest) = Ok written ->
  exists c ws, r = Ok c /\ rendered rest = Ok ws /\ written = (path, c) :: ws.
Proof.
  unfold rendered. cbn [mapR fst snd].
  destruct r as [c|e]; cbn [mbind result_bind mret result_ret]; [|discriminate].
  destruct (mapR _ rest) as [ws|e]; [|discriminate].
  intros H. apply Ok_inj in H. exists c, ws. split_and!; [reflexivity..|].
  symmetry. exact H.
Qed.

(** One call: the file system accepts it and the run goes on, or it
    refuses and the run ends there. *)
Lemma write_all_cons (disk : Disk) (files : list Path) (path : Path) (c : string)
    (rest : list (Path * result string)) (fs : FS) :
  write_all disk files ((path, Ok c) :: rest) fs
  = match disk fs path c with
    | None => write_all disk (files ++ [path]) rest (fs ++ [(path, c)])
    | Some e => (fs, Raise (IO e))
    end.
Proof.
  cbn [write_all]. unfold emit, write_file, mbind, M_bind, lift, mret, M_ret.
  destruct (disk fs path c); reflexivity.
Qed.

Lemma write_all_app (disk : Disk) (a b : list (Path * result string)) :
  forall (files : list Path) (fs : FS),
  write_all disk files (a ++ b) fs
  = (files' ← write_all disk files a; write_all disk files' b) fs.
Proof.
  induction a as [|[path r] a IH]; intros files fs; [reflexivity|].
  cbn [app write_all]. unfold mbind, M_bind.
  destruct (emit disk files path r fs) as [fs' [files'|e]]; [|reflexivity].
  rewrite IH. reflexivity.
Qed.

(** The outcome of a sequence of calls whose templates render to [written]:
    the run stops at the first write that the file system refuses, with the
    files before it written and the refusal raised; if there is none, all
    the files are written and their paths returned. *)
Lemma write_all_outcome (disk : Disk) (calls : list (Path * result string)) :
  forall (written : FS) (files : list Path) (fs : FS),
  rendered calls = Ok written ->
  exists k,
    (write_all disk files calls fs).1 = fs ++ take k written /\
    (forall j p c, j < k -> written !! j = Some (p, c) ->
                   disk (fs ++ take j written) p c = None) /\
    ((k = length written /\
      (write_all disk files calls fs).2 = Ok (files ++ written.*1)) \/
     (exists p c e,
        written !! k = Some (p, c) /\
        disk (fs ++ take k written) p c = Some e /\
        (write_all disk files calls fs).2 = Raise (IO e))).
Proof.
  induction calls as [|[path r] rest IH]; intros written files fs H.
  - apply Ok_inj in H. subst written. exists 0. cbn [write_all].
    unfold mret, M_ret. cbn [fst snd take length fmap list_fmap].
    rewrite !app_nil_r. split_and!; [reflexivity|lia|left; split; reflexivity].
  - apply rendered_cons in H as (c & ws & -> & Hws & ->).
    rewrite write_all_cons. destruct (disk fs path c) as [e|] eqn:E.
    + exists 0. cbn [fst snd take]. rewrite app_nil_r.
      split_and!; [reflexivity|lia|].
      right. exists path, c, e. split_and!; [reflexivity|exact E|reflexivity].
    + destruct (IH ws (files ++ [path]) (fs ++ [(path, c)]) Hws)
        as (k & Hlog & Hacc & Hres).
      exists (S k). split_and!.
      * rewrite Hlog, <- app_assoc. reflexivity.
      * intros [|j] p' c' Hj Hl.
        -- cbn in Hl. apply (inj Some) in Hl. injection Hl as <- <-.
           cbn [take]. rewrite app_nil_r. exact E.
        -- cbn [take]. cbn in Hl.
           specialize (Hacc j p' c' ltac:(lia) Hl).
           rewrite <- app_assoc in Hacc. exact Hacc.
      * destruct Hres as [[-> Hres]|(p' & c' & e & Hl & Hd & Hres)].
        -- left. split; [reflexivity|].
           rewrite Hres, <- app_assoc. reflexivity.
        -- right. exists p', c', e. split_and!; [exact Hl| |exact Hres].
           cbn [take]. rewrite <- app_assoc in Hd. exact Hd.
Qed.

(** On a file system that accepts every write the whole sequence is written. *)
Lemma write_all_accepting (calls : list (Path * result string)) :
  forall (written : FS) (files : list Path) (fs : FS),
  rendered calls = Ok written ->
  write_all accepting files calls fs = (fs ++ written, Ok (files ++ written.*1)).
Proof.
  induction calls as [|[path r] rest IH]; intros written files fs H.
  - apply Ok_inj in H. subst written. cbn [write_all fmap list_fmap].
    unfold mret, M_ret. rewrite !app_nil_r. reflexivity.
  - apply rendered_cons in H as (c & ws & -> & Hws & ->).
    rewrite write_all_cons. cbn [accepting]. unfold accepting.
    rewrite (IH ws _ _ Hws), <- !app_assoc. reflexivity.
Qed.

(** ** The failures of a run *)

Lemma dom_GENERATORS (s : string) : s ∈ dom GENERATORS <-> s ∈ registered_stacks.
Proof.
  unfold GENERATORS. rewrite dom_list_to_map_L, elem_of_list_to_set. reflexivity.
Qed.

Lemma construct_Ok (cls : GeneratorClass)
    (name fields_str project output_dir : string) (opts : Options) :
  construct cls name fields_str project output_dir opts
  = Ok {| module_name := str_lower name;
          entity_name := BaseGenerator.to_pascal_case name;
          project := project;
          output_dir := [output_dir];
          options := opts;
          fields := parse_fields_spec str_strip
                      (match cls with Flutter => "String" | _ => "string" end)
                      fields_str |}.
Proof.
  unfold construct, init.
  destruct cls; cbn [class_parse_fields];
    unfold GoGenerator.parse_fields, LaravelGenerator.parse_fields,
           ReactGenerator.parse_fields, FlutterGenerator.parse_fields;
    rewrite parse_fields_with_spec; reflexivity.
Qed.

Lemma main_of_class (disk : Disk) (args : Args) (cls : GeneratorClass) (fs : FS) :
  GENERATORS !! arg_stack args = Some cls ->
  main disk args fs
  = match construct cls (arg_name args) (arg_fields args) (arg_project args)
            (arg_output args) {| validators := arg_validators args |} with
    | Ok g => class_generate disk cls g fs
    | Raise e => (fs, Raise e)
    end.
Proof.
  intros H. unfold main, mbind, M_bind, lift.
  rewrite bool_decide_eq_true_2 by (apply elem_of_dom; rewrite H; eexists; reflexivity).
  rewrite H.
  destruct (construct cls _ _ _ _ _) as [g|e]; [|reflexivity].
  destruct (class_generate disk cls g fs) as [fs' [files|e]]; reflexivity.
Qed.

Lemma main_unregistered (disk : Disk) (args : Args) (fs : FS) :
  GENERATORS !! arg_stack args = None ->
  main disk args fs = (fs, Raise ArgparseInvalidChoice).
Proof.
  intros H. unfold main, mbind, M_bind, lift.
  rewrite bool_decide_eq_false_2; [reflexivity|].
  rewrite elem_of_dom, H. intros [x Hx]. discriminate Hx.
Qed.

(** A run on a registered stack is the sequence of the writes of its
    stack, for the generator that the arguments construct. *)
Lemma main_calls (disk : Disk) (args : Args) (cls : GeneratorClass) (fs : FS) :
  GENERATORS !! arg_stack args = Some cls ->
  exists g,
    construct cls (arg_name args) (arg_fields args) (arg_project args)
      (arg_output args) {| validators := arg_validators args |} = Ok g /\
    validators (options g) = arg_validators args /\
    main disk args fs = write_all disk [] (artifacts cls g) fs.
Proof.
  intros H. rewrite (main_of_class disk args cls fs H), construct_Ok.
  eexists. split; [reflexivity|]. split; [reflexivity|].
  apply class_generate_calls.
Qed.

(** C7, as the specification states it, does not hold: a registered stack
    is not enough for the run to complete. On a file system with the usual
    255-byte limit on a file name, the Go stack with a name of 251 letters
    writes pkg/database/<name>.go (254 bytes), then raises [OSError] on
    <name>_dto.go (258 bytes): the run fails although the stack is
    registered, and after an artifact was produced. *)
Lemma long_name_fails_after_first_file :
  let name := str_repeat "a" 251 in
  let run := main name_max_disk
               {| arg_stack := "go"; arg_name := name; arg_fields := "title:string";
                  arg_project := "app"; arg_output := "out"; arg_validators := false |}
               [] in
  bool_decide ("go" ∈ registered_stacks) = true /\
  String.length name = 251 /\
  run.2 = Raise (IO OSError) /\
  run.1.*1 = [["out"; "pkg"; "database"; name +:+ ".go"]].
Proof. cbv zeta. split_and!; vm_compute; reflexivity. Qed.

(** C7, amended. A run on a stack that is not one of go, laravel, react,
    flutter fails before anything is written. On a registered stack,
    whatever the entity name, the field string, the project, the output
    directory and the option, the generator is constructed and every
    template renders: no field token, type token or search-field choice
    raises. The run then writes the files of its stack (5 or 6 for go, 8
    for laravel, 6 for react, 4 for flutter; their paths and contents are
    those of [artifacts]) in order, and the one thing that can still fail
    is a write that the file system refuses: the run stops at the first
    such write, with the files before it written and the error of the
    refusal raised. On a file system that accepts every write the whole
    set is written and its paths are returned. *)
Theorem generation_fails_on_stack_or_refused_write :
  (forall (disk : Disk) (args : Args) (fs : FS),
      arg_stack args ∉ registered_stacks ->
      main disk args fs = (fs, Raise ArgparseInvalidChoice)) /\
  (forall (disk : Disk) (args : Args) (fs : FS),
      arg_stack args ∈ registered_stacks ->
      exists (cls : GeneratorClass) (g : Generator) (written : FS),
        GENERATORS !! arg_stack args = Some cls /\
        construct cls (arg_name args) (arg_fields args) (arg_project args)
          (arg_output args) {| validators := arg_validators args |} = Ok g /\
        rendered (artifacts cls g) = Ok written /\
        length written = artifact_count cls (arg_validators args) /\
        main accepting args fs = (fs ++ written, Ok written.*1) /\
        exists k : nat,
          (main disk args fs).1 = fs ++ take k written /\
          (forall j p c, j < k -> written !! j = Some (p, c) ->
                         disk (fs ++ take j written) p c = None) /\
          ((k = length written /\ (main disk args fs).2 = Ok written.*1) \/
           (exists p c e,
              written !! k = Some (p, c) /\
              disk (fs ++ take k written) p c = Some e /\
              (main disk args fs).2 = Raise (IO e)))).
Proof.
  split.
  - intros disk args fs H. apply main_unregistered.
    apply not_elem_of_dom. rewrite dom_GENERATORS. exact H.
  - intros disk args fs H.
    assert (Hd : arg_stack args ∈ dom GENERATORS) by (apply dom_GENERATORS; exact H).
    destruct (proj1 (elem_of_dom _ _) Hd) as [cls Hcls].
    destruct (main_calls disk args cls fs Hcls) as (g & Hg & Hv & Hmain).
    destruct (main_calls accepting args cls fs Hcls) as (g' & Hg' & _ & Hmain').
    rewrite Hg in Hg'. apply Ok_inj in Hg'. subst g'.
    destruct (artifacts_rendered cls g) as (written & Hw & Hlen & _).
    exists cls, g, written. split_and!; [exact Hcls|exact Hg|exact Hw| | |].
    + rewrite Hlen, Hv. reflexivity.
    + rewrite Hmain'. apply (write_all_accepting _ _ [] fs Hw).
    + rewrite Hmain. exact (write_all_outcome disk _ written [] fs Hw).
Qed.

Lemma generation_fails_on_stack_or_refused_write_witness :
  main name_max_disk
    {| arg_stack := "remix"; arg_name := "product"; arg_fields := "name:string";
       arg_project := ""; arg_output := "."; arg_validators := false |} []
    = ([], Raise ArgparseInvalidChoice) /\
  exists (cls : GeneratorClass) (g : Generator) (written : FS),
    GENERATORS !! "flutter" = Some cls /\
    construct cls "product" ":,?,x:y:z??" "" "." {| validators := false |} = Ok g /\
    rendered (artifacts cls g) = Ok written /\
    length written = artifact_count cls false /\
    main accepting
      {| arg_stack := "flutter"; arg_name := "product"; arg_fields := ":,?,x:y:z??";
         arg_project := ""; arg_output := "."; arg_validators := false |} []
      = ([] ++ written, Ok written.*1).
Proof.
  destruct generation_fails_on_stack_or_refused_write as (Hfail & Hrun).
  split.
  - apply Hfail. cbn [arg_stack]. unfold registered_stacks.
    rewrite !elem_of_cons, elem_of_nil.
    intros H. repeat (destruct H as [H|H]; [discriminate H|]). exact H.
  - destruct (Hrun accepting
                {| arg_stack := "flutter"; arg_name := "product";
                   arg_fields := ":,?,x:y:z??"; arg_project := "";
                   arg_output := "."; arg_validators := false |} [])
      as (cls & g & written & H1 & H2 & H3 & H4 & H5 & _).
    + cbn [arg_stack]. unfold registered_stacks.
      rewrite !elem_of_cons. right. right. right. left. reflexivity.
    + exists cls, g, written. split_and!; assumption.
Defined.

(** ** Field order in the artifacts *)

Lemma occurs_prefix (xs : list string) (p text : string) :
  occurs_in_order xs text -> occurs_in_order xs (p +:+ text).
Proof.
  intros H. destruct H as [text|x xs pre text H].
  - apply occurs_nil.
  - rewrite <- sapp_assoc. apply occurs_cons. exact H.
Qed.

Lemma occurs_app (xs ys : list string) (a b : string) :
  occurs_in_order xs a -> occurs_in_order ys b ->
  occurs_in_order (xs ++ ys) (a +:+ b).
Proof.
  intros Ha Hb. induction Ha as [a|x xs pre a Ha IH].
  - apply occurs_prefix. exact Hb.
  - rewrite !sapp_assoc. apply (occurs_cons x (xs ++ ys)). exact IH.
Qed.

Lemma occurs_join (sep : string) (l : list string) :
  occurs_in_order l (str_join sep l).
Proof.
  induction l as [|x [|y l] IH].
  - apply occurs_nil.
  - cbn [str_join]. rewrite <- (sapp_nil_r x) at 2.
    apply (occurs_cons x [] "" ""). apply occurs_nil.
  - change (str_join sep (x :: y :: l)) with ("" +:+ x +:+ sep +:+ str_join sep (y :: l)).
    apply occurs_cons. apply occurs_prefix. exact IH.
Qed.

Lemma occurs_line_skip (xs : list string) (l : string) (ls : list string) :
  occurs_in_order xs (unlines ls) -> occurs_in_order xs (unlines (l :: ls)).
Proof.
  intros H. cbn [unlines]. apply occurs_prefix, occurs_prefix. exact H.
Qed.

Lemma occurs_line_block (sep p q : string) (block rest : list string) (ls : list string) :
  occurs_in_order rest (unlines ls) ->
  occurs_in_order (block ++ rest) (unlines ((p +:+ str_join sep block +:+ q) :: ls)).
Proof.
  intros H. cbn [unlines]. rewrite !sapp_assoc.
  apply occurs_prefix, occurs_app; [apply occurs_join|].
  apply occurs_prefix, occurs_prefix. exact H.
Qed.

Lemma occurs_line_block_alone (sep : string) (block rest : list string) (ls : list string) :
  occurs_in_order rest (unlines ls) ->
  occurs_in_order (block ++ rest) (unlines (str_join sep block :: ls)).
Proof.
  intros H. cbn [unlines].
  apply occurs_app; [apply occurs_join|]. apply occurs_prefix. exact H.
Qed.

Ltac place_blocks :=
  cbn [concat];
  repeat first [ apply occurs_nil
               | apply occurs_line_block_alone
               | apply occurs_line_block
               | apply occurs_line_skip ].

Ltac listing_of_template :=
  eexists _, _; split; [reflexivity|]; split; [reflexivity|];
  cbv zeta; place_blocks.

Lemma go_listings_in_order (g : Generator) (L : Listing) :
  L ∈ field_listings Go g ->
  exists c bs, artifact L = Ok c /\ blocks L = Ok bs /\ occurs_in_order (concat bs) c.
Proof.
  unfold field_listings. cbv zeta. rewrite !elem_of_cons, elem_of_nil.
  intros [-> | [-> | [-> | []]]]; cbn [artifact blocks].
  - unfold GoGenerator._model_template. listing_of_template.
  - unfold GoGenerator._dto_template. listing_of_template.
  - unfold GoGenerator._usecase_template. listing_of_template.
Qed.

Lemma laravel_listings_in_order (g : Generator) (L : Listing) :
  L ∈ field_listings Laravel g ->
  exists c bs, artifact L = Ok c /\ blocks L = Ok bs /\ occurs_in_order (concat bs) c.
Proof.
  unfold field_listings. cbv zeta. rewrite !elem_of_cons, elem_of_nil.
  intros [-> | [-> | [-> | [-> | []]]]]; cbn [artifact blocks].
  - unfold LaravelGenerator._model_template. listing_of_template.
  - unfold LaravelGenerator._migration_template. listing_of_template.
  - unfold LaravelGenerator._request_template. listing_of_template.
  - unfold LaravelGenerator._resource_template. listing_of_template.
Qed.

Lemma react_listings_in_order (g : Generator) (L : Listing) :
  L ∈ field_listings React g ->
  exists c bs, artifact L = Ok c /\ blocks L = Ok bs /\ occurs_in_order (concat bs) c.
Proof.
  unfold field_listings. cbv zeta. rewrite !elem_of_cons, elem_of_nil.
  intros [-> | [-> | []]]; cbn [artifact blocks].
  - unfold ReactGenerator._types_template. listing_of_template.
  - unfold ReactGenerator._form_component_template. listing_of_template.
Qed.

Lemma flutter_listings_in_order (g : Generator) (L : Listing) :
  L ∈ field_listings Flutter g ->
  exists c bs, artifact L = Ok c /\ blocks L = Ok bs /\ occurs_in_order (concat bs) c.
Proof.
  unfold field_listings. cbv zeta. rewrite !elem_of_cons, elem_of_nil.
  intros [-> | []]; cbn [artifact blocks].
  unfold FlutterGenerator._model_template. cbv zeta.
  destruct (mapR_total _ (fields g) flutter_model_field_Ok) as [a ->].
  destruct (mapR_total _ (fields g) flutter_model_constructor_param_Ok) as [b ->].
  destruct (mapR_total _ (fields g) flutter_model_from_json_Ok) as [c ->].
  destruct (mapR_total _ (fields g) flutter_model_to_json_Ok) as [d ->].
  cbn [fmap result_fmap mbind result_bind mret result_ret].
  listing_of_template.
Qed.

Ltac pick_content :=
  lazymatch goal with
  | |- ?x = ?y \/ _ => first [ constr_eq x y; left; reflexivity | right; pick_content ]
  | |- ?x = ?y => constr_eq x y; reflexivity
  end.

Ltac written_content :=
  cbv beta iota;
  repeat (first [rewrite bind_emit | rewrite bind_ret]; cbv beta iota);
  unfold mret, M_ret; cbn [fst];
  rewrite <- !app_assoc, fmap_app, elem_of_app; right;
  cbn [app fmap list_fmap snd];
  rewrite !elem_of_cons; pick_content.

(** A run that completes has written what the run on an accepting file
    system writes. *)
Lemma class_generate_Ok_log (disk : Disk) (cls : GeneratorClass) (g : Generator)
    (fs : FS) (files : list Path) :
  (class_generate disk cls g fs).2 = Ok files ->
  (class_generate disk cls g fs).1 = (class_generate accepting cls g fs).1 /\
  files = (artifacts cls g).*1.
Proof.
  rewrite !class_generate_calls.
  destruct (artifacts_rendered cls g) as (written & Hw & _ & Hp).
  rewrite (write_all_accepting _ _ [] fs Hw).
  destruct (write_all_outcome disk _ written [] fs Hw)
    as (k & Hlog & _ & [[-> Hres]|(p & c & e & _ & _ & Hres)]);
    rewrite Hres; [|discriminate].
  intros H. apply Ok_inj in H. subst files.
  rewrite Hlog, firstn_all. split; [reflexivity|exact Hp].
Qed.

(** Every listing is one of the files its [generate] writes. *)
Lemma listings_are_written (cls : GeneratorClass) (g : Generator) (L : Listing) (fs : FS) :
  L ∈ field_listings cls g ->
  exists c, artifact L = Ok c /\ c ∈ (class_generate accepting cls g fs).1.*2.
Proof.
  destruct cls; unfold field_listings; cbv zeta;
    rewrite !elem_of_cons, elem_of_nil; cbn [class_generate].
  - unfold GoGenerator.generate. cbv zeta.
    intros [-> | [-> | [-> | []]]]; cbn [artifact];
      (eexists; split; [reflexivity|]);
      destruct (validators (options g)); written_content.
  - unfold LaravelGenerator.generate.
    destruct (laravel_controller_Ok g) as [c ->].
    intros [-> | [-> | [-> | [-> | []]]]]; cbn [artifact];
      (eexists; split; [reflexivity|]); written_content.
  - unfold ReactGenerator.generate. cbv zeta.
    destruct (react_api_Ok g) as [a ->]. destruct (react_hooks_Ok g) as [h ->].
    intros [-> | [-> | []]]; cbn [artifact];
      (eexists; split; [reflexivity|]); written_content.
  - unfold FlutterGenerator.generate. cbv zeta.
    destruct (flutter_model_Ok g) as [m Hm].
    destruct (flutter_provider_Ok g) as [p ->].
    destruct (flutter_screen_Ok g) as [s ->].
    intros [-> | []]; cbn [artifact]. rewrite Hm.
    (eexists; split; [reflexivity|]); written_content.
Qed.

(** C5. In every stack, every artifact that lists the entity's fields (Go:
    model, DTOs, usecase; Laravel: model, migration, request, resource;
    React: types, form; Flutter: model) is a file of the run (of the run on
    a file system that accepts every write, and of every run that
    completes), and its text holds the per-field declarations of each of
    its blocks one after the other in the order of the parsed field
    sequence, the same order in every artifact. For "order_item" with the
    fields sku and qty, sku comes before qty in every written file that
    mentions sku. *)
Theorem field_order_preserved :
  (forall (cls : GeneratorClass) (g : Generator) (L : Listing),
      L ∈ field_listings cls g ->
      exists c bs,
        artifact L = Ok c /\ blocks L = Ok bs /\ occurs_in_order (concat bs) c) /\
  (forall (disk : Disk) (cls : GeneratorClass) (g : Generator) (L : Listing) (fs : FS),
      L ∈ field_listings cls g ->
      exists c,
        artifact L = Ok c /\
        c ∈ (class_generate accepting cls g fs).1.*2 /\
        (forall files, (class_generate disk cls g fs).2 = Ok files ->
                       c ∈ (class_generate disk cls g fs).1.*2)) /\
  (let run stack fields_str :=
     main accepting
          {| arg_stack := stack; arg_name := "order_item"; arg_fields := fields_str;
             arg_project := "app"; arg_output := "."; arg_validators := true |} [] in
   order_report "sku" "qty" (run "go" "sku:string,qty:int64?")
     = [ (["."; "pkg"; "database"; "order_item.go"], true);
         (["."; "internal"; "modules"; "order_item"; "dtos"; "order_item_dto.go"], true);
         (["."; "internal"; "modules"; "order_item"; "usecases"; "order_item_usecase.go"],
          true) ] /\
   order_report "sku" "qty" (run "laravel" "sku:string,qty:int64?")
     = [ (["."; "app"; "Models"; "OrderItem.php"], true);
         (["."; "database"; "migrations"; "create_order_items_table.php"], true);
         (["."; "app"; "Http"; "Requests"; "OrderItemRequest.php"], true);
         (["."; "app"; "Http"; "Resources"; "OrderItemResource.php"], true) ] /\
   order_report "sku" "qty" (run "react" "sku:string,qty:int64?")
     = [ (["."; "src"; "features"; "order_item"; "types.ts"], true);
         (["."; "src"; "features"; "order_item"; "components"; "OrderItemForm.tsx"],
          true) ] /\
   order_report "sku" "qty" (run "flutter" "sku:string,qty:int64?")
     = [ (["."; "lib"; "features"; "order_item"; "data"; "models";
           "order_item_model.dart"], true) ]).
Proof.
  split; [|split].
  - intros cls g L H. destruct cls.
    + exact (go_listings_in_order g L H).
    + exact (laravel_listings_in_order g L H).
    + exact (react_listings_in_order g L H).
    + exact (flutter_listings_in_order g L H).
  - intros disk cls g L fs H.
    destruct (listings_are_written cls g L fs H) as (c & Hc & Hin).
    exists c. split_and!; [exact Hc|exact Hin|].
    intros files Hok.
    rewrite (proj1 (class_generate_Ok_log disk cls g fs files Hok)). exact Hin.
  - cbv zeta. split_and!; vm_compute; reflexivity.
Qed.

Lemma field_order_preserved_witness :
  let g := {| module_name := "order_item"; entity_name := "OrderItem"; project := "app";
              output_dir := ["."]; options := {| validators := false |};
              fields := [("sku", "string", true); ("qty", "int64", false)] |} in
  exists c bs,
    Ok (GoGenerator._dto_template g) = Ok c /\
    Ok [map GoGenerator.dto_create_field (fields g);
        map GoGenerator.dto_update_field (fields g);
        map GoGenerator.dto_response_field (fields g);
        map GoGenerator.dto_mapping (fields g)] = Ok bs /\
    occurs_in_order (concat bs) c.
Proof.
  intros g.
  apply (proj1 field_order_preserved Go g
           {| artifact := Ok (GoGenerator._dto_template g);
              blocks := Ok [map GoGenerator.dto_create_field (fields g);
                            map GoGenerator.dto_update_field (fields g);
                            map GoGenerator.dto_response_field (fields g);
                            map GoGenerator.dto_mapping (fields g)] |}).
  unfold field_listings. cbv zeta. rewrite !elem_of_cons. right. left. reflexivity.
Defined.

(** * Further properties of the code *)

(** ** Case transforms *)

Lemma str_map_length (f : ascii -> ascii) (s : string) :
  String.length (str_map f s) = String.length s.
Proof. induction s as [|c s IH]; simpl; [|rewrite IH]; reflexivity. Qed.

Lemma str_contains_char_existsb (c : ascii) (s : string) :
  str_contains_char c s = str_existsb (fun x => Ascii.eqb x c) s.
Proof. induction s as [|x s IH]; simpl; [|rewrite IH]; reflexivity. Qed.

Lemma str_existsb_map (p : ascii -> bool) (f : ascii -> ascii) (s : string) :
  str_existsb p (str_map f s) = str_existsb (fun c => p (f c)) s.
Proof. induction s as [|x s IH]; simpl; [|rewrite IH]; reflexivity. Qed.

Lemma str_existsb_never (p : ascii -> bool) (s : string) :
  (forall c, p c = false) -> str_existsb p s = false.
Proof. intros H. induction s as [|x s IH]; simpl; [|rewrite H, IH]; reflexivity. Qed.

Lemma str_existsb_ext (p q : ascii -> bool) (s : string) :
  (forall c, p c = q c) -> str_existsb p s = str_existsb q s.
Proof. intros H. induction s as [|x s IH]; simpl; [|rewrite H, IH]; reflexivity. Qed.

Lemma str_existsb_app (p : ascii -> bool) (a b : string) :
  str_existsb p (a +:+ b) = str_existsb p a || str_existsb p b.
Proof.
  induction a as [|x a IH]; [reflexivity|].
  rewrite sapp_cons. simpl. rewrite IH, orb_assoc. reflexivity.
Qed.

Ltac by_cases_on_char c :=
  destruct c as [[] [] [] [] [] [] [] []]; reflexivity.

Lemma to_snake_case_map (s : string) :
  BaseGenerator.to_snake_case s
  = str_map (fun x => if Ascii.eqb (lower_char x) "-" then "_"%char else lower_char x) s.
Proof.
  unfold BaseGenerator.to_snake_case, str_replace, str_lower.
  rewrite str_map_map. reflexivity.
Qed.

Lemma to_kebab_case_map (s : string) :
  BaseGenerator.to_kebab_case s
  = str_map (fun x => if Ascii.eqb (lower_char x) "_" then "-"%char else lower_char x) s.
Proof.
  unfold BaseGenerator.to_kebab_case, str_replace, str_lower.
  rewrite str_map_map. reflexivity.
Qed.

(** X1. On an ASCII name [to_snake_case] and [to_kebab_case] change
    characters in place: the result has the length of the input (no
    separator is inserted or removed), holds no upper-case ASCII letter,
    and the snake form holds no ['-'], the kebab form no ['_']. (Beyond
    ASCII Python's [lower] can lengthen a string.) *)
Theorem snake_kebab_in_place (s : string) :
  is_ascii s = true ->
  String.length (BaseGenerator.to_snake_case s) = String.length s /\
  String.length (BaseGenerator.to_kebab_case s) = String.length s /\
  str_contains_char "-" (BaseGenerator.to_snake_case s) = false /\
  str_contains_char "_" (BaseGenerator.to_kebab_case s) = false /\
  str_existsb is_upper (BaseGenerator.to_snake_case s) = false /\
  str_existsb is_upper (BaseGenerator.to_kebab_case s) = false.
Proof.
  intros _.
  rewrite to_snake_case_map, to_kebab_case_map, !str_contains_char_existsb.
  rewrite !str_map_length, !str_existsb_map.
  split_and!; try reflexivity; apply str_existsb_never; intros c; by_cases_on_char c.
Qed.

Lemma snake_kebab_in_place_witness :
  is_ascii "Order-Item_Id" = true /\
  String.length (BaseGenerator.to_snake_case "Order-Item_Id") = 13 /\
  String.length (BaseGenerator.to_kebab_case "Order-Item_Id") = 13.
Proof.
  split; [reflexivity|].
  destruct (snake_kebab_in_place "Order-Item_Id" eq_refl) as (H1 & H2 & _).
  split; [exact H1|exact H2].
Defined.

(** X2. [to_snake_case] and [to_kebab_case] are idempotent, and each
    absorbs the other: the snake form of a kebab form is the snake form of
    the name, and the other way round. *)
Theorem snake_kebab_round_trips (s : string) :
  BaseGenerator.to_snake_case (BaseGenerator.to_snake_case s)
    = BaseGenerator.to_snake_case s /\
  BaseGenerator.to_kebab_case (BaseGenerator.to_kebab_case s)
    = BaseGenerator.to_kebab_case s /\
  BaseGenerator.to_snake_case (BaseGenerator.to_kebab_case s)
    = BaseGenerator.to_snake_case s /\
  BaseGenerator.to_kebab_case (BaseGenerator.to_snake_case s)
    = BaseGenerator.to_kebab_case s.
Proof.
  rewrite !to_snake_case_map, !to_kebab_case_map, !str_map_map.
  split_and!; apply str_map_ext; intros c; by_cases_on_char c.
Qed.

Lemma split_by_segments_clean (p : ascii -> bool) (s : string) :
  Forall (fun w => str_existsb p w = false) (split_by p s).
Proof.
  induction s as [|c s IH]; cbn [split_by].
  - apply List.Forall_cons; [reflexivity | apply List.Forall_nil].
  - destruct (p c) eqn:E.
    + apply List.Forall_cons; [reflexivity | exact IH].
    + destruct (split_by p s) as [|w ws].
      * apply List.Forall_cons; [simpl; rewrite E; reflexivity | apply List.Forall_nil].
      * inversion IH as [|? ? Hw Hws]; subst.
        apply List.Forall_cons; [simpl; rewrite E, Hw; reflexivity | exact Hws].
Qed.

Lemma split_by_clean (p : ascii -> bool) (s : string) :
  str_existsb p s = false -> split_by p s = [s].
Proof.
  induction s as [|c s IH]; [reflexivity|].
  simpl. intros H. apply orb_false_iff in H as [Hc Hs].
  rewrite Hc, (IH Hs). reflexivity.
Qed.

Lemma str_existsb_weaken (p q : ascii -> bool) (s : string) :
  (forall c, q c = true -> p c = true) ->
  str_existsb p s = false -> str_existsb q s = false.
Proof.
  intros H. induction s as [|x s IH]; [reflexivity|].
  simpl. intros E. apply orb_false_iff in E as [Ex Es].
  rewrite (IH Es). destruct (q x) eqn:Q; [|reflexivity].
  rewrite (H x Q) in Ex. discriminate Ex.
Qed.

Lemma is_delim_upper_char (c : ascii) : is_delim (upper_char c) = is_delim c.
Proof. by_cases_on_char c. Qed.

Lemma lower_upper_char (c : ascii) : lower_char (upper_char c) = lower_char c.
Proof. by_cases_on_char c. Qed.

Lemma str_existsb_delim_lower (w : string) :
  str_existsb is_delim (str_lower w) = str_existsb is_delim w.
Proof.
  unfold str_lower. rewrite str_existsb_map.
  apply str_existsb_ext, is_delim_lower_char.
Qed.

Lemma str_existsb_delim_capitalize (w : string) :
  str_existsb is_delim (str_capitalize w) = str_existsb is_delim w.
Proof.
  destruct w as [|c w]; [reflexivity|].
  cbn [str_capitalize str_existsb].
  rewrite is_delim_upper_char, str_existsb_delim_lower. reflexivity.
Qed.

Lemma str_existsb_join_empty (p : ascii -> bool) (l : list string) :
  Forall (fun w => str_existsb p w = false) l ->
  str_existsb p (str_join "" l) = false.
Proof.
  induction 1 as [|w l Hw Hl IH]; [reflexivity|].
  rewrite str_join_empty_sep_cons, str_existsb_app, Hw, IH. reflexivity.
Qed.

Lemma to_pascal_case_by_segments (name : string) :
  BaseGenerator.to_pascal_case name
  = str_join "" (map str_capitalize (split_by is_delim name)).
Proof. unfold BaseGenerator.to_pascal_case. rewrite split_replace_delims. reflexivity. Qed.

Lemma to_pascal_case_clean (name : string) :
  str_existsb is_delim (BaseGenerator.to_pascal_case name) = false.
Proof.
  rewrite to_pascal_case_by_segments. apply str_existsb_join_empty.
  apply Forall_map. eapply Forall_impl; [apply (split_by_segments_clean is_delim)|].
  intros w Hw. cbn beta. rewrite str_existsb_delim_capitalize. exact Hw.
Qed.

Lemma to_pascal_case_one_segment (name : string) :
  str_existsb is_delim name = false ->
  BaseGenerator.to_pascal_case name = str_capitalize name.
Proof.
  intros H. rewrite to_pascal_case_by_segments, (split_by_clean _ _ H). reflexivity.
Qed.

(** X3. The pascal-case form of any name holds neither ['-'] nor ['_'].
    A name that holds neither is capitalized as one word, so its inner
    capitals are lowered; in particular applying [to_pascal_case] to a
    pascal-case form capitalizes it as a whole, the transform is not
    idempotent on names such as "user_profile". *)
Theorem to_pascal_case_output (name : string) :
  str_contains_char "-" (BaseGenerator.to_pascal_case name) = false /\
  str_contains_char "_" (BaseGenerator.to_pascal_case name) = false /\
  (str_existsb is_delim name = false ->
   BaseGenerator.to_pascal_case name = str_capitalize name) /\
  BaseGenerator.to_pascal_case (BaseGenerator.to_pascal_case name)
    = str_capitalize (BaseGenerator.to_pascal_case name).
Proof.
  pose proof (to_pascal_case_clean name) as H.
  split_and!.
  - rewrite str_contains_char_existsb.
    apply (str_existsb_weaken is_delim); [|exact H].
    intros c Hc. unfold is_delim. rewrite Hc. reflexivity.
  - rewrite str_contains_char_existsb.
    apply (str_existsb_weaken is_delim); [|exact H].
    intros c Hc. unfold is_delim. rewrite Hc. apply orb_true_r.
  - apply to_pascal_case_one_segment.
  - apply to_pascal_case_one_segment, H.
Qed.

Lemma to_pascal_case_output_witness :
  BaseGenerator.to_pascal_case "UserProfile" = str_capitalize "UserProfile" /\
  BaseGenerator.to_pascal_case (BaseGenerator.to_pascal_case "user_profile")
    = "Userprofile".
Proof.
  split.
  - apply (proj1 (proj2 (proj2 (to_pascal_case_output "UserProfile")))). reflexivity.
  - rewrite (proj2 (proj2 (proj2 (to_pascal_case_output "user_profile")))). reflexivity.
Defined.

Lemma str_lower_app (a b : string) : str_lower (a +:+ b) = str_lower a +:+ str_lower b.
Proof.
  unfold str_lower. induction a as [|c a IH]; [reflexivity|].
  rewrite sapp_cons. cbn [str_map]. rewrite IH. reflexivity.
Qed.

(** X4. [to_camel_case] never raises: the split always has a first word.
    On an ASCII name its result has the letters of the pascal-case form up
    to case. When the name starts with a character other than ['-'] and
    ['_'], the result is the pascal-case form with that first character
    lower-cased; when the name is empty or starts with a delimiter, the
    first word is empty and the result is the pascal-case form itself,
    which may start with a capital. (Beyond ASCII the first character of
    the pascal-case form may be title-cased to more than one character.) *)
Theorem to_camel_case_shape (name : string) :
  exists v,
    BaseGenerator.to_camel_case name = Ok v /\
    (is_ascii name = true ->
     str_lower v = str_lower (BaseGenerator.to_pascal_case name) /\
     match name with
     | EmptyString => v = EmptyString
     | String c _ =>
         if is_delim c then v = BaseGenerator.to_pascal_case name
         else exists t, BaseGenerator.to_pascal_case name = String (upper_char c) t /\
                        v = String (lower_char c) t
     end).
Proof.
  unfold BaseGenerator.to_camel_case, index.
  rewrite to_pascal_case_by_segments, split_replace_delims.
  destruct name as [|c r].
  - exists "". split_and!; [reflexivity|]. intros _. split; reflexivity.
  - cbn [split_by]. destruct (is_delim c) eqn:E.
    + eexists. split; [reflexivity|]. intros _. cbn [drop map str_lower str_map].
      rewrite str_join_empty_sep_cons. split; reflexivity.
    + pose proof (split_by_not_nil is_delim r) as Hne.
      destruct (split_by is_delim r) as [|w ws]; [destruct (Hne eq_refl)|].
      eexists. split; [reflexivity|]. intros _.
      cbn [drop map]. rewrite str_join_empty_sep_cons.
      unfold str_lower at 2. cbn [str_capitalize str_map]. fold (str_lower w).
      rewrite !sapp_cons. split.
      * unfold str_lower at 1 3. cbn [str_map].
        rewrite lower_char_idem, lower_upper_char. reflexivity.
      * eexists. split; reflexivity.
Qed.

Lemma to_camel_case_shape_witness :
  exists v,
    BaseGenerator.to_camel_case "order_item" = Ok v /\
    str_lower v = str_lower (BaseGenerator.to_pascal_case "order_item").
Proof.
  destruct (to_camel_case_shape "order_item") as (v & Hv & H).
  exists v. split; [exact Hv|]. apply H. reflexivity.
Defined.

(** ** Pluralization and routes *)

Lemma sapp_length (a b : string) :
  String.length (a +:+ b) = String.length a + String.length b.
Proof.
  induction a as [|c a IH]; [reflexivity|].
  rewrite sapp_cons. simpl. rewrite IH. reflexivity.
Qed.

Lemma sapp_last_inj (p q : string) (a b : ascii) :
  p +:+ String a "" = q +:+ String b "" -> p = q /\ a = b.
Proof.
  revert q. induction p as [|x p IH]; intros [|y q] H.
  - rewrite !sapp_nil_l in H. injection H as ->. split; reflexivity.
  - rewrite sapp_nil_l, sapp_cons in H. injection H as _ H.
    destruct q; discriminate H.
  - rewrite sapp_nil_l, sapp_cons in H. injection H as _ H.
    destruct p; discriminate H.
  - rewrite !sapp_cons in H. injection H as -> H.
    destruct (IH _ H) as [-> ->]. split; reflexivity.
Qed.

Lemma str_endswith_last_char (p : string) (a b : ascii) (suf : string) :
  a <> b -> str_endswith (p +:+ String a "") (suf +:+ String b "") = false.
Proof.
  intros Hab. apply str_endswith_false. intros q H.
  rewrite <- sapp_assoc in H. apply sapp_last_inj in H as [_ E]. exact (Hab E).
Qed.

(** X5. Every plural ends in "s" and is one or two characters longer than
    the name: two when the name ends in "y", "s", "x", "ch" or "sh", one
    otherwise. In particular the plural of the empty name is "s", never
    the empty string. *)
Theorem pluralize_shape (name : string) :
  str_endswith (BaseGenerator.pluralize name) "s" = true /\
  String.length (BaseGenerator.pluralize name)
    = String.length name
      + (if str_endswith name "y" || str_endswith_any name ["s"; "x"; "ch"; "sh"]
         then 2 else 1).
Proof.
  unfold BaseGenerator.pluralize.
  destruct (str_endswith name "y") eqn:Ey.
  - apply str_endswith_spec in Ey as [p ->].
    rewrite str_drop_last_app. split.
    + replace (p +:+ "ies") with ((p +:+ "ie") +:+ "s")
        by (rewrite sapp_assoc; reflexivity).
      apply str_endswith_app.
    + rewrite !sapp_length. simpl. lia.
  - cbn [orb]. destruct (str_endswith_any name ["s"; "x"; "ch"; "sh"]).
    + split; [|rewrite sapp_length; reflexivity].
      replace (name +:+ "es") with ((name +:+ "e") +:+ "s")
        by (rewrite sapp_assoc; reflexivity).
      apply str_endswith_app.
    + split; [apply str_endswith_app|]. rewrite sapp_length. reflexivity.
Qed.

(** X6. Pluralization is not injective: a name ending in "y" and the same
    name ending in "ie" instead have the same plural, hence the same table
    name and the same route. *)
Theorem pluralize_collision (p : string) :
  BaseGenerator.pluralize (p +:+ "y") = p +:+ "ies" /\
  BaseGenerator.pluralize (p +:+ "ie") = p +:+ "ies".
Proof.
  split.
  - unfold BaseGenerator.pluralize. rewrite str_endswith_app, str_drop_last_app. reflexivity.
  - unfold BaseGenerator.pluralize, str_endswith_any. cbn [existsb].
    replace (p +:+ "ie") with ((p +:+ "i") +:+ "e") by (rewrite sapp_assoc; reflexivity).
    assert (Hy : str_endswith ((p +:+ "i") +:+ "e") "y" = false)
      by (apply (str_endswith_last_char (p +:+ "i") "e" "y" ""); discriminate).
    assert (Hs : str_endswith ((p +:+ "i") +:+ "e") "s" = false)
      by (apply (str_endswith_last_char (p +:+ "i") "e" "s" ""); discriminate).
    assert (Hx : str_endswith ((p +:+ "i") +:+ "e") "x" = false)
      by (apply (str_endswith_last_char (p +:+ "i") "e" "x" ""); discriminate).
    assert (Hch : str_endswith ((p +:+ "i") +:+ "e") "ch" = false)
      by (apply (str_endswith_last_char (p +:+ "i") "e" "h" "c"); discriminate).
    assert (Hsh : str_endswith ((p +:+ "i") +:+ "e") "sh" = false)
      by (apply (str_endswith_last_char (p +:+ "i") "e" "h" "s"); discriminate).
    rewrite Hy, Hs, Hx, Hch, Hsh. cbn [orb]. rewrite !sapp_assoc. reflexivity.
Qed.

Lemma str_map_app (f : ascii -> ascii) (a b : string) :
  str_map f (a +:+ b) = str_map f a +:+ str_map f b.
Proof.
  induction a as [|c a IH]; [reflexivity|].
  rewrite sapp_cons. cbn [str_map]. rewrite IH. reflexivity.
Qed.

Lemma str_drop_last_map (f : ascii -> ascii) (s : string) :
  str_drop_last (str_map f s) = str_map f (str_drop_last s).
Proof.
  induction s as [|c s IH]; [reflexivity|].
  destruct s as [|d s]; [reflexivity|].
  change (str_drop_last (String c (String d s)))
    with (String c (str_drop_last (String d s))).
  cbn [str_map] in *.
  change (str_drop_last (String (f c) (String (f d) (str_map f s))))
    with (String (f c) (str_drop_last (String (f d) (str_map f s)))).
  rewrite IH. reflexivity.
Qed.

(** The character map of [to_kebab_case], and the letters of the suffixes
    that [pluralize] tests. *)
Lemma kebab_char_suffix_letter (c a : ascii) :
  is_upper c = false ->
  existsb (Ascii.eqb a) ["y"; "s"; "x"; "c"; "h"]%char = true ->
  Ascii.eqb (if Ascii.eqb (lower_char c) "_" then "-"%char else lower_char c) a
  = Ascii.eqb c a.
Proof.
  intros Hu Ha. cbn [existsb] in Ha.
  repeat (apply orb_true_iff in Ha as [Ha|Ha];
          [apply Ascii.eqb_eq in Ha; subst a; revert Hu;
           destruct c as [[] [] [] [] [] [] [] []];
           first [reflexivity | discriminate]|]).
  discriminate Ha.
Qed.

Lemma kebab_eqb_suffix (s suf : string) :
  str_existsb is_upper s = false ->
  str_existsb (fun a => negb (existsb (Ascii.eqb a) ["y"; "s"; "x"; "c"; "h"]%char)) suf
    = false ->
  String.eqb (BaseGenerator.to_kebab_case s) suf = String.eqb s suf.
Proof.
  rewrite to_kebab_case_map. revert suf.
  induction s as [|c s IH]; intros [|a suf] Hs Hsuf; try reflexivity.
  cbn [str_existsb] in Hs, Hsuf.
  apply orb_false_iff in Hs as [Hc Hs]. apply orb_false_iff in Hsuf as [Ha Hsuf].
  apply negb_false_iff in Ha.
  cbn [str_map String.eqb].
  rewrite (kebab_char_suffix_letter c a Hc Ha), (IH suf Hs Hsuf). reflexivity.
Qed.

Lemma kebab_endswith_suffix (s suf : string) :
  str_existsb is_upper s = false ->
  str_existsb (fun a => negb (existsb (Ascii.eqb a) ["y"; "s"; "x"; "c"; "h"]%char)) suf
    = false ->
  str_endswith (BaseGenerator.to_kebab_case s) suf = str_endswith s suf.
Proof.
  intros Hs Hsuf. induction s as [|c s IH].
  - reflexivity.
  - rewrite (str_endswith_unfold (String c s)), str_endswith_unfold.
    rewrite (kebab_eqb_suffix (String c s) suf Hs Hsuf).
    cbn [str_existsb] in Hs. apply orb_false_iff in Hs as [_ Hs].
    rewrite to_kebab_case_map. cbn [str_map]. rewrite <- to_kebab_case_map.
    rewrite (IH Hs). reflexivity.
Qed.

Lemma pluralize_kebab (m : string) :
  str_existsb is_upper m = false ->
  BaseGenerator.to_kebab_case (BaseGenerator.pluralize m)
  = BaseGenerator.pluralize (BaseGenerator.to_kebab_case m).
Proof.
  intros Hm. unfold BaseGenerator.pluralize, str_endswith_any. cbn [existsb].
  rewrite !(kebab_endswith_suffix m) by (exact Hm || reflexivity).
  destruct (str_endswith m "y").
  - rewrite !to_kebab_case_map, str_map_app, str_drop_last_map. reflexivity.
  - destruct (str_endswith m "s" || (str_endswith m "x"
               || (str_endswith m "ch" || (str_endswith m "sh" || false)))).
    + rewrite !to_kebab_case_map, str_map_app. reflexivity.
    + rewrite !to_kebab_case_map, str_map_app. reflexivity.
Qed.

Lemma str_lower_no_upper (s : string) : str_existsb is_upper (str_lower s) = false.
Proof.
  unfold str_lower. rewrite str_existsb_map.
  apply str_existsb_never. intros c. by_cases_on_char c.
Qed.

Lemma to_kebab_case_lower (s : string) :
  BaseGenerator.to_kebab_case (str_lower s) = BaseGenerator.to_kebab_case s.
Proof.
  rewrite !to_kebab_case_map. unfold str_lower. rewrite str_map_map.
  apply str_map_ext. intros c. by_cases_on_char c.
Qed.

Lemma split_by_delim_kebab (s : string) :
  split_by is_delim (BaseGenerator.to_kebab_case s)
  = map str_lower (split_by is_delim s).
Proof.
  rewrite to_kebab_case_map.
  induction s as [|c s IH]; [reflexivity|].
  cbn [str_map split_by]. rewrite IH.
  replace (is_delim (if Ascii.eqb (lower_char c) "_" then "-"%char else lower_char c))
    with (is_delim c) by (by_cases_on_char c).
  destruct (is_delim c) eqn:E; [reflexivity|].
  replace (if Ascii.eqb (lower_char c) "_" then "-"%char else lower_char c)
    with (lower_char c)
    by (revert E; destruct c as [[] [] [] [] [] [] [] []];
        first [reflexivity | discriminate]).
  destruct (split_by is_delim s); reflexivity.
Qed.

Lemma to_pascal_case_kebab (name : string) :
  BaseGenerator.to_pascal_case (BaseGenerator.to_kebab_case name)
  = BaseGenerator.to_pascal_case name.
Proof.
  rewrite !to_pascal_case_by_segments, split_by_delim_kebab, map_map.
  f_equal. apply map_ext. intros w. apply str_capitalize_lower.
Qed.

(** X7. For an ASCII name, the route and the entity name of a run depend
    on the kebab-case form of the given name only: the route is the plural
    of that form and the entity name its pascal-case form. So spellings of
    a name that differ in letter case or in ['-'] against ['_']
    ("order_item", "Order-Item") share the route and the entity name,
    although their module names, and with them the file paths, may
    differ. *)
Theorem route_and_entity_of_kebab_form (cls : GeneratorClass)
    (name fields_str project output_dir : string) (options : Options) (g : Generator) :
  is_ascii name = true ->
  construct cls name fields_str project output_dir options = Ok g ->
  route g = BaseGenerator.pluralize (BaseGenerator.to_kebab_case name) /\
  entity_name g = BaseGenerator.to_pascal_case (BaseGenerator.to_kebab_case name).
Proof.
  intros _ H. apply construct_names in H as [Hm He]. split.
  - unfold route. rewrite Hm, (pluralize_kebab _ (str_lower_no_upper name)).
    rewrite to_kebab_case_lower. reflexivity.
  - rewrite He, to_pascal_case_kebab. reflexivity.
Qed.

Lemma route_and_entity_of_kebab_form_witness :
  (g ← construct Go "Order-Item" "sku:string" "app" "." {| validators := false |};
   mret (module_name g, route g, entity_name g))
  = Ok ("order-item", BaseGenerator.pluralize "order-item",
        BaseGenerator.to_pascal_case "order-item").
Proof.
  destruct (construct Go "Order-Item" "sku:string" "app" "." {| validators := false |})
    as [g|e] eqn:E; [|discriminate E].
  cbn [mbind result_bind mret result_ret].
  destruct (route_and_entity_of_kebab_form Go "Order-Item" _ _ _ _ g eq_refl E)
    as [-> ->].
  apply construct_names in E as [-> _]. reflexivity.
Defined.

(** ** More on field parsing *)

Lemma str_split_split_by (c : ascii) (s : string) :
  str_split c s = split_by (fun x => Ascii.eqb x c) s.
Proof. induction s as [|x s IH]; cbn [str_split split_by]; [|rewrite IH]; reflexivity. Qed.

Lemma str_split_sep (c : ascii) (a b : string) :
  str_split c (a +:+ String c b) = str_split c a ++ str_split c b.
Proof.
  induction a as [|x a IH].
  - rewrite sapp_nil_l. cbn [str_split]. rewrite Ascii.eqb_refl. reflexivity.
  - rewrite sapp_cons. cbn [str_split]. rewrite IH.
    destruct (Ascii.eqb x c); [reflexivity|].
    pose proof (split_by_not_nil (fun y => Ascii.eqb y c) a) as Hne.
    rewrite <- str_split_split_by in Hne.
    destruct (str_split c a) as [|w ws]; [destruct (Hne eq_refl)|]. reflexivity.
Qed.

Lemma parse_fields_spec_sep (trim : string -> string) (d a b : string) :
  parse_fields_spec trim d (a +:+ "," +:+ b)
  = parse_fields_spec trim d a ++ parse_fields_spec trim d b.
Proof.
  unfold parse_fields_spec.
  change (a +:+ "," +:+ b) with (a +:+ String "," b).
  rewrite str_split_sep, map_app, filter_app, map_app. reflexivity.
Qed.

Lemma class_parse_fields_spec (cls : GeneratorClass) (fields_str : string) :
  class_parse_fields cls fields_str
  = Ok (parse_fields_spec str_strip
          (match cls with Flutter => "String" | _ => "string" end) fields_str).
Proof. destruct cls; apply parse_fields_with_spec. Qed.

(** X8. Parsing distributes over the comma: the fields of [a,b] are the
    fields of [a] followed by the fields of [b], for any two strings and
    every stack. The empty string, and a string of commas and blanks only,
    has no fields. Nothing rejects a repeated field name. *)
Theorem parse_fields_comma (cls : GeneratorClass) (a b : string) :
  class_parse_fields cls (a +:+ "," +:+ b)
    = (fa ← class_parse_fields cls a; fb ← class_parse_fields cls b; mret (fa ++ fb)) /\
  class_parse_fields cls "" = Ok [] /\
  class_parse_fields cls " , ,, " = Ok [] /\
  class_parse_fields cls (a +:+ "," +:+ a)
    = (fa ← class_parse_fields cls a; mret (fa ++ fa)).
Proof.
  rewrite !class_parse_fields_spec, !parse_fields_spec_sep.
  split_and!; reflexivity.
Qed.

Lemma parse_token_name_required (d1 d2 tok : string) :
  fname (parse_token_spec str_strip d1 tok) = fname (parse_token_spec str_strip d2 tok) /\
  frequired (parse_token_spec str_strip d1 tok)
    = frequired (parse_token_spec str_strip d2 tok) /\
  (str_contains_char ":" (str_rstrip "?" tok) = true ->
   parse_token_spec str_strip d1 tok = parse_token_spec str_strip d2 tok).
Proof.
  unfold parse_token_spec.
  destruct (str_contains_char ":" (str_rstrip "?" tok));
    split_and!; try reflexivity; discriminate.
Qed.

(** X9. The four parsers agree on the field names, their order and their
    required flags for every field string; they can differ in the type of
    a field only, and only for a token that names no type. *)
Theorem parsers_agree_on_names (cls1 cls2 : GeneratorClass) (fields_str : string) :
  exists fs1 fs2,
    class_parse_fields cls1 fields_str = Ok fs1 /\
    class_parse_fields cls2 fields_str = Ok fs2 /\
    map fname fs1 = map fname fs2 /\
    map frequired fs1 = map frequired fs2 /\
    Forall2 (fun f1 f2 => f1 = f2 \/ (ftype f1 = "string" \/ ftype f1 = "String")) fs1 fs2.
Proof.
  rewrite !class_parse_fields_spec. eexists _, _.
  split; [reflexivity|]. split; [reflexivity|].
  unfold parse_fields_spec.
  set (d1 := match cls1 with Flutter => "String" | _ => "string" end).
  set (d2 := match cls2 with Flutter => "String" | _ => "string" end).
  induction (filter (fun w : string => w <> "") (map str_strip (str_split "," fields_str)))
    as [|tok toks (IHn & IHr & IHt)].
  - split_and!; [reflexivity | reflexivity | apply Forall2_nil_2].
  - destruct (parse_token_name_required d1 d2 tok) as (Hn & Hr & Ht).
    cbn [map]. rewrite Hn, Hr, IHn, IHr.
    split_and!; [reflexivity | reflexivity |].
    apply Forall2_cons_2; [|exact IHt].
    unfold parse_token_spec in *.
    destruct (str_contains_char ":" (str_rstrip "?" tok)); [left; reflexivity|].
    right. cbn [ftype fst snd]. subst d1. destruct cls1; auto.
Qed.

Lemma lstrip_by_clean (p q : ascii -> bool) (s : string) :
  str_existsb p s = false -> str_existsb p (lstrip_by q s) = false.
Proof.
  induction s as [|c s IH]; [reflexivity|].
  cbn [lstrip_by]. destruct (q c); [|exact id].
  cbn [str_existsb]. intros H. apply orb_false_iff in H as [_ H]. exact (IH H).
Qed.

Lemma rstrip_by_clean (p q : ascii -> bool) (s : string) :
  str_existsb p s = false -> str_existsb p (rstrip_by q s) = false.
Proof.
  induction s as [|c s IH]; [reflexivity|].
  cbn [str_existsb]. intros H. apply orb_false_iff in H as [Hc Hs].
  cbn [rstrip_by]. specialize (IH Hs).
  destruct (rstrip_by q s) as [|d r].
  - destruct (q c); [reflexivity|]. cbn [str_existsb]. rewrite Hc. reflexivity.
  - cbn [str_existsb] in *. rewrite Hc. exact IH.
Qed.

Lemma str_strip_clean (p : ascii -> bool) (s : string) :
  str_existsb p s = false -> str_existsb p (str_strip s) = false.
Proof. intros H. apply rstrip_by_clean, lstrip_by_clean, H. Qed.

Lemma str_before_clean (p : ascii -> bool) (c : ascii) (s : string) :
  str_existsb p s = false -> str_existsb p (str_before c s) = false.
Proof.
  induction s as [|x s IH]; [reflexivity|].
  cbn [str_existsb str_before]. intros H. apply orb_false_iff in H as [Hx Hs].
  destruct (Ascii.eqb x c); [reflexivity|].
  cbn [str_existsb]. rewrite Hx. exact (IH Hs).
Qed.

Lemma str_after_clean (p : ascii -> bool) (c : ascii) (s : string) :
  str_existsb p s = false -> str_existsb p (str_after c s) = false.
Proof.
  induction s as [|x s IH]; [reflexivity|].
  cbn [str_existsb str_after]. intros H. apply orb_false_iff in H as [Hx Hs].
  destruct (Ascii.eqb x c); [exact Hs | exact (IH Hs)].
Qed.

Lemma str_before_no_sep (c : ascii) (s : string) :
  str_contains_char c (str_before c s) = false.
Proof.
  induction s as [|x s IH]; [reflexivity|].
  cbn [str_before]. destruct (Ascii.eqb x c) eqn:E; [reflexivity|].
  cbn [str_contains_char]. rewrite E. exact IH.
Qed.

Lemma rstrip_by_idem (p : ascii -> bool) (s : string) :
  rstrip_by p (rstrip_by p s) = rstrip_by p s.
Proof.
  induction s as [|c s IH]; [reflexivity|].
  cbn [rstrip_by]. destruct (rstrip_by p s) as [|d r] eqn:E.
  - destruct (p c) eqn:Pc; [reflexivity|]. cbn [rstrip_by]. rewrite Pc. reflexivity.
  - change (rstrip_by p (String c (String d r)))
      with (match rstrip_by p (String d r) with
            | EmptyString => if p c then EmptyString else String c EmptyString
            | r' => String c r'
            end).
    rewrite IH. reflexivity.
Qed.

Lemma lstrip_by_head (p : ascii -> bool) (s : string) :
  match lstrip_by p s with
  | EmptyString => True
  | String c _ => p c = false
  end.
Proof.
  induction s as [|c s IH]; [exact I|].
  cbn [lstrip_by]. destruct (p c) eqn:E; [exact IH | exact E].
Qed.

Lemma rstrip_by_head (p : ascii -> bool) (c : ascii) (s : string) :
  p c = false -> exists r, rstrip_by p (String c s) = String c r.
Proof.
  intros Pc. cbn [rstrip_by]. destruct (rstrip_by p s) as [|d r].
  - rewrite Pc. eexists; reflexivity.
  - eexists; reflexivity.
Qed.

Lemma str_strip_idem (s : string) : str_strip (str_strip s) = str_strip s.
Proof.
  unfold str_strip.
  pose proof (lstrip_by_head is_space s) as H.
  destruct (lstrip_by is_space s) as [|c r] eqn:E; [reflexivity|].
  destruct (rstrip_by_head is_space c r H) as [r' Hr]. rewrite Hr.
  cbn [lstrip_by]. rewrite H, <- Hr. apply rstrip_by_idem.
Qed.

Lemma parse_token_clean (d tok : string) :
  str_contains_char "," tok = false ->
  str_contains_char "," d = false ->
  let f := parse_token_spec str_strip d tok in
  str_contains_char "," (fname f) = false /\
  str_contains_char "," (ftype f) = false /\
  str_contains_char ":" (fname f) = false /\
  str_strip (fname f) = fname f /\
  str_strip (ftype f) = ftype f.
Proof.
  rewrite !str_contains_char_existsb. intros Htok Hd.
  assert (Hrest : str_existsb (fun x => Ascii.eqb x ",") (str_rstrip "?" tok) = false)
    by (apply rstrip_by_clean, Htok).
  unfold parse_token_spec. cbv zeta.
  destruct (str_contains_char ":" (str_rstrip "?" tok)) eqn:C;
    cbn [fname ftype fst snd];
    rewrite ?str_strip_idem, !str_contains_char_existsb; split_and!; try reflexivity.
  - apply str_strip_clean, str_before_clean, Hrest.
  - apply str_strip_clean, str_after_clean, Hrest.
  - apply str_strip_clean. rewrite <- str_contains_char_existsb. apply str_before_no_sep.
  - apply str_strip_clean, Hrest.
  - apply str_strip_clean, Hd.
  - apply str_strip_clean. rewrite <- str_contains_char_existsb. exact C.
Qed.

(** X10. What a parsed descriptor never holds: for every stack and every
    field string, no field name and no type contains a comma, no field
    name contains a colon, and names and types carry no surrounding
    whitespace. *)
Theorem parsed_fields_are_clean (cls : GeneratorClass) (fields_str : string)
    (fs : list Field) (f : Field) :
  class_parse_fields cls fields_str = Ok fs ->
  f ∈ fs ->
  str_contains_char "," (fname f) = false /\
  str_contains_char "," (ftype f) = false /\
  str_contains_char ":" (fname f) = false /\
  str_strip (fname f) = fname f /\
  str_strip (ftype f) = ftype f.
Proof.
  rewrite class_parse_fields_spec. intros H Hf. apply Ok_inj in H. subst fs.
  unfold parse_fields_spec in Hf.
  apply list_elem_of_In, in_map_iff in Hf as (tok & <- & Htok).
  apply list_elem_of_In, list_elem_of_filter in Htok as [_ Htok].
  apply list_elem_of_In, in_map_iff in Htok as (t & <- & Ht).
  apply list_elem_of_In in Ht.
  apply parse_token_clean.
  - rewrite str_contains_char_existsb. apply str_strip_clean.
    pose proof (split_by_segments_clean (fun x => Ascii.eqb x ",") fields_str) as Hall.
    rewrite <- str_split_split_by in Hall.
    rewrite Forall_forall in Hall. apply Hall. exact Ht.
  - destruct cls; reflexivity.
Qed.

Lemma parsed_fields_are_clean_witness :
  let f : Field := ("b", "c:d", false) in
  str_contains_char "," (fname f) = false /\
  str_contains_char "," (ftype f) = false /\
  str_contains_char ":" (fname f) = false /\
  str_strip (fname f) = fname f /\
  str_strip (ftype f) = ftype f.
Proof.
  intros f.
  apply (parsed_fields_are_clean Go " a : int , b:c:d ? "
           [("a", "int", true); ("b", "c:d", false)] f).
  - reflexivity.
  - apply list_elem_of_lookup. exists 1. reflexivity.
Defined.

(** ** Types and search field of the Go and Laravel stacks *)

Lemma go_type_map_None (t : string) :
  t ∉ go_type_tokens -> GoGenerator.type_map !! t = None.
Proof.
  intros H. destruct (GoGenerator.type_map !! t) eqn:E; [|reflexivity].
  destruct H. apply go_type_map_dom. rewrite E. eexists; reflexivity.
Qed.

Lemma laravel_type_map_None (t : string) :
  t ∉ laravel_type_tokens -> LaravelGenerator.type_map !! t = None.
Proof.
  intros H. destruct (LaravelGenerator.type_map !! t) eqn:E; [|reflexivity].
  destruct H. apply laravel_type_map_dom. rewrite E. eexists; reflexivity.
Qed.

Ltac one_of_the_tokens H :=
  rewrite !elem_of_cons, elem_of_nil in H;
  repeat (destruct H as [H|H]; [subst; vm_compute; auto 20|]);
  destruct H.

(** X11. Whatever the type token, the column type that the Go model gets
    is one of the seven SQL types of the table, and the column method that
    the Laravel migration calls is one of the twelve Blueprint methods of
    the table: an unknown token can never reach the generated text through
    a lookup. *)
Theorem type_lookup_range (t : string) :
  In (GoGenerator._gorm_type t)
     ["varchar(255)"; "int"; "bigint"; "float"; "double"; "boolean"; "datetime"] /\
  In (LaravelGenerator._migration_type t)
     ["string"; "text"; "integer"; "bigInteger"; "float"; "double"; "decimal";
      "boolean"; "date"; "dateTime"; "timestamp"; "json"].
Proof.
  split.
  - destruct (decide (t ∈ go_type_tokens)) as [H|H].
    + unfold go_type_tokens in H. one_of_the_tokens H.
    + unfold GoGenerator._gorm_type. rewrite (go_type_map_None t H). left. reflexivity.
  - destruct (decide (t ∈ laravel_type_tokens)) as [H|H].
    + unfold laravel_type_tokens in H. one_of_the_tokens H.
    + unfold LaravelGenerator._migration_type. rewrite (laravel_type_map_None t H).
      left. reflexivity.
Qed.

Lemma str_startswith_nil (s : string) : str_startswith s "" = true.
Proof. destruct s; reflexivity. Qed.

Lemma str_startswith_star (t : string) : str_startswith ("*" +:+ t) "*" = true.
Proof.
  rewrite sapp_cons, sapp_nil_l. cbn [str_startswith].
  rewrite Ascii.eqb_refl. apply str_startswith_nil.
Qed.

Lemma lstrip_by_no_head (p : ascii -> bool) (s : string) (c : ascii) :
  p c = true -> str_startswith (lstrip_by p s) (String c "") = false.
Proof.
  intros Pc. pose proof (lstrip_by_head p s) as H.
  destruct (lstrip_by p s) as [|x r]; [reflexivity|].
  cbn [str_startswith]. destruct (Ascii.eqb_spec x c) as [->|_]; [|reflexivity].
  rewrite Pc in H. discriminate H.
Qed.

(** X12. Pointer types of the Go stack. In the model and the response
    shape a required field keeps its type and an optional field always has
    a pointer type: a type that already starts with ['*'] is kept, any
    other gets one ['*']; doing it twice changes nothing. In the update
    shape every field has exactly one leading ['*'], whatever number of
    them the declared type has. *)
Theorem go_pointer_types (t : string) :
  GoGenerator.nullable_type t true = t /\
  str_startswith (GoGenerator.nullable_type t false) "*" = true /\
  (str_startswith t "*" = true -> GoGenerator.nullable_type t false = t) /\
  (str_startswith t "*" = false -> GoGenerator.nullable_type t false = "*" +:+ t) /\
  GoGenerator.nullable_type (GoGenerator.nullable_type t false) false
    = GoGenerator.nullable_type t false /\
  str_startswith (str_lstrip "*" t) "*" = false /\
  str_lstrip "*" ("*" +:+ t) = str_lstrip "*" t.
Proof.
  unfold GoGenerator.nullable_type. cbn [orb].
  split_and!; try reflexivity.
  - destruct (str_startswith t "*") eqn:E; [exact E | apply str_startswith_star].
  - intros ->. reflexivity.
  - intros ->. reflexivity.
  - destruct (str_startswith t "*") eqn:E; [rewrite E; reflexivity|].
    rewrite str_startswith_star. reflexivity.
  - apply lstrip_by_no_head. reflexivity.
Qed.

(** X13. The search field of the Go usecase is "name" or the name of a
    declared field whose type token is exactly "string" and whose name
    does not end in "_id"; fields that do not qualify in front of the list
    do not change the choice. A field typed "*string" is never chosen. *)
Theorem search_field_is_declared (fs : list Field) :
  (GoGenerator.search_field fs = "name" \/
   exists f, f ∈ fs /\ GoGenerator.search_field fs = fname f /\
             ftype f = "string" /\ str_endswith (fname f) "_id" = false) /\
  (forall f : Field,
      (ftype f <> "string" \/ str_endswith (fname f) "_id" = true) ->
      GoGenerator.search_field (f :: fs) = GoGenerator.search_field fs).
Proof.
  split.
  - rewrite search_field_refines.
    induction fs as [|[[n t] r] fs IH]; [left; reflexivity|].
    cbn [search_field_spec].
    destruct (String.eqb_spec t "string") as [->|Ht]; cbn [andb].
    + destruct (str_endswith n "_id") eqn:E; cbn [negb].
      * destruct IH as [IH|(f & Hf & Hs & Ht & He)]; [left; exact IH|].
        right. exists f. split; [apply elem_of_cons; right; exact Hf|]. auto.
      * right. exists (n, "string", r). split; [apply elem_of_cons; left; reflexivity|]. auto.
    + destruct IH as [IH|(f & Hf & Hs & Ht' & He)]; [left; exact IH|].
      right. exists f. split; [apply elem_of_cons; right; exact Hf|]. auto.
  - intros [[n t] r] H. rewrite !search_field_refines. cbn [search_field_spec ftype fname fst snd] in *.
    destruct H as [H|H].
    + destruct (String.eqb_spec t "string") as [E|_]; [destruct (H E)|]. reflexivity.
    + rewrite H, andb_false_r. reflexivity.
Qed.

(** ** Options of a run *)

Lemma bind_mret_r {A} (m : M A) (fs : FS) : (a ← m; mret a) fs = m fs.
Proof.
  unfold mbind, M_bind, mret, M_ret. destruct (m fs) as [fs' [a|e]]; reflexivity.
Qed.

(** A last call after a sequence of calls. *)
Lemma write_all_snoc (disk : Disk) (calls : list (Path * result string))
    (path : Path) (content : result string) (fs : FS) :
  write_all disk [] (calls ++ [(path, content)]) fs
  = (files ← write_all disk [] calls; emit disk files path content) fs.
Proof.
  rewrite write_all_app. unfold mbind, M_bind.
  destruct (write_all disk [] calls fs) as [fs' [files|e]]; [|reflexivity].
  apply (bind_mret_r (emit disk files path content) fs').
Qed.

(** The calls of the Go stack with the validators are those without, then
    the validator file. *)
Lemma go_artifacts_with_validators (g0 g1 : Generator) :
  module_name g1 = module_name g0 ->
  entity_name g1 = entity_name g0 ->
  project g1 = project g0 ->
  output_dir g1 = output_dir g0 ->
  fields g1 = fields g0 ->
  validators (options g0) = false ->
  validators (options g1) = true ->
  artifacts Go g1
  = artifacts Go g0
    ++ [ (output_dir g0 // "internal" // "modules" // module_name g0 // "validators"
            // (module_name g0 +:+ "_validator.go"),
          Ok (GoGenerator._validator_template g0)) ].
Proof.
  destruct g0 as [m0 e0 p0 o0 [v0] f0], g1 as [m1 e1 p1 o1 [v1] f1].
  cbn [module_name entity_name project output_dir fields options validators].
  intros -> -> -> -> -> -> ->. reflexivity.
Qed.

(** X14. The [--validators] option adds one write and changes nothing
    else, on every file system. In the Go stack the run with the option is
    the run without it followed by the write of the validator template to
    internal/modules/<module>/validators/<module>_validator.go: the five
    files before it get the same paths and contents, and a run that fails
    without the option fails in the same way with it. In every other
    stack, and for an unregistered stack, the option has no effect at
    all. *)
Theorem validators_option (disk : Disk) (args : Args) (fs : FS) :
  (GENERATORS !! arg_stack args <> Some Go ->
   main disk (with_validators args true) fs
   = main disk (with_validators args false) fs) /\
  (GENERATORS !! arg_stack args = Some Go ->
   exists g : Generator,
     construct Go (arg_name args) (arg_fields args) (arg_project args)
       (arg_output args) {| validators := false |} = Ok g /\
     main disk (with_validators args true) fs
     = (files ← main disk (with_validators args false);
        emit disk files
          (output_dir g // "internal" // "modules" // module_name g // "validators"
             // (module_name g +:+ "_validator.go"))
          (Ok (GoGenerator._validator_template g))) fs).
Proof.
  split.
  - intros H. destruct (GENERATORS !! arg_stack args) as [cls|] eqn:E.
    + rewrite !(main_of_class disk _ cls) by exact E.
      unfold with_validators.
      cbn [arg_stack arg_name arg_fields arg_project arg_output arg_validators].
      rewrite !construct_Ok.
      destruct cls; [destruct (H eq_refl) | reflexivity | reflexivity | reflexivity].
    + rewrite !main_unregistered by exact E. reflexivity.
  - intros E. eexists. split; [apply construct_Ok|].
    unfold mbind at 1, M_bind.
    rewrite !(main_of_class disk _ Go) by exact E.
    unfold with_validators.
    cbn [arg_stack arg_name arg_fields arg_project arg_output arg_validators].
    rewrite !construct_Ok, !class_generate_calls.
    match goal with
    | |- write_all _ _ (artifacts Go ?g1) _
         = match write_all _ _ (artifacts Go ?g0) _ with _ => _ end =>
        rewrite (go_artifacts_with_validators g0 g1) by reflexivity
    end.
    rewrite write_all_snoc. unfold mbind at 1, M_bind. reflexivity.
Qed.

Lemma validators_option_witness :
  let args := {| arg_stack := "laravel"; arg_name := "product"; arg_fields := "name:string";
                 arg_project := ""; arg_output := "."; arg_validators := false |} in
  main name_max_disk (with_validators args true) []
  = main name_max_disk (with_validators args false) [].
Proof.
  intros args. apply (proj1 (validators_option name_max_disk args [])).
  vm_compute. discriminate.
Defined.

(** X15. The [--project] value reaches the Go stack only: there it is
    written verbatim in front of the import paths (so the default, the
    empty string, gives the import path "/pkg/database"); for every other
    stack, and for an unregistered stack, two runs that differ in the
    project only are the same run. *)
Theorem project_is_used_by_go_only (disk : Disk) (args : Args) (p1 p2 : string)
    (fs : FS) :
  GENERATORS !! arg_stack args <> Some Go ->
  main disk (with_project args p1) fs = main disk (with_project args p2) fs /\
  forall g : Generator,
    has_line ("import " +:+ dq +:+ project g +:+ "/pkg/database" +:+ dq)
             (GoGenerator._dto_template g).
Proof.
  intros H. split.
  - destruct (GENERATORS !! arg_stack args) as [cls|] eqn:E.
    + rewrite !(main_of_class disk _ cls) by exact E.
      unfold with_project.
      cbn [arg_stack arg_name arg_fields arg_project arg_output arg_validators].
      rewrite !construct_Ok.
      destruct cls; [destruct (H eq_refl) | reflexivity | reflexivity | reflexivity].
    + rewrite !main_unregistered by exact E. reflexivity.
  - intros g. unfold GoGenerator._dto_template. cbv zeta. find_line.
Qed.

Lemma project_is_used_by_go_only_witness :
  let args := {| arg_stack := "react"; arg_name := "product"; arg_fields := "name:string";
                 arg_project := ""; arg_output := "."; arg_validators := false |} in
  main accepting (with_project args "github.com/user/app") []
  = main accepting (with_project args "") [].
Proof.
  intros args.
  apply (project_is_used_by_go_only accepting args "github.com/user/app" "" []).
  vm_compute. discriminate.
Defined.

(** ** More on the generated pagination *)

Lemma controller_List_value (bits page perPage total : Z) :
  (bits = 32 \/ bits = 64)%Z ->
  (0 <= total < 2 ^ (bits - 1))%Z ->
  GeneratedGo.controller_List bits page perPage total =
    Some {| GeneratedGo.Page := (GeneratedGo.paging page perPage).1;
            GeneratedGo.PerPage := (GeneratedGo.paging page perPage).2;
            GeneratedGo.Total := total;
            GeneratedGo.TotalPages :=
              (total / (GeneratedGo.paging page perPage).2
               + (if (total mod (GeneratedGo.paging page perPage).2 =? 0)%Z
                  then 0 else 1))%Z |}.
Proof.
  intros Hb Ht. unfold GeneratedGo.controller_List.
  rewrite paging_defaults. cbn [fst snd].
  set (pp := (if (perPage <? 1)%Z then 20 else perPage)%Z).
  assert (Hpp : (1 <= pp)%Z) by (subst pp; destruct (Z.ltb_spec perPage 1); lia).
  unfold GeneratedGo.ToListResponse.
  destruct (Z.eqb_spec pp 0) as [E|_]; [lia|].
  rewrite (wrap_small bits total Hb Ht).
  rewrite Z.quot_div_nonneg, Z.rem_mod_nonneg by lia.
  assert (Hq : (0 <= total / pp <= total)%Z).
  { split; [apply Z.div_pos; lia|]. apply Z.div_le_upper_bound; nia. }
  assert (Hm : (0 <= total mod pp < pp)%Z) by (apply Z.mod_pos_bound; lia).
  assert (Hd : (total = pp * (total / pp) + total mod pp)%Z) by (apply Z.div_mod; lia).
  rewrite (wrap_small bits (total / pp) Hb) by lia.
  destruct (Z.eqb_spec (total mod pp) 0) as [E|E].
  - rewrite E. simpl. rewrite Z.add_0_r. reflexivity.
  - destruct (Z.gtb_spec (total mod pp) 0) as [G|G]; [|lia].
    rewrite wrap_small; [reflexivity | exact Hb | split; [lia | nia]].
Qed.

Lemma list_never_zero_size (page perPage : Z) :
  (1 <= (GeneratedGo.paging page perPage).1)%Z /\
  (1 <= (GeneratedGo.paging page perPage).2)%Z /\ True.
Proof.
  rewrite paging_defaults. cbn [fst snd].
  destruct (Z.ltb_spec page 1), (Z.ltb_spec perPage 1); split_and!; (lia || exact I).
Qed.

(** X17. The pages cover the items exactly: for a total count within Go's
    [int], the total-pages of the response is not negative, all pages
    together hold at least [total] items, one page fewer would not, and an
    empty result has no page. *)
Theorem pages_cover_total (bits page perPage total : Z) (r : GeneratedGo.ListResponse) :
  (bits = 32 \/ bits = 64)%Z ->
  (0 <= total < 2 ^ (bits - 1))%Z ->
  GeneratedGo.controller_List bits page perPage total = Some r ->
  (0 <= GeneratedGo.TotalPages r)%Z /\
  (total <= GeneratedGo.TotalPages r * GeneratedGo.PerPage r)%Z /\
  ((GeneratedGo.TotalPages r - 1) * GeneratedGo.PerPage r < total \/ total = 0)%Z /\
  (total = 0 -> GeneratedGo.TotalPages r = 0)%Z /\
  GeneratedGo.Total r = total.
Proof.
  intros Hb Ht H. rewrite (controller_List_value bits page perPage total Hb Ht) in H.
  apply (inj Some) in H. subst r.
  cbn [GeneratedGo.TotalPages GeneratedGo.PerPage GeneratedGo.Total].
  pose proof (proj1 (proj2 (list_never_zero_size page perPage))) as Hpp.
  set (pp := (GeneratedGo.paging page perPage).2) in *. clearbody pp.
  assert (Hq : (0 <= total / pp)%Z) by (apply Z.div_pos; lia).
  assert (Hm : (0 <= total mod pp < pp)%Z) by (apply Z.mod_pos_bound; lia).
  assert (Hd : (total = pp * (total / pp) + total mod pp)%Z) by (apply Z.div_mod; lia).
  destruct (Z.eqb_spec (total mod pp) 0) as [E|E].
  - split_and!; try lia; nia.
  - split_and!; try lia; nia.
Qed.

Lemma pages_cover_total_witness :
  let r := {| GeneratedGo.Page := 1; GeneratedGo.PerPage := 20;
              GeneratedGo.Total := 45; GeneratedGo.TotalPages := 3 |}%Z in
  (0 <= GeneratedGo.TotalPages r)%Z /\
  (45 <= GeneratedGo.TotalPages r * GeneratedGo.PerPage r)%Z /\
  ((GeneratedGo.TotalPages r - 1) * GeneratedGo.PerPage r < 45 \/ 45 = 0)%Z /\
  (45 = 0 -> GeneratedGo.TotalPages r = 0)%Z /\
  GeneratedGo.Total r = 45%Z.
Proof.
  intros r. apply (pages_cover_total 64 1 20 45 r).
  - right. reflexivity.
  - vm_compute. split; [discriminate | reflexivity].
  - reflexivity.
Defined.

(** X18. The window that the generated usecase reads: with the defaults
    applied, the limit is the page size, at least 1 and the same value as
    the response's per-page, and, as long as the product fits Go's [int],
    the offset is (page - 1) * page size, not negative; a request without
    a page, or with a page below 1, reads from offset 0. *)
Theorem list_window (bits page perPage : Z) :
  (bits = 32 \/ bits = 64)%Z ->
  let p := (GeneratedGo.paging page perPage).1 in
  let pp := (GeneratedGo.paging page perPage).2 in
  ((p - 1) * pp < 2 ^ (bits - 1))%Z ->
  GeneratedGo.usecase_List_window bits page perPage = ((p - 1) * pp, pp)%Z /\
  (0 <= (p - 1) * pp)%Z /\ (1 <= pp)%Z /\
  (page <= 1 -> (p - 1) * pp = 0)%Z /\
  (forall total r,
      GeneratedGo.controller_List bits page perPage total = Some r ->
      GeneratedGo.Page r = p /\ GeneratedGo.PerPage r = pp).
Proof.
  intros Hb p pp Hfit.
  destruct (list_never_zero_size page perPage) as (Hp & Hpp & _).
  fold p in Hp. fold pp in Hpp.
  assert (Hw : GeneratedGo.usecase_List_window bits page perPage
               = (GeneratedGo.wrap bits ((p - 1) * pp), pp)).
  { unfold GeneratedGo.usecase_List_window. subst p pp.
    destruct (GeneratedGo.paging page perPage). reflexivity. }
  assert (Hnn : (0 <= (p - 1) * pp)%Z) by (apply Z.mul_nonneg_nonneg; lia).
  split_and!.
  - rewrite Hw, wrap_small; [reflexivity | exact Hb | split; [exact Hnn | exact Hfit]].
  - exact Hnn.
  - exact Hpp.
  - intros Hle. subst p. rewrite paging_defaults. cbn [fst].
    destruct (Z.ltb_spec page 1); [lia|].
    replace page with 1%Z by lia. lia.
  - intros total r H. unfold GeneratedGo.controller_List in H.
    subst p pp. destruct (GeneratedGo.paging page perPage) as [a b].
    unfold GeneratedGo.ToListResponse in H.
    destruct (b =? 0)%Z; [discriminate H|].
    apply (inj Some) in H. subst r. split; reflexivity.
Qed.

Lemma list_window_witness :
  GeneratedGo.usecase_List_window 64 3 0 = (40, 20)%Z /\
  GeneratedGo.usecase_List_window 64 (-5) 50 = (0, 50)%Z.
Proof.
  assert (H64 : (64 = 32 \/ 64 = 64)%Z) by (right; reflexivity).
  split.
  - apply (proj1 (list_window 64 3 0 H64 ltac:(vm_compute; reflexivity))).
  - apply (proj1 (list_window 64 (-5) 50 H64 ltac:(vm_compute; reflexivity))).
Defined.

(** ** The Flutter model without fields *)

(** X19. The Flutter model template places the constructor parameters,
    joined by ", " and followed by a comma, on a line of their own. With
    no field (an empty field string) that line is a bare comma, in both
    constructors of the generated Dart file. *)
Theorem flutter_model_parameters (g : Generator) :
  exists (c : string) (params : list string),
    FlutterGenerator._model_template g = Ok c /\
    mapR FlutterGenerator.model_constructor_param (fields g) = Ok params /\
    has_line ("    " +:+ str_join ", " params +:+ ",") c /\
    (fields g = [] -> has_line "    ," c).
Proof.
  unfold FlutterGenerator._model_template. cbv zeta.
  destruct (mapR_total _ (fields g) flutter_model_field_Ok) as [a Ha].
  destruct (mapR_total _ (fields g) flutter_model_constructor_param_Ok) as [b Hb].
  destruct (mapR_total _ (fields g) flutter_model_from_json_Ok) as [c Hc].
  destruct (mapR_total _ (fields g) flutter_model_to_json_Ok) as [d Hd].
  rewrite Ha, Hb, Hc, Hd.
  cbn [fmap result_fmap mbind result_bind mret result_ret].
  eexists _, b. split; [reflexivity|]. split; [reflexivity|].
  split.
  - find_line.
  - intros Hnil. rewrite Hnil in Hb. apply Ok_inj in Hb. subst b.
    change "    ," with ("    " +:+ str_join ", " [] +:+ ","). find_line.
Qed.

Lemma flutter_model_parameters_witness :
  exists c,
    FlutterGenerator._model_template
      {| module_name := "product"; entity_name := "Product"; project := "";
         output_dir := ["."]; options := {| validators := false |}; fields := [] |} = Ok c
    /\ str_contains ("    ," +:+ nl) c = true.
Proof.
  destruct (flutter_model_parameters
              {| module_name := "product"; entity_name := "Product"; project := "";
                 output_dir := ["."]; options := {| validators := false |};
                 fields := [] |}) as (c & params & Hc & _ & _ & _).
  exists c. split; [exact Hc|].
  vm_compute in Hc. apply Ok_inj in Hc. subst c. vm_compute. reflexivity.
Defined.

(** ** The paths of a run *)

(** The paths of the calls of a stack are built from the module name, the
    entity name, the output directory and the option. *)
Lemma artifacts_paths (cls : GeneratorClass) (g1 g2 : Generator) :
  module_name g1 = module_name g2 ->
  entity_name g1 = entity_name g2 ->
  output_dir g1 = output_dir g2 ->
  validators (options g1) = validators (options g2) ->
  (artifacts cls g1).*1 = (artifacts cls g2).*1.
Proof.
  intros Hm He Ho Hv. destruct cls; cbn [artifacts]; cbv zeta;
    rewrite ?Hm, ?He, ?Ho, ?Hv; [destruct (validators (options g2))|..]; reflexivity.
Qed.

(** X20. Which files a run writes depends on the stack, the entity name,
    the output directory and the [--validators] flag only: two runs that
    agree on these and both complete return the same paths in the same
    order, whatever their field strings and projects are, on whatever file
    systems they run and whatever they wrote before. (A run need not
    complete: the file system may refuse a write, and whether it does may
    depend on the contents, hence on the fields.) *)
Theorem paths_do_not_depend_on_fields (disk1 disk2 : Disk) (args1 args2 : Args)
    (fs1 fs2 : FS) (paths1 paths2 : list Path) :
  arg_stack args1 = arg_stack args2 ->
  arg_name args1 = arg_name args2 ->
  arg_output args1 = arg_output args2 ->
  arg_validators args1 = arg_validators args2 ->
  (main disk1 args1 fs1).2 = Ok paths1 ->
  (main disk2 args2 fs2).2 = Ok paths2 ->
  paths1 = paths2.
Proof.
  intros Hs Hn Ho Hv.
  destruct (GENERATORS !! arg_stack args1) as [cls|] eqn:E.
  - rewrite (main_of_class disk1 args1 cls) by exact E.
    rewrite (main_of_class disk2 args2 cls) by (rewrite <- Hs; exact E).
    rewrite !construct_Ok. intros H1 H2.
    apply class_generate_Ok_log in H1 as [_ ->].
    apply class_generate_Ok_log in H2 as [_ ->].
    apply artifacts_paths;
      cbn [module_name entity_name output_dir options validators]; congruence.
  - rewrite (main_unregistered disk1 args1) by exact E. discriminate.
Qed.

Lemma paths_do_not_depend_on_fields_witness :
  let args1 := {| arg_stack := "laravel"; arg_name := "product";
                  arg_fields := "name:string"; arg_project := "";
                  arg_output := "out"; arg_validators := false |} in
  let args2 := {| arg_stack := "laravel"; arg_name := "product"; arg_fields := "";
                  arg_project := "app"; arg_output := "out";
                  arg_validators := false |} in
  exists paths,
    (main accepting args1 []).2 = Ok paths /\
    (main name_max_disk args2 [(["old"], "text")]).2 = Ok paths.
Proof.
  intros args1 args2.
  assert (H1 : exists p, (main accepting args1 []).2 = Ok p)
    by (vm_compute; eexists; reflexivity).
  assert (H2 : exists p, (main name_max_disk args2 [(["old"], "text")]).2 = Ok p)
    by (vm_compute; eexists; reflexivity).
  destruct H1 as [p1 H1], H2 as [p2 H2].
  exists p1. split; [exact H1|].
  rewrite (paths_do_not_depend_on_fields accepting name_max_disk args1 args2
             [] [(["old"], "text")] p1 p2 eq_refl eq_refl eq_refl eq_refl H1 H2).
  exact H2.
Defined.

(** ** The Flutter stack and the field types *)

Lemma flutter_param_of_name_and_flag (f1 f2 : Field) :
  fname f1 = fname f2 -> frequired f1 = frequired f2 ->
  FlutterGenerator.model_constructor_param f1 = FlutterGenerator.model_constructor_param f2.
Proof.
  destruct f1 as [[n1 t1] r1], f2 as [[n2 t2] r2]. cbn [fname frequired fst snd].
  intros -> ->. reflexivity.
Qed.

Lemma flutter_params_of_names_and_flags (fs1 fs2 : list Field) :
  map fname fs1 = map fname fs2 -> map frequired fs1 = map frequired fs2 ->
  mapR FlutterGenerator.model_constructor_param fs1
  = mapR FlutterGenerator.model_constructor_param fs2.
Proof.
  revert fs2. induction fs1 as [|f1 fs1 IH]; intros [|f2 fs2] Hn Hr;
    try discriminate Hn; [reflexivity|].
  cbn [map] in Hn, Hr. injection Hn as Hn1 Hn. injection Hr as Hr1 Hr.
  cbn [mapR]. rewrite (flutter_param_of_name_and_flag f1 f2 Hn1 Hr1), (IH fs2 Hn Hr).
  reflexivity.
Qed.

(** X21. The Flutter stack ignores the declared field types: the only
    per-field text that reaches its model artifact is the constructor
    parameter, built from the field's name and required flag (the blocks
    that use the type are computed and dropped). Two generators with the
    same names, output directory and field names and flags therefore
    write the same files with the same contents. *)
Theorem flutter_ignores_field_types (disk : Disk) (g1 g2 : Generator) (fs : FS) :
  module_name g1 = module_name g2 ->
  entity_name g1 = entity_name g2 ->
  output_dir g1 = output_dir g2 ->
  map fname (fields g1) = map fname (fields g2) ->
  map frequired (fields g1) = map frequired (fields g2) ->
  FlutterGenerator._model_template g1 = FlutterGenerator._model_template g2 /\
  FlutterGenerator.generate disk g1 fs = FlutterGenerator.generate disk g2 fs.
Proof.
  intros Hm He Ho Hn Hr.
  assert (Hmodel : FlutterGenerator._model_template g1
                   = FlutterGenerator._model_template g2).
  { unfold FlutterGenerator._model_template. cbv zeta.
    rewrite (flutter_params_of_names_and_flags _ _ Hn Hr), Hm, He.
    destruct (mapR_total _ (fields g1) flutter_model_field_Ok) as [a1 ->].
    destruct (mapR_total _ (fields g2) flutter_model_field_Ok) as [a2 ->].
    destruct (mapR_total _ (fields g2) flutter_model_constructor_param_Ok) as [b ->].
    destruct (mapR_total _ (fields g1) flutter_model_from_json_Ok) as [c1 ->].
    destruct (mapR_total _ (fields g2) flutter_model_from_json_Ok) as [c2 ->].
    destruct (mapR_total _ (fields g1) flutter_model_to_json_Ok) as [d1 ->].
    destruct (mapR_total _ (fields g2) flutter_model_to_json_Ok) as [d2 ->].
    reflexivity. }
  split; [exact Hmodel|].
  unfold FlutterGenerator.generate. cbv zeta. rewrite Hmodel, Hm, Ho.
  replace (FlutterGenerator._repository_template g1)
    with (FlutterGenerator._repository_template g2)
    by (unfold FlutterGenerator._repository_template; rewrite Hm, He; reflexivity).
  replace (FlutterGenerator._provider_template g1)
    with (FlutterGenerator._provider_template g2)
    by (unfold FlutterGenerator._provider_template; rewrite Hm, He; reflexivity).
  replace (FlutterGenerator._screen_template g1)
    with (FlutterGenerator._screen_template g2)
    by (unfold FlutterGenerator._screen_template; rewrite Hm, He; reflexivity).
  reflexivity.
Qed.

Lemma flutter_ignores_field_types_witness :
  let g (fs : list Field) :=
    {| module_name := "product"; entity_name := "Product"; project := "";
       output_dir := ["."]; options := {| validators := false |}; fields := fs |} in
  FlutterGenerator._model_template (g [("name", "String", true); ("price", "int", false)])
  = FlutterGenerator._model_template (g [("name", "double", true); ("price", "bool", false)]).
Proof.
  intros g.
  apply (flutter_ignores_field_types accepting
           (g [("name", "String", true); ("price", "int", false)])
           (g [("name", "double", true); ("price", "bool", false)]) []);
    reflexivity.
Defined.
